(** * DietTrackerPro: the in-memory store and its request handlers

    A shallow embedding of [server/storage.ts] (class [MemStorage]), of
    the [authenticate] middleware and the routes of [server/routes.ts], and
    of [getTimeSince] of [client/src/utils/formatDate.ts], with the entity
    types of [shared/schema.ts].

    Conventions.
    - A JavaScript number that holds an identifier, a counter or the time
      value of a [Date] is an integer; it is modelled in [Z].  (Counters
      start at 1 and are only incremented, so they stay exact.)
    - A [Date] is its time value in milliseconds; a member of type
      [Date | null] is an [option Z].  [new Date(d).getTime()] is the time
      value of a [Date], 0 for [null] and NaN for [undefined].
    - [new Date()] reads the wall clock; every reading is an explicit
      argument of the operation that makes it.
    - A [Map<number, T>] iterates in insertion order, so it is an
      association list in that order.
    - A method of the store is a function from the store to a result and the
      next store.  A handler runs without interruption until it waits for
      something outside the process; the one such wait between two accesses
      to the store is that for [bcrypt.hash] in a registration, and what
      follows from it is under "Calls that overlap". *)

From Stdlib Require Import ZArith List Sorted Permutation Bool Lia.
From stdpp Require Import base tactics list strings sorting pretty.

Local Open Scope string_scope.
Local Open Scope list_scope.
Local Open Scope Z_scope.

(** ** Numbers

    The numbers that the comparators compute: integers, and NaN. *)

Inductive number : Type :=
| Int (n : Z)
| NaN.

(** [x - y], for time values that are less than 2^53 apart, or where only
    the sign of the difference is read, as in the comparators: beyond 2^53
    a double rounds the difference (see [toDouble]) and keeps its sign. *)
Definition minus (x y : number) : number :=
  match x, y with
  | Int a, Int b => Int (a - b)
  | _, _ => NaN
  end.

(** ** Arrays *)

Module Array.
Section Array.
Context {A : Type}.

(** [for (const x of xs) { if (test(x)) results.push(x); }] starting
    from [results = []]. *)
Definition push_if (test : A → bool) (results : list A) (x : A) : list A :=
  if test x then results ++ [x] else results.

Definition collect (test : A → bool) (xs : list A) : list A :=
  fold_left (push_if test) xs [].

(** [Array.prototype.sort(compareFn)].  ECMAScript reads a NaN that
    [compareFn] returns as +0 (the abstract operation SortCompare), requires
    the sort to be stable, and fixes the result when [compareFn] is a
    consistent comparator: the elements in non-decreasing order, equal ones
    in their original order.  For a comparator that is not consistent the
    order is left to the engine; the model then gives the order of a stable
    insertion, which moves nothing as long as neighbours compare as equal or
    ordered.  [x] is placed before the first [y] with
    [SortCompare(x, y) <= 0]. *)
Definition SortCompare (compareFn : A → A → number) (x y : A) : Z :=
  match compareFn x y with
  | Int v => v
  | NaN => 0
  end.

Fixpoint sort_insert (cmp : A → A → Z) (x : A) (l : list A) : list A :=
  match l with
  | [] => [x]
  | y :: l' => if cmp x y <=? 0 then x :: y :: l' else y :: sort_insert cmp x l'
  end.

Definition sort_by (cmp : A → A → Z) (l : list A) : list A :=
  foldr (sort_insert cmp) [] l.

Definition sort (compareFn : A → A → number) (l : list A) : list A :=
  sort_by (SortCompare compareFn) l.

(** [arr.slice(0, n)] for an integer [n > 0]. *)
Definition slice0 (n : Z) (l : list A) : list A := take (Z.to_nat n) l.

(** [if (limit && limit > 0) return sorted.slice(0, limit); return sorted;]
    An absent limit is [None]; so is a limit that parsed to [NaN], which
    is falsy as well. *)
Definition apply_limit (limit : option Z) (sorted : list A) : list A :=
  match limit with
  | Some n => if (negb (n =? 0)) && (0 <? n) then slice0 n sorted else sorted
  | None => sorted
  end.
End Array.
End Array.

(** ** Maps in insertion order *)

Module JsMap.
Section JsMap.
Context {V : Type}.

Definition t : Type := list (Z * V).

Definition empty : t := [].

(** [m.get(k)]: the value, or [undefined]. *)
Fixpoint get (k : Z) (m : t) : option V :=
  match m with
  | [] => None
  | (k', v) :: m' => if k' =? k then Some v else get k m'
  end.

(** [m.set(k, v)]: an existing key keeps its place, a new key goes last. *)
Fixpoint set (k : Z) (v : V) (m : t) : t :=
  match m with
  | [] => [(k, v)]
  | (k', v') :: m' =>
      if k' =? k then (k, v) :: m' else (k', v') :: set k v m'
  end.

(** [m.delete(k)]: whether the key was there, and the map without it. *)
Fixpoint delete (k : Z) (m : t) : bool * t :=
  match m with
  | [] => (false, [])
  | (k', v) :: m' =>
      if k' =? k then (true, m')
      else let '(b, m'') := delete k m' in (b, (k', v) :: m'')
  end.

(** [m.values()] and [m.keys()], in iteration order. *)
Definition values (m : t) : list V := map snd m.
Definition keys (m : t) : list Z := map fst m.
End JsMap.
Arguments t : clear implicits.
End JsMap.

(** ** Entities ([shared/schema.ts])

    [text] columns are strings, [integer] columns integers, [numeric]
    columns strings (as drizzle infers them), [timestamp] columns time
    values, [boolean] columns booleans and [jsonb] columns JSON values.  A
    column without [notNull()] may hold [null] and is optional in the insert
    type, and the store copies the insert data as they are; so such a member
    is a value, [null], or absent.  It is an [option], [None] standing for
    [null] or absent, except for the date of a measurement, where the two
    differ in what the sort reads. *)

(** The member [date?: Date | null] of a measurement. *)
Inductive OptionalDate : Type :=
| DateAt (ms : Z)
| DateNull
| DateAbsent.

#[local] Unset Elimination Schemes.
Inductive Json : Type :=
| JNull
| JBool (b : bool)
| JNumber (n : Z)
| JString (s : string)
| JArray (items : list Json)
| JObject (members : list (string * Json)).
#[local] Set Elimination Schemes.

Module User.
Record t : Type := mk {
  id : Z;
  username : string;
  password : string;
  email : string;
  fullName : string;
  profileImage : option string;
  telegramToken : option string;
  telegramChatId : option string;
  createdAt : option Z
}.
End User.

Module InsertUser.
Record t : Type := mk {
  username : string;
  password : string;
  email : string;
  fullName : string;
  profileImage : option string;
  telegramToken : option string;
  telegramChatId : option string
}.
End InsertUser.

Module Client.
Record t : Type := mk {
  id : Z;
  userId : Z;
  fullName : string;
  email : string;
  phone : string;
  birthDate : option Z;
  gender : string;
  profileImage : option string;
  height : option string;
  startingWeight : option string;
  targetWeight : option string;
  activityLevel : option string;
  medicalHistory : option string;
  dietaryRestrictions : option string;
  telegramChatId : option string;
  notes : option string;
  isActive : option bool;
  createdAt : option Z
}.
End Client.

Module InsertClient.
Record t : Type := mk {
  userId : Z;
  fullName : string;
  email : string;
  phone : string;
  birthDate : option Z;
  gender : string;
  profileImage : option string;
  height : option string;
  startingWeight : option string;
  targetWeight : option string;
  activityLevel : option string;
  medicalHistory : option string;
  dietaryRestrictions : option string;
  telegramChatId : option string;
  notes : option string;
  isActive : option bool
}.
End InsertClient.

(** The record that an update receives, of type [Partial<InsertClient>]:
    every key may be absent ([None]).  The type is checked only when the
    server is compiled, and a value of it may carry keys that the type does
    not name.  [{ ...client, ...clientData }] copies every key the record
    carries; those that the entity has too, [id] and [createdAt], are part
    of the record here, at the types of the members they replace.  Keys
    that the entity has not are copied as well; the server hands them back
    and never reads them, and they are left out.  The records of the other
    updates are like this one. *)
Module PartialInsertClient.
Record t : Type := mk {
  id : option Z;
  userId : option Z;
  fullName : option string;
  email : option string;
  phone : option string;
  birthDate : option (option Z);
  gender : option string;
  profileImage : option (option string);
  height : option (option string);
  startingWeight : option (option string);
  targetWeight : option (option string);
  activityLevel : option (option string);
  medicalHistory : option (option string);
  dietaryRestrictions : option (option string);
  telegramChatId : option (option string);
  notes : option (option string);
  isActive : option (option bool);
  createdAt : option (option Z)
}.
End PartialInsertClient.

Module Measurement.
Record t : Type := mk {
  id : Z;
  clientId : Z;
  date : OptionalDate;
  weight : option string;
  chest : option string;
  waist : option string;
  hip : option string;
  arm : option string;
  thigh : option string;
  bodyFatPercentage : option string;
  notes : option string
}.
End Measurement.

Module InsertMeasurement.
Record t : Type := mk {
  clientId : Z;
  date : OptionalDate;
  weight : option string;
  chest : option string;
  waist : option string;
  hip : option string;
  arm : option string;
  thigh : option string;
  bodyFatPercentage : option string;
  notes : option string
}.
End InsertMeasurement.

Module PartialInsertMeasurement.
Record t : Type := mk {
  id : option Z;
  clientId : option Z;
  date : option OptionalDate;
  weight : option (option string);
  chest : option (option string);
  waist : option (option string);
  hip : option (option string);
  arm : option (option string);
  thigh : option (option string);
  bodyFatPercentage : option (option string);
  notes : option (option string)
}.
End PartialInsertMeasurement.

Module DietPlan.
Record t : Type := mk {
  id : Z;
  userId : Z;
  clientId : Z;
  name : string;
  description : option string;
  startDate : Z;
  endDate : option Z;
  dailyCalories : option string;
  macroProtein : option string;
  macroCarbs : option string;
  macroFat : option string;
  meals : Json;
  isActive : option bool;
  createdAt : option Z
}.
End DietPlan.

Module InsertDietPlan.
Record t : Type := mk {
  userId : Z;
  clientId : Z;
  name : string;
  description : option string;
  startDate : Z;
  endDate : option Z;
  dailyCalories : option string;
  macroProtein : option string;
  macroCarbs : option string;
  macroFat : option string;
  meals : Json;
  isActive : option bool
}.
End InsertDietPlan.

Module PartialInsertDietPlan.
Record t : Type := mk {
  id : option Z;
  userId : option Z;
  clientId : option Z;
  name : option string;
  description : option (option string);
  startDate : option Z;
  endDate : option (option Z);
  dailyCalories : option (option string);
  macroProtein : option (option string);
  macroCarbs : option (option string);
  macroFat : option (option string);
  meals : option Json;
  isActive : option (option bool);
  createdAt : option (option Z)
}.
End PartialInsertDietPlan.

Module Appointment.
Record t : Type := mk {
  id : Z;
  userId : Z;
  clientId : Z;
  date : Z;
  duration : Z;
  type : string;
  notes : option string;
  status : option string;
  createdAt : option Z
}.
End Appointment.

Module InsertAppointment.
Record t : Type := mk {
  userId : Z;
  clientId : Z;
  date : Z;
  duration : Z;
  type : string;
  notes : option string;
  status : option string
}.
End InsertAppointment.

Module PartialInsertAppointment.
Record t : Type := mk {
  id : option Z;
  userId : option Z;
  clientId : option Z;
  date : option Z;
  duration : option Z;
  type : option string;
  notes : option (option string);
  status : option (option string);
  createdAt : option (option Z)
}.
End PartialInsertAppointment.

Module Activity.
Record t : Type := mk {
  id : Z;
  userId : Z;
  clientId : option Z;
  type : string;
  description : string;
  createdAt : option Z
}.
End Activity.

Module InsertActivity.
Record t : Type := mk {
  userId : Z;
  clientId : option Z;
  type : string;
  description : string
}.
End InsertActivity.

Module BlogArticle.
Record t : Type := mk {
  id : Z;
  title : string;
  summary : string;
  content : string;
  author : string;
  imageUrl : option string;
  readTime : option Z;
  publishedAt : option Z
}.
End BlogArticle.

Module InsertBlogArticle.
Record t : Type := mk {
  title : string;
  summary : string;
  content : string;
  author : string;
  imageUrl : option string;
  readTime : option Z
}.
End InsertBlogArticle.

(** [new Date(d).getTime()] *)
Definition getTime (d : OptionalDate) : number :=
  match d with
  | DateAt ms => Int ms
  | DateNull => Int 0
  | DateAbsent => NaN
  end.

(** A member of type [Date | null], and one of type [Date], as an argument
    of [new Date]. *)
Definition nullable (d : option Z) : OptionalDate :=
  match d with
  | Some ms => DateAt ms
  | None => DateNull
  end.

(** The time value of a member of type [Date | null], [null] counting as
    0, as [new Date(null)] does. *)
Definition timeOf (d : option Z) : Z := default 0 d.

(** The time value of the date of a measurement, [null] counting as 0; it
    is read only where the date is not absent. *)
Definition measuredAt (d : OptionalDate) : Z :=
  match d with
  | DateAt ms => ms
  | DateNull | DateAbsent => 0
  end.

(** ** The runtime the server relies on

    [bcryptjs], [jsonwebtoken] and the locale support of [Date] are
    libraries; the store and the handlers are verified for any behaviour of
    them.  [bcrypt.hash] draws a random salt, which is an argument here, and
    a token carries its time of issue. *)

Class Runtime : Type := {
  bcrypt_hash : string → string → string;
  bcrypt_compare : string → string → bool;
  jwt_sign : Z → string → Z → string;
  toLocaleDateString : Z → string
}.

(** ** The store ([server/storage.ts]) *)

Record MemStorage : Type := mkMemStorage {
  users : JsMap.t User.t;
  clients : JsMap.t Client.t;
  measurements : JsMap.t Measurement.t;
  dietPlans : JsMap.t DietPlan.t;
  appointments : JsMap.t Appointment.t;
  activities : JsMap.t Activity.t;
  blogArticles : JsMap.t BlogArticle.t;
  userIdCounter : Z;
  clientIdCounter : Z;
  measurementIdCounter : Z;
  dietPlanIdCounter : Z;
  appointmentIdCounter : Z;
  activityIdCounter : Z;
  blogArticleIdCounter : Z
}.

(** Assignments to one member of [this]. *)
Definition set_users (m : JsMap.t User.t) (n : Z) (s : MemStorage) : MemStorage :=
  mkMemStorage m (clients s) (measurements s) (dietPlans s) (appointments s)
    (activities s) (blogArticles s) n (clientIdCounter s)
    (measurementIdCounter s) (dietPlanIdCounter s) (appointmentIdCounter s)
    (activityIdCounter s) (blogArticleIdCounter s).

Definition set_clients (m : JsMap.t Client.t) (n : Z) (s : MemStorage) : MemStorage :=
  mkMemStorage (users s) m (measurements s) (dietPlans s) (appointments s)
    (activities s) (blogArticles s) (userIdCounter s) n
    (measurementIdCounter s) (dietPlanIdCounter s) (appointmentIdCounter s)
    (activityIdCounter s) (blogArticleIdCounter s).

Definition set_measurements (m : JsMap.t Measurement.t) (n : Z) (s : MemStorage) : MemStorage :=
  mkMemStorage (users s) (clients s) m (dietPlans s) (appointments s)
    (activities s) (blogArticles s) (userIdCounter s) (clientIdCounter s)
    n (dietPlanIdCounter s) (appointmentIdCounter s)
    (activityIdCounter s) (blogArticleIdCounter s).

Definition set_dietPlans (m : JsMap.t DietPlan.t) (n : Z) (s : MemStorage) : MemStorage :=
  mkMemStorage (users s) (clients s) (measurements s) m (appointments s)
    (activities s) (blogArticles s) (userIdCounter s) (clientIdCounter s)
    (measurementIdCounter s) n (appointmentIdCounter s)
    (activityIdCounter s) (blogArticleIdCounter s).

Definition set_appointments (m : JsMap.t Appointment.t) (n : Z) (s : MemStorage) : MemStorage :=
  mkMemStorage (users s) (clients s) (measurements s) (dietPlans s) m
    (activities s) (blogArticles s) (userIdCounter s) (clientIdCounter s)
    (measurementIdCounter s) (dietPlanIdCounter s) n
    (activityIdCounter s) (blogArticleIdCounter s).

Definition set_activities (m : JsMap.t Activity.t) (n : Z) (s : MemStorage) : MemStorage :=
  mkMemStorage (users s) (clients s) (measurements s) (dietPlans s)
    (appointments s) m (blogArticles s) (userIdCounter s) (clientIdCounter s)
    (measurementIdCounter s) (dietPlanIdCounter s) (appointmentIdCounter s)
    n (blogArticleIdCounter s).

Definition set_blogArticles (m : JsMap.t BlogArticle.t) (n : Z) (s : MemStorage) : MemStorage :=
  mkMemStorage (users s) (clients s) (measurements s) (dietPlans s)
    (appointments s) (activities s) m (userIdCounter s) (clientIdCounter s)
    (measurementIdCounter s) (dietPlanIdCounter s) (appointmentIdCounter s)
    (activityIdCounter s) n.

(** The members as the constructor leaves them before it adds the initial
    articles. *)
Definition MemStorage_fields : MemStorage :=
  mkMemStorage JsMap.empty JsMap.empty JsMap.empty JsMap.empty JsMap.empty
    JsMap.empty JsMap.empty 1 1 1 1 1 1 1.

Section Storage.
Context `{Runtime}.

(** *** Users *)

Definition getUser (id : Z) (s : MemStorage) : option User.t :=
  JsMap.get id (users s).

(** [for (const user of this.users.values()) if (user.username === username)
    return user;] *)
Fixpoint find_username (username : string) (us : list User.t) : option User.t :=
  match us with
  | [] => None
  | user :: us' =>
      if String.eqb (User.username user) username then Some user
      else find_username username us'
  end.

Definition getUserByUsername (username : string) (s : MemStorage) : option User.t :=
  find_username username (JsMap.values (users s)).

Definition createUser (salt : string) (now : Z) (userData : InsertUser.t)
    (s : MemStorage) : User.t * MemStorage :=
  let hashedPassword := bcrypt_hash salt (InsertUser.password userData) in
  let id := userIdCounter s in
  let user :=
    User.mk id (InsertUser.username userData) hashedPassword
      (InsertUser.email userData) (InsertUser.fullName userData)
      (InsertUser.profileImage userData) (InsertUser.telegramToken userData)
      (InsertUser.telegramChatId userData) (Some now) in
  (user, set_users (JsMap.set id user (users s)) (id + 1) s).

(** *** Activities *)

Definition createActivity (now : Z) (activityData : InsertActivity.t)
    (s : MemStorage) : Activity.t * MemStorage :=
  let id := activityIdCounter s in
  let activity :=
    Activity.mk id (InsertActivity.userId activityData)
      (InsertActivity.clientId activityData) (InsertActivity.type activityData)
      (InsertActivity.description activityData) (Some now) in
  (activity, set_activities (JsMap.set id activity (activities s)) (id + 1) s).

Definition getActivitiesForUser (userId : Z) (limit : option Z)
    (s : MemStorage) : list Activity.t :=
  let results :=
    Array.collect (λ activity, Activity.userId activity =? userId)
      (JsMap.values (activities s)) in
  let sorted :=
    Array.sort
      (λ a b, minus (getTime (nullable (Activity.createdAt b)))
                (getTime (nullable (Activity.createdAt a))))
      results in
  Array.apply_limit limit sorted.

(** *** Clients *)

Definition getClientsForUser (userId : Z) (s : MemStorage) : list Client.t :=
  Array.collect (λ client, Client.userId client =? userId)
    (JsMap.values (clients s)).

Definition getClient (id : Z) (s : MemStorage) : option Client.t :=
  JsMap.get id (clients s).

Definition createClient (now nowActivity : Z) (clientData : InsertClient.t)
    (s : MemStorage) : Client.t * MemStorage :=
  let id := clientIdCounter s in
  let client :=
    Client.mk id (InsertClient.userId clientData)
      (InsertClient.fullName clientData) (InsertClient.email clientData)
      (InsertClient.phone clientData) (InsertClient.birthDate clientData)
      (InsertClient.gender clientData) (InsertClient.profileImage clientData)
      (InsertClient.height clientData) (InsertClient.startingWeight clientData)
      (InsertClient.targetWeight clientData)
      (InsertClient.activityLevel clientData)
      (InsertClient.medicalHistory clientData)
      (InsertClient.dietaryRestrictions clientData)
      (InsertClient.telegramChatId clientData) (InsertClient.notes clientData)
      (InsertClient.isActive clientData) (Some now) in
  let s1 := set_clients (JsMap.set id client (clients s)) (id + 1) s in
  let '(_, s2) :=
    createActivity nowActivity
      (InsertActivity.mk (InsertClient.userId clientData) (Some id) "client"
         ("Yeni danışan eklendi: " +:+ InsertClient.fullName clientData))
      s1 in
  (client, s2).

(** [{ ...client, ...clientData }]: a key of [clientData] overrides the
    member of [client], [id] and [createdAt] like any other. *)
Definition spreadClient (client : Client.t) (clientData : PartialInsertClient.t)
    : Client.t :=
  Client.mk (default (Client.id client) (PartialInsertClient.id clientData))
    (default (Client.userId client) (PartialInsertClient.userId clientData))
    (default (Client.fullName client) (PartialInsertClient.fullName clientData))
    (default (Client.email client) (PartialInsertClient.email clientData))
    (default (Client.phone client) (PartialInsertClient.phone clientData))
    (default (Client.birthDate client) (PartialInsertClient.birthDate clientData))
    (default (Client.gender client) (PartialInsertClient.gender clientData))
    (default (Client.profileImage client) (PartialInsertClient.profileImage clientData))
    (default (Client.height client) (PartialInsertClient.height clientData))
    (default (Client.startingWeight client) (PartialInsertClient.startingWeight clientData))
    (default (Client.targetWeight client) (PartialInsertClient.targetWeight clientData))
    (default (Client.activityLevel client) (PartialInsertClient.activityLevel clientData))
    (default (Client.medicalHistory client) (PartialInsertClient.medicalHistory clientData))
    (default (Client.dietaryRestrictions client) (PartialInsertClient.dietaryRestrictions clientData))
    (default (Client.telegramChatId client) (PartialInsertClient.telegramChatId clientData))
    (default (Client.notes client) (PartialInsertClient.notes clientData))
    (default (Client.isActive client) (PartialInsertClient.isActive clientData))
    (default (Client.createdAt client) (PartialInsertClient.createdAt clientData)).

Definition updateClient (id : Z) (clientData : PartialInsertClient.t)
    (s : MemStorage) : option Client.t * MemStorage :=
  match JsMap.get id (clients s) with
  | None => (None, s)
  | Some client =>
      let updatedClient := spreadClient client clientData in
      (Some updatedClient,
       set_clients (JsMap.set id updatedClient (clients s)) (clientIdCounter s) s)
  end.

Definition deleteClient (id : Z) (s : MemStorage) : bool * MemStorage :=
  let '(existed, m) := JsMap.delete id (clients s) in
  (existed, set_clients m (clientIdCounter s) s).

(** *** Measurements *)

Definition getMeasurementsForClient (clientId : Z) (s : MemStorage)
    : list Measurement.t :=
  let results :=
    Array.collect (λ measurement, Measurement.clientId measurement =? clientId)
      (JsMap.values (measurements s)) in
  Array.sort
    (λ a b, minus (getTime (Measurement.date b)) (getTime (Measurement.date a)))
    results.

Definition getMeasurement (id : Z) (s : MemStorage) : option Measurement.t :=
  JsMap.get id (measurements s).

Definition createMeasurement (nowActivity : Z)
    (measurementData : InsertMeasurement.t) (s : MemStorage)
    : Measurement.t * MemStorage :=
  let id := measurementIdCounter s in
  let measurement :=
    Measurement.mk id (InsertMeasurement.clientId measurementData)
      (InsertMeasurement.date measurementData)
      (InsertMeasurement.weight measurementData)
      (InsertMeasurement.chest measurementData)
      (InsertMeasurement.waist measurementData)
      (InsertMeasurement.hip measurementData)
      (InsertMeasurement.arm measurementData)
      (InsertMeasurement.thigh measurementData)
      (InsertMeasurement.bodyFatPercentage measurementData)
      (InsertMeasurement.notes measurementData) in
  let s1 := set_measurements (JsMap.set id measurement (measurements s)) (id + 1) s in
  match JsMap.get (InsertMeasurement.clientId measurementData) (clients s1) with
  | Some client =>
      let '(_, s2) :=
        createActivity nowActivity
          (InsertActivity.mk (Client.userId client)
             (Some (InsertMeasurement.clientId measurementData)) "measurement"
             ("Yeni ölçüm kaydedildi: " +:+ Client.fullName client +:+ " için"))
          s1 in
      (measurement, s2)
  | None => (measurement, s1)
  end.

Definition spreadMeasurement (measurement : Measurement.t)
    (measurementData : PartialInsertMeasurement.t) : Measurement.t :=
  Measurement.mk
    (default (Measurement.id measurement) (PartialInsertMeasurement.id measurementData))
    (default (Measurement.clientId measurement) (PartialInsertMeasurement.clientId measurementData))
    (default (Measurement.date measurement) (PartialInsertMeasurement.date measurementData))
    (default (Measurement.weight measurement) (PartialInsertMeasurement.weight measurementData))
    (default (Measurement.chest measurement) (PartialInsertMeasurement.chest measurementData))
    (default (Measurement.waist measurement) (PartialInsertMeasurement.waist measurementData))
    (default (Measurement.hip measurement) (PartialInsertMeasurement.hip measurementData))
    (default (Measurement.arm measurement) (PartialInsertMeasurement.arm measurementData))
    (default (Measurement.thigh measurement) (PartialInsertMeasurement.thigh measurementData))
    (default (Measurement.bodyFatPercentage measurement) (PartialInsertMeasurement.bodyFatPercentage measurementData))
    (default (Measurement.notes measurement) (PartialInsertMeasurement.notes measurementData)).

Definition updateMeasurement (id : Z) (measurementData : PartialInsertMeasurement.t)
    (s : MemStorage) : option Measurement.t * MemStorage :=
  match JsMap.get id (measurements s) with
  | None => (None, s)
  | Some measurement =>
      let updatedMeasurement := spreadMeasurement measurement measurementData in
      (Some updatedMeasurement,
       set_measurements (JsMap.set id updatedMeasurement (measurements s))
         (measurementIdCounter s) s)
  end.

Definition deleteMeasurement (id : Z) (s : MemStorage) : bool * MemStorage :=
  let '(existed, m) := JsMap.delete id (measurements s) in
  (existed, set_measurements m (measurementIdCounter s) s).

(** *** Diet plans *)

Definition getDietPlansForUser (userId : Z) (s : MemStorage) : list DietPlan.t :=
  Array.collect (λ dietPlan, DietPlan.userId dietPlan =? userId)
    (JsMap.values (dietPlans s)).

Definition getDietPlansForClient (clientId : Z) (s : MemStorage) : list DietPlan.t :=
  let results :=
    Array.collect (λ dietPlan, DietPlan.clientId dietPlan =? clientId)
      (JsMap.values (dietPlans s)) in
  Array.sort
    (λ a b, minus (getTime (nullable (DietPlan.createdAt b)))
              (getTime (nullable (DietPlan.createdAt a))))
    results.

Definition getDietPlan (id : Z) (s : MemStorage) : option DietPlan.t :=
  JsMap.get id (dietPlans s).

(** [client ? client.fullName : 'Bilinmeyen Danışan'] *)
Definition clientNameOf (client : option Client.t) : string :=
  match client with
  | Some c => Client.fullName c
  | None => "Bilinmeyen Danışan"
  end.

Definition createDietPlan (now nowActivity : Z) (dietPlanData : InsertDietPlan.t)
    (s : MemStorage) : DietPlan.t * MemStorage :=
  let id := dietPlanIdCounter s in
  let dietPlan :=
    DietPlan.mk id (InsertDietPlan.userId dietPlanData)
      (InsertDietPlan.clientId dietPlanData) (InsertDietPlan.name dietPlanData)
      (InsertDietPlan.description dietPlanData)
      (InsertDietPlan.startDate dietPlanData)
      (InsertDietPlan.endDate dietPlanData)
      (InsertDietPlan.dailyCalories dietPlanData)
      (InsertDietPlan.macroProtein dietPlanData)
      (InsertDietPlan.macroCarbs dietPlanData)
      (InsertDietPlan.macroFat dietPlanData) (InsertDietPlan.meals dietPlanData)
      (InsertDietPlan.isActive dietPlanData) (Some now) in
  let s1 := set_dietPlans (JsMap.set id dietPlan (dietPlans s)) (id + 1) s in
  let client := JsMap.get (InsertDietPlan.clientId dietPlanData) (clients s1) in
  let clientName := clientNameOf client in
  let '(_, s2) :=
    createActivity nowActivity
      (InsertActivity.mk (InsertDietPlan.userId dietPlanData)
         (Some (InsertDietPlan.clientId dietPlanData)) "diet_plan"
         ("Yeni diyet planı oluşturuldu: " +:+ clientName +:+ " için "
            +:+ InsertDietPlan.name dietPlanData))
      s1 in
  (dietPlan, s2).

Definition spreadDietPlan (dietPlan : DietPlan.t)
    (dietPlanData : PartialInsertDietPlan.t) : DietPlan.t :=
  DietPlan.mk (default (DietPlan.id dietPlan) (PartialInsertDietPlan.id dietPlanData))
    (default (DietPlan.userId dietPlan) (PartialInsertDietPlan.userId dietPlanData))
    (default (DietPlan.clientId dietPlan) (PartialInsertDietPlan.clientId dietPlanData))
    (default (DietPlan.name dietPlan) (PartialInsertDietPlan.name dietPlanData))
    (default (DietPlan.description dietPlan) (PartialInsertDietPlan.description dietPlanData))
    (default (DietPlan.startDate dietPlan) (PartialInsertDietPlan.startDate dietPlanData))
    (default (DietPlan.endDate dietPlan) (PartialInsertDietPlan.endDate dietPlanData))
    (default (DietPlan.dailyCalories dietPlan) (PartialInsertDietPlan.dailyCalories dietPlanData))
    (default (DietPlan.macroProtein dietPlan) (PartialInsertDietPlan.macroProtein dietPlanData))
    (default (DietPlan.macroCarbs dietPlan) (PartialInsertDietPlan.macroCarbs dietPlanData))
    (default (DietPlan.macroFat dietPlan) (PartialInsertDietPlan.macroFat dietPlanData))
    (default (DietPlan.meals dietPlan) (PartialInsertDietPlan.meals dietPlanData))
    (default (DietPlan.isActive dietPlan) (PartialInsertDietPlan.isActive dietPlanData))
    (default (DietPlan.createdAt dietPlan) (PartialInsertDietPlan.createdAt dietPlanData)).

Definition updateDietPlan (id : Z) (dietPlanData : PartialInsertDietPlan.t)
    (s : MemStorage) : option DietPlan.t * MemStorage :=
  match JsMap.get id (dietPlans s) with
  | None => (None, s)
  | Some dietPlan =>
      let updatedDietPlan := spreadDietPlan dietPlan dietPlanData in
      (Some updatedDietPlan,
       set_dietPlans (JsMap.set id updatedDietPlan (dietPlans s))
         (dietPlanIdCounter s) s)
  end.

Definition deleteDietPlan (id : Z) (s : MemStorage) : bool * MemStorage :=
  let '(existed, m) := JsMap.delete id (dietPlans s) in
  (existed, set_dietPlans m (dietPlanIdCounter s) s).

(** *** Appointments *)

Definition getAppointmentsForUser (userId : Z) (s : MemStorage)
    : list Appointment.t :=
  let results :=
    Array.collect (λ appointment, Appointment.userId appointment =? userId)
      (JsMap.values (appointments s)) in
  Array.sort
    (λ a b, minus (getTime (DateAt (Appointment.date a)))
              (getTime (DateAt (Appointment.date b))))
    results.

Definition getAppointmentsForClient (clientId : Z) (s : MemStorage)
    : list Appointment.t :=
  let results :=
    Array.collect (λ appointment, Appointment.clientId appointment =? clientId)
      (JsMap.values (appointments s)) in
  Array.sort
    (λ a b, minus (getTime (DateAt (Appointment.date a)))
              (getTime (DateAt (Appointment.date b))))
    results.

Definition getAppointment (id : Z) (s : MemStorage) : option Appointment.t :=
  JsMap.get id (appointments s).

Definition createAppointment (now nowActivity : Z)
    (appointmentData : InsertAppointment.t) (s : MemStorage)
    : Appointment.t * MemStorage :=
  let id := appointmentIdCounter s in
  let appointment :=
    Appointment.mk id (InsertAppointment.userId appointmentData)
      (InsertAppointment.clientId appointmentData)
      (InsertAppointment.date appointmentData)
      (InsertAppointment.duration appointmentData)
      (InsertAppointment.type appointmentData)
      (InsertAppointment.notes appointmentData)
      (InsertAppointment.status appointmentData) (Some now) in
  let s1 := set_appointments (JsMap.set id appointment (appointments s)) (id + 1) s in
  let client := JsMap.get (InsertAppointment.clientId appointmentData) (clients s1) in
  let clientName := clientNameOf client in
  let '(_, s2) :=
    createActivity nowActivity
      (InsertActivity.mk (InsertAppointment.userId appointmentData)
         (Some (InsertAppointment.clientId appointmentData)) "appointment"
         ("Yeni randevu oluşturuldu: " +:+ clientName +:+ " ile "
            +:+ toLocaleDateString (InsertAppointment.date appointmentData)))
      s1 in
  (appointment, s2).

Definition spreadAppointment (appointment : Appointment.t)
    (appointmentData : PartialInsertAppointment.t) : Appointment.t :=
  Appointment.mk
    (default (Appointment.id appointment) (PartialInsertAppointment.id appointmentData))
    (default (Appointment.userId appointment) (PartialInsertAppointment.userId appointmentData))
    (default (Appointment.clientId appointment) (PartialInsertAppointment.clientId appointmentData))
    (default (Appointment.date appointment) (PartialInsertAppointment.date appointmentData))
    (default (Appointment.duration appointment) (PartialInsertAppointment.duration appointmentData))
    (default (Appointment.type appointment) (PartialInsertAppointment.type appointmentData))
    (default (Appointment.notes appointment) (PartialInsertAppointment.notes appointmentData))
    (default (Appointment.status appointment) (PartialInsertAppointment.status appointmentData))
    (default (Appointment.createdAt appointment)
       (PartialInsertAppointment.createdAt appointmentData)).

Definition updateAppointment (id : Z) (appointmentData : PartialInsertAppointment.t)
    (s : MemStorage) : option Appointment.t * MemStorage :=
  match JsMap.get id (appointments s) with
  | None => (None, s)
  | Some appointment =>
      let updatedAppointment := spreadAppointment appointment appointmentData in
      (Some updatedAppointment,
       set_appointments (JsMap.set id updatedAppointment (appointments s))
         (appointmentIdCounter s) s)
  end.

Definition deleteAppointment (id : Z) (s : MemStorage) : bool * MemStorage :=
  let '(existed, m) := JsMap.delete id (appointments s) in
  (existed, set_appointments m (appointmentIdCounter s) s).

(** *** Blog articles *)

Definition getBlogArticles (limit : option Z) (s : MemStorage) : list BlogArticle.t :=
  let articles := JsMap.values (blogArticles s) in
  let sorted :=
    Array.sort
      (λ a b, minus (getTime (nullable (BlogArticle.publishedAt b)))
                (getTime (nullable (BlogArticle.publishedAt a))))
      articles in
  Array.apply_limit limit sorted.

Definition getBlogArticle (id : Z) (s : MemStorage) : option BlogArticle.t :=
  JsMap.get id (blogArticles s).

Definition createBlogArticle (now : Z) (articleData : InsertBlogArticle.t)
    (s : MemStorage) : BlogArticle.t * MemStorage :=
  let id := blogArticleIdCounter s in
  let article :=
    BlogArticle.mk id (InsertBlogArticle.title articleData)
      (InsertBlogArticle.summary articleData)
      (InsertBlogArticle.content articleData)
      (InsertBlogArticle.author articleData)
      (InsertBlogArticle.imageUrl articleData)
      (InsertBlogArticle.readTime articleData) (Some now) in
  (article, set_blogArticles (JsMap.set id article (blogArticles s)) (id + 1) s).

(** *** The constructor *)

Definition initialArticles : list InsertBlogArticle.t :=
  [ InsertBlogArticle.mk "Kilo Vermede Sağlıklı Beslenmenin Önemi"
      "Sağlıklı ve dengeli beslenme alışkanlıkları edinmek, kilo vermenin en önemli adımıdır..."
      "Detaylı içerik burada yer alacak" "Prof. Dr. Ayşe Yılmaz"
      (Some "https://images.unsplash.com/photo-1490645935967-10de6ba17061?ixlib=rb-1.2.1&auto=format&fit=crop&w=800&q=80")
      (Some 8);
    InsertBlogArticle.mk "Düzenli Egzersizin Metabolizma Üzerindeki Etkileri"
      "Düzenli fiziksel aktivite, metabolizmayı hızlandırarak kalori yakımını artırır..."
      "Detaylı içerik burada yer alacak" "Uzm. Dyt. Mehmet Demir"
      (Some "https://images.unsplash.com/photo-1517836357463-d25dfeac3438?ixlib=rb-1.2.1&auto=format&fit=crop&w=800&q=80")
      (Some 6);
    InsertBlogArticle.mk "Mevsimsel Besinlerin Sağlık Üzerindeki Olumlu Etkileri"
      "Mevsiminde tüketilen sebze ve meyveler, hem besin değeri açısından daha zengindir..."
      "Detaylı içerik burada yer alacak" "Dyt. Zeynep Kaya"
      (Some "https://images.unsplash.com/photo-1512621776951-a57141f2eefd?ixlib=rb-1.2.1&auto=format&fit=crop&w=800&q=80")
      (Some 5) ].

(** [articles.forEach(article => { this.createBlogArticle(article); })];
    [clock i] is the clock reading while the [i]-th article is created. *)
Fixpoint addInitialBlogArticles (clock : list Z) (articles : list InsertBlogArticle.t)
    (s : MemStorage) : MemStorage :=
  match articles, clock with
  | article :: articles', now :: clock' =>
      addInitialBlogArticles clock' articles' (createBlogArticle now article s).2
  | _, _ => s
  end.

(** [new MemStorage()], constructed while the clock reads [t1], [t2], [t3]. *)
Definition MemStorage_new (t1 t2 t3 : Z) : MemStorage :=
  addInitialBlogArticles [t1; t2; t3] initialArticles MemStorage_fields.

End Storage.

(** ** The request handlers ([server/routes.ts])

    A handler maps the request and the store to the response it sends and
    the next store.  The [authenticate] middleware has run before the
    client handlers: [principal] is [res.locals.userId], the id inside the
    verified token.  [schema.parse(req.body)] either yields a value or
    throws a [ZodError], whose formatted message the handler sends.
    [parseInt(req.params.id)] is an integer, or NaN when the parameter is no
    number; NaN is the key of no entry, and the handlers are given integer
    ids. *)

Module Login.
Record t : Type := mk {
  username : string;
  password : string
}.
End Login.

(** [const { password, ...userWithoutPassword } = user] *)
Module UserWithoutPassword.
Record t : Type := mk {
  id : Z;
  username : string;
  email : string;
  fullName : string;
  profileImage : option string;
  telegramToken : option string;
  telegramChatId : option string;
  createdAt : option Z
}.
End UserWithoutPassword.

Definition withoutPassword (user : User.t) : UserWithoutPassword.t :=
  UserWithoutPassword.mk (User.id user) (User.username user) (User.email user)
    (User.fullName user) (User.profileImage user) (User.telegramToken user)
    (User.telegramChatId user) (User.createdAt user).

Inductive Parsed (A : Type) : Type :=
| Valid (value : A)
| ZodError (message : string).
Arguments Valid {A} value.
Arguments ZodError {A} message.

Inductive Body : Type :=
| JsonMessage (message : string)
| JsonSession (user : UserWithoutPassword.t) (token : string)
| JsonClient (client : Client.t)
| JsonUndefined
| NoBody.

Record Response : Type := mkResponse {
  status : Z;
  body : Body
}.

Section Routes.
Context `{Runtime}.

(** [POST /api/auth/register] *)
Definition register (salt : string) (now issuedAt : Z)
    (parsed : Parsed InsertUser.t) (s : MemStorage) : Response * MemStorage :=
  match parsed with
  | ZodError message => (mkResponse 400 (JsonMessage message), s)
  | Valid userData =>
      match getUserByUsername (InsertUser.username userData) s with
      | Some existingUser =>
          (mkResponse 400 (JsonMessage "Bu kullanıcı adı zaten kullanılıyor"), s)
      | None =>
          let '(user, s1) := createUser salt now userData s in
          let token := jwt_sign (User.id user) (User.username user) issuedAt in
          (mkResponse 201 (JsonSession (withoutPassword user) token), s1)
      end
  end.

(** [POST /api/auth/login] *)
Definition login (issuedAt : Z) (parsed : Parsed Login.t) (s : MemStorage)
    : Response * MemStorage :=
  match parsed with
  | ZodError message => (mkResponse 400 (JsonMessage message), s)
  | Valid credentials =>
      match getUserByUsername (Login.username credentials) s with
      | None =>
          (mkResponse 401 (JsonMessage "Geçersiz kullanıcı adı veya şifre"), s)
      | Some user =>
          if negb (bcrypt_compare (Login.password credentials) (User.password user))
          then (mkResponse 401 (JsonMessage "Geçersiz kullanıcı adı veya şifre"), s)
          else
            let token := jwt_sign (User.id user) (User.username user) issuedAt in
            (mkResponse 200 (JsonSession (withoutPassword user) token), s)
      end
  end.

(** [GET /api/clients/:id] *)
Definition getClientRoute (principal id : Z) (s : MemStorage)
    : Response * MemStorage :=
  match getClient id s with
  | None => (mkResponse 404 (JsonMessage "Danışan bulunamadı"), s)
  | Some client =>
      if negb (Client.userId client =? principal)
      then (mkResponse 403 (JsonMessage "Bu danışana erişim izniniz yok"), s)
      else (mkResponse 200 (JsonClient client), s)
  end.

(** [PUT /api/clients/:id] *)
Definition putClientRoute (principal id : Z) (reqBody : PartialInsertClient.t)
    (s : MemStorage) : Response * MemStorage :=
  match getClient id s with
  | None => (mkResponse 404 (JsonMessage "Danışan bulunamadı"), s)
  | Some client =>
      if negb (Client.userId client =? principal)
      then (mkResponse 403 (JsonMessage "Bu danışanı güncelleme izniniz yok"), s)
      else
        let '(updatedClient, s1) := updateClient id reqBody s in
        match updatedClient with
        | Some c => (mkResponse 200 (JsonClient c), s1)
        | None => (mkResponse 200 JsonUndefined, s1)
        end
  end.

(** [DELETE /api/clients/:id] *)
Definition deleteClientRoute (principal id : Z) (s : MemStorage)
    : Response * MemStorage :=
  match getClient id s with
  | None => (mkResponse 404 (JsonMessage "Danışan bulunamadı"), s)
  | Some client =>
      if negb (Client.userId client =? principal)
      then (mkResponse 403 (JsonMessage "Bu danışanı silme izniniz yok"), s)
      else
        let '(_, s1) := deleteClient id s in
        (mkResponse 204 NoBody, s1)
  end.

End Routes.

(** ** Runs of the store

    The mutating methods of [IStorage], with their arguments and the clock
    readings (and the salt) they consume. *)

Inductive Op : Type :=
| CreateUser (salt : string) (now : Z) (userData : InsertUser.t)
| CreateClient (now nowActivity : Z) (clientData : InsertClient.t)
| UpdateClient (id : Z) (clientData : PartialInsertClient.t)
| DeleteClient (id : Z)
| CreateMeasurement (nowActivity : Z) (measurementData : InsertMeasurement.t)
| UpdateMeasurement (id : Z) (measurementData : PartialInsertMeasurement.t)
| DeleteMeasurement (id : Z)
| CreateDietPlan (now nowActivity : Z) (dietPlanData : InsertDietPlan.t)
| UpdateDietPlan (id : Z) (dietPlanData : PartialInsertDietPlan.t)
| DeleteDietPlan (id : Z)
| CreateAppointment (now nowActivity : Z) (appointmentData : InsertAppointment.t)
| UpdateAppointment (id : Z) (appointmentData : PartialInsertAppointment.t)
| DeleteAppointment (id : Z)
| CreateActivity (now : Z) (activityData : InsertActivity.t)
| CreateBlogArticle (now : Z) (articleData : InsertBlogArticle.t).

Inductive EntityType : Type :=
| TUser | TClient | TMeasurement | TDietPlan | TAppointment | TActivity
| TBlogArticle.

(** The identifiers (the keys) of the stored entities of a type, in
    iteration order. *)
Definition ids (T : EntityType) (s : MemStorage) : list Z :=
  match T with
  | TUser => JsMap.keys (users s)
  | TClient => JsMap.keys (clients s)
  | TMeasurement => JsMap.keys (measurements s)
  | TDietPlan => JsMap.keys (dietPlans s)
  | TAppointment => JsMap.keys (appointments s)
  | TActivity => JsMap.keys (activities s)
  | TBlogArticle => JsMap.keys (blogArticles s)
  end.

(** The [id] members of the stored entities of a type, in iteration order. *)
Definition idMembers (T : EntityType) (s : MemStorage) : list Z :=
  match T with
  | TUser => map User.id (JsMap.values (users s))
  | TClient => map Client.id (JsMap.values (clients s))
  | TMeasurement => map Measurement.id (JsMap.values (measurements s))
  | TDietPlan => map DietPlan.id (JsMap.values (dietPlans s))
  | TAppointment => map Appointment.id (JsMap.values (appointments s))
  | TActivity => map Activity.id (JsMap.values (activities s))
  | TBlogArticle => map BlogArticle.id (JsMap.values (blogArticles s))
  end.

Definition counter (T : EntityType) (s : MemStorage) : Z :=
  match T with
  | TUser => userIdCounter s
  | TClient => clientIdCounter s
  | TMeasurement => measurementIdCounter s
  | TDietPlan => dietPlanIdCounter s
  | TAppointment => appointmentIdCounter s
  | TActivity => activityIdCounter s
  | TBlogArticle => blogArticleIdCounter s
  end.

(** The invariant of a map and its counter: the keys increase along the
    iteration order and lie between 1 and the counter, and every entity
    [fits] the key it is stored under. *)
Definition map_wf {V : Type} (fits : Z → V → Prop) (n : Z) (m : JsMap.t V) : Prop :=
  1 ≤ n ∧
  StronglySorted Z.lt (JsMap.keys m) ∧
  Forall (λ kv, (1 ≤ kv.1 ∧ kv.1 < n) ∧ fits kv.1 kv.2) m.

(** An entity that carries its key as [id], and any entity. *)
Definition carries {V : Type} (idOf : V → Z) (k : Z) (v : V) : Prop := idOf v = k.

Definition any {V : Type} (k : Z) (v : V) : Prop := True.

(** The invariant of the store.  No method updates a user, an activity or
    an article, so these carry their keys as [id]; an update may give an
    entity of the other maps another [id] than its key. *)
Record wf (s : MemStorage) : Prop := mkWf {
  wf_users : map_wf (carries User.id) (userIdCounter s) (users s);
  wf_clients : map_wf any (clientIdCounter s) (clients s);
  wf_measurements : map_wf any (measurementIdCounter s) (measurements s);
  wf_dietPlans : map_wf any (dietPlanIdCounter s) (dietPlans s);
  wf_appointments : map_wf any (appointmentIdCounter s) (appointments s);
  wf_activities : map_wf (carries Activity.id) (activityIdCounter s) (activities s);
  wf_blogArticles :
    map_wf (carries BlogArticle.id) (blogArticleIdCounter s) (blogArticles s)
}.

(** [carriesIds s]: every client, measurement, diet plan and appointment of
    [s] carries its key as [id]; [keepsId op]: [op] is no update whose
    record has an [id] key. *)
Definition carriesIds (s : MemStorage) : Prop :=
  Forall (λ kv, Client.id kv.2 = kv.1) (clients s)
  ∧ Forall (λ kv, Measurement.id kv.2 = kv.1) (measurements s)
  ∧ Forall (λ kv, DietPlan.id kv.2 = kv.1) (dietPlans s)
  ∧ Forall (λ kv, Appointment.id kv.2 = kv.1) (appointments s).

Definition keepsId (op : Op) : Prop :=
  match op with
  | UpdateClient _ d => PartialInsertClient.id d = None
  | UpdateMeasurement _ d => PartialInsertMeasurement.id d = None
  | UpdateDietPlan _ d => PartialInsertDietPlan.id d = None
  | UpdateAppointment _ d => PartialInsertAppointment.id d = None
  | _ => True
  end.

(** [keepsStamp op]: [op] is no update whose record has a [createdAt]
    key. *)
Definition keepsStamp (op : Op) : Prop :=
  match op with
  | UpdateClient _ d => PartialInsertClient.createdAt d = None
  | UpdateDietPlan _ d => PartialInsertDietPlan.createdAt d = None
  | UpdateAppointment _ d => PartialInsertAppointment.createdAt d = None
  | _ => True
  end.

Section Runs.
Context `{Runtime}.

Definition step (op : Op) (s : MemStorage) : MemStorage :=
  match op with
  | CreateUser salt now d => (createUser salt now d s).2
  | CreateClient now nowA d => (createClient now nowA d s).2
  | UpdateClient id d => (updateClient id d s).2
  | DeleteClient id => (deleteClient id s).2
  | CreateMeasurement nowA d => (createMeasurement nowA d s).2
  | UpdateMeasurement id d => (updateMeasurement id d s).2
  | DeleteMeasurement id => (deleteMeasurement id s).2
  | CreateDietPlan now nowA d => (createDietPlan now nowA d s).2
  | UpdateDietPlan id d => (updateDietPlan id d s).2
  | DeleteDietPlan id => (deleteDietPlan id s).2
  | CreateAppointment now nowA d => (createAppointment now nowA d s).2
  | UpdateAppointment id d => (updateAppointment id d s).2
  | DeleteAppointment id => (deleteAppointment id s).2
  | CreateActivity now d => (createActivity now d s).2
  | CreateBlogArticle now d => (createBlogArticle now d s).2
  end.

(** The store after the operations [ops], first to last. *)
Definition run (ops : list Op) (s : MemStorage) : MemStorage :=
  fold_left (λ s op, step op s) ops s.

(** The type and the [id] member of the entity a create method returns. *)
Definition created (op : Op) (s : MemStorage) : option (EntityType * Z) :=
  match op with
  | CreateUser salt now d => Some (TUser, User.id (createUser salt now d s).1)
  | CreateClient now nowA d =>
      Some (TClient, Client.id (createClient now nowA d s).1)
  | CreateMeasurement nowA d =>
      Some (TMeasurement, Measurement.id (createMeasurement nowA d s).1)
  | CreateDietPlan now nowA d =>
      Some (TDietPlan, DietPlan.id (createDietPlan now nowA d s).1)
  | CreateAppointment now nowA d =>
      Some (TAppointment, Appointment.id (createAppointment now nowA d s).1)
  | CreateActivity now d => Some (TActivity, Activity.id (createActivity now d s).1)
  | CreateBlogArticle now d =>
      Some (TBlogArticle, BlogArticle.id (createBlogArticle now d s).1)
  | _ => None
  end.

(** A store of a running server: constructed, then operated on. *)
Definition reachable (s : MemStorage) : Prop :=
  ∃ t1 t2 t3 ops, s = run ops (MemStorage_new t1 t2 t3).

End Runs.

(** ** A runtime and data for the examples

    A toy runtime: a hash is the password followed by the salt, a token
    names its user, every date prints the same. *)

Definition exampleRuntime : Runtime :=
  {| bcrypt_hash salt password := password +:+ "#" +:+ salt;
     bcrypt_compare password hash := String.prefix (password +:+ "#") hash;
     jwt_sign id username issuedAt := "jwt." +:+ username;
     toLocaleDateString date := "01.01.2025" |}.

Definition exampleUser (username password : string) : InsertUser.t :=
  InsertUser.mk username password "dyt@example.com" "Dyt. Deniz" None None None.

Definition exampleClient (userId : Z) (fullName : string) : InsertClient.t :=
  InsertClient.mk userId fullName "danisan@example.com" "555" None "female"
    None None None None None None None None None (Some true).

Definition exampleMeasurement (clientId : Z) (date : Z) : InsertMeasurement.t :=
  InsertMeasurement.mk clientId (DateAt date) (Some "70.5") None None None None
    None None None.

Definition exampleDietPlan (userId clientId : Z) (name : string) : InsertDietPlan.t :=
  InsertDietPlan.mk userId clientId name None 0 None None None None None
    (JArray []) (Some true).

Definition exampleAppointment (userId clientId date : Z) : InsertAppointment.t :=
  InsertAppointment.mk userId clientId date 30 "online" None (Some "scheduled").

(** A server started at time 0 on which user 1 books two appointments, the
    first one for the later date. *)
Definition twoAppointments : MemStorage :=
  run (H := exampleRuntime)
    [CreateAppointment 1 1 (exampleAppointment 1 7 2000);
     CreateAppointment 2 2 (exampleAppointment 1 7 1000)]
    (MemStorage_new 0 0 0).

(** A server on which user 1 has two clients and a diet plan. *)
Definition twoClients : MemStorage :=
  run (H := exampleRuntime)
    [CreateClient 1 1 (exampleClient 1 "Elif Kara");
     CreateClient 2 2 (exampleClient 1 "Can Demir");
     CreateDietPlan 3 3 (exampleDietPlan 1 1 "Kilo Verme Diyeti")]
    (MemStorage_new 0 0 0).

(** A server on which user 1 registers five clients within one millisecond
    (the clock reads 1000 throughout); each creation records an activity. *)
Definition fiveActivitiesAtOnce : MemStorage :=
  run (H := exampleRuntime)
    [CreateClient 1000 1000 (exampleClient 1 "Elif Kara");
     CreateClient 1000 1000 (exampleClient 1 "Can Demir");
     CreateClient 1000 1000 (exampleClient 1 "Ece Ay");
     CreateClient 1000 1000 (exampleClient 1 "Mert Ak");
     CreateClient 1000 1000 (exampleClient 1 "Su Er")]
    (MemStorage_new 0 0 0).

(** The same five clients, registered one millisecond apart. *)
Definition fiveActivitiesApart : MemStorage :=
  run (H := exampleRuntime)
    [CreateClient 1001 1001 (exampleClient 1 "Elif Kara");
     CreateClient 1002 1002 (exampleClient 1 "Can Demir");
     CreateClient 1003 1003 (exampleClient 1 "Ece Ay");
     CreateClient 1004 1004 (exampleClient 1 "Mert Ak");
     CreateClient 1005 1005 (exampleClient 1 "Su Er")]
    (MemStorage_new 0 0 0).

(** A server on which client 1 is measured three times; the measurements
    are entered for the dates 2000, 3000 and 1000, in this order. *)
Definition threeMeasurements : MemStorage :=
  run (H := exampleRuntime)
    [CreateClient 1 1 (exampleClient 1 "Elif Kara");
     CreateMeasurement 2 (exampleMeasurement 1 2000);
     CreateMeasurement 3 (exampleMeasurement 1 3000);
     CreateMeasurement 4 (exampleMeasurement 1 1000)]
    (MemStorage_new 0 0 0).

(** A server on which client 1 is measured three times: for the date 1000,
    then without a date, then for the date 3000. *)
Definition undatedMeasurement : MemStorage :=
  run (H := exampleRuntime)
    [CreateClient 1 1 (exampleClient 1 "Elif Kara");
     CreateMeasurement 2 (exampleMeasurement 1 1000);
     CreateMeasurement 3
       (InsertMeasurement.mk 1 DateAbsent (Some "70.5") None None None None None
          None None);
     CreateMeasurement 4 (exampleMeasurement 1 3000)]
    (MemStorage_new 0 0 0).

Definition measurementOf (id date : Z) : Measurement.t :=
  Measurement.mk id 1 (DateAt date) (Some "70.5") None None None None None None None.

(** ** What an update keeps

    [kept<Entity> data old new]: [new] has every member whose key is
    absent from [data] as it is in [old]; [id] and [createdAt] are such
    members. *)





(** [sameExcept T s s']: from [s] to [s'] no counter has changed, and no map
    but the one of type [T]. *)
Definition sameExcept (T : EntityType) (s s' : MemStorage) : Prop :=
  (∀ T', counter T' s' = counter T' s)
  ∧ (T ≠ TUser → users s' = users s)
  ∧ (T ≠ TClient → clients s' = clients s)
  ∧ (T ≠ TMeasurement → measurements s' = measurements s)
  ∧ (T ≠ TDietPlan → dietPlans s' = dietPlans s)
  ∧ (T ≠ TAppointment → appointments s' = appointments s)
  ∧ (T ≠ TActivity → activities s' = activities s)
  ∧ (T ≠ TBlogArticle → blogArticles s' = blogArticles s).

(** A server with one registered user. *)
Definition oneUser : MemStorage :=
  run (H := exampleRuntime) [CreateUser "tuz" 1 (exampleUser "ayse" "dogru")]
    (MemStorage_new 0 0 0).

(** A request body with the key [createdAt] and the value [null]. *)
Definition unstamp : PartialInsertClient.t :=
  PartialInsertClient.mk None None None None None None None None None
    None None None None None None None None (Some None).


(** A request body that renames a client. *)
Definition renameClient (fullName : string) : PartialInsertClient.t :=
  PartialInsertClient.mk None None (Some fullName) None None None None None None
    None None None None None None None None None.

(** What the specification calls the [n] most recently created entities:
    of a list in order of creation, the last [n], the latest first. *)
Definition mostRecentlyCreated {A : Type} (n : nat) (inCreationOrder : list A)
    : list A :=
  take n (reverse inCreationOrder).

(** ** Time stamps of the stored entities

    [stamped s]: every user, client, diet plan, appointment and activity of
    [s] carries a creation time, and every article a publication time. *)
Definition stamped (s : MemStorage) : Prop :=
  Forall (λ kv, User.createdAt kv.2 ≠ None) (users s)
  ∧ Forall (λ kv, Client.createdAt kv.2 ≠ None) (clients s)
  ∧ Forall (λ kv, DietPlan.createdAt kv.2 ≠ None) (dietPlans s)
  ∧ Forall (λ kv, Appointment.createdAt kv.2 ≠ None) (appointments s)
  ∧ Forall (λ kv, Activity.createdAt kv.2 ≠ None) (activities s)
  ∧ Forall (λ kv, BlogArticle.publishedAt kv.2 ≠ None) (blogArticles s).

(** ** The other request handlers ([server/routes.ts])

    [jwt.verify(token, JWT_SECRET)] returns the payload that was signed, or
    throws; a token expires, so the outcome depends on the time of the
    check. *)

Class Verifier : Type := {
  jwt_verify : string → Z → option (Z * string)
}.

(** The local calendar of the server: [d.setHours(0, 0, 0, 0)] on a date,
    and [d.setDate(d.getDate() + 1)] on a date, as time values. *)
Class Calendar : Type := {
  startOfDay : Z → Z;
  nextDay : Z → Z
}.

(** [s.split(separator)] for a separator of one character. *)
Fixpoint split (separator : Ascii.ascii) (s : string) : list string :=
  match s with
  | EmptyString => [EmptyString]
  | String c rest =>
      if Ascii.eqb c separator then EmptyString :: split separator rest
      else
        match split separator rest with
        | piece :: pieces => String c piece :: pieces
        | [] => [String c EmptyString]
        end
  end.

(** The [authenticate] middleware: the response it sends, or the [userId]
    and [username] it leaves in [res.locals] before it calls [next()].
    [verifiedAt] is the time of the check. *)
Definition authenticate `{Verifier} (verifiedAt : Z) (authorization : option string)
    : Response + Z * string :=
  match authorization with
  | None =>
      inl (mkResponse 401 (JsonMessage "Yetkilendirme hatası: Token bulunamadı"))
  | Some authHeader =>
      if negb (String.prefix "Bearer " authHeader)
      then inl (mkResponse 401 (JsonMessage "Yetkilendirme hatası: Token bulunamadı"))
      else
        match split Ascii.Space authHeader with
        | _ :: token :: _ =>
            match jwt_verify token verifiedAt with
            | Some decoded => inr decoded
            | None =>
                inl (mkResponse 401 (JsonMessage "Yetkilendirme hatası: Geçersiz token"))
            end
        | _ => inl (mkResponse 401 (JsonMessage "Yetkilendirme hatası: Geçersiz token"))
        end
  end.

(** What a handler sends: the bodies of the handlers above, and those of
    the handlers that follow. *)
Inductive Payload : Type :=
| Basic (body : Body)
| JsonUser (user : UserWithoutPassword.t)
| JsonClients (clients : list Client.t)
| JsonMeasurements (measurements : list Measurement.t)
| JsonMeasurement (measurement : Measurement.t)
| JsonDietPlans (dietPlans : list DietPlan.t)
| JsonDietPlan (dietPlan : option DietPlan.t)
| JsonAppointments (appointments : list Appointment.t)
| JsonAppointment (appointment : option Appointment.t)
| JsonActivities (activities : list Activity.t)
| JsonArticles (articles : list BlogArticle.t)
| JsonArticle (article : BlogArticle.t)
| JsonStats (activeClients todayAppointments activeDietPlans telegramMessages : Z).

Record Reply : Type := mkReply {
  code : Z;
  payload : Payload
}.

Definition replyOf (r : Response * MemStorage) : Reply * MemStorage :=
  (mkReply (status r.1) (Basic (body r.1)), r.2).

Definition message (code : Z) (text : string) : Reply :=
  mkReply code (Basic (JsonMessage text)).

(** [{ ...req.body, userId }] and the like, after the schema has parsed it:
    zod returns the integer members as they were given. *)
Definition InsertClient_withUserId (userId : Z) (d : InsertClient.t) : InsertClient.t :=
  InsertClient.mk userId (InsertClient.fullName d) (InsertClient.email d)
    (InsertClient.phone d) (InsertClient.birthDate d) (InsertClient.gender d)
    (InsertClient.profileImage d) (InsertClient.height d)
    (InsertClient.startingWeight d) (InsertClient.targetWeight d)
    (InsertClient.activityLevel d) (InsertClient.medicalHistory d)
    (InsertClient.dietaryRestrictions d) (InsertClient.telegramChatId d)
    (InsertClient.notes d) (InsertClient.isActive d).

Definition InsertMeasurement_withClientId (clientId : Z) (d : InsertMeasurement.t)
    : InsertMeasurement.t :=
  InsertMeasurement.mk clientId (InsertMeasurement.date d)
    (InsertMeasurement.weight d) (InsertMeasurement.chest d)
    (InsertMeasurement.waist d) (InsertMeasurement.hip d) (InsertMeasurement.arm d)
    (InsertMeasurement.thigh d) (InsertMeasurement.bodyFatPercentage d)
    (InsertMeasurement.notes d).

Definition InsertDietPlan_withIds (userId clientId : Z) (d : InsertDietPlan.t)
    : InsertDietPlan.t :=
  InsertDietPlan.mk userId clientId (InsertDietPlan.name d)
    (InsertDietPlan.description d) (InsertDietPlan.startDate d)
    (InsertDietPlan.endDate d) (InsertDietPlan.dailyCalories d)
    (InsertDietPlan.macroProtein d) (InsertDietPlan.macroCarbs d)
    (InsertDietPlan.macroFat d) (InsertDietPlan.meals d)
    (InsertDietPlan.isActive d).

Definition InsertAppointment_withUserId (userId : Z) (d : InsertAppointment.t)
    : InsertAppointment.t :=
  InsertAppointment.mk userId (InsertAppointment.clientId d)
    (InsertAppointment.date d) (InsertAppointment.duration d)
    (InsertAppointment.type d) (InsertAppointment.notes d)
    (InsertAppointment.status d).

Section MoreRoutes.
Context `{Runtime} `{Calendar}.

(** [GET /api/auth/me] *)
Definition meRoute (principal : Z) (s : MemStorage) : Reply * MemStorage :=
  match getUser principal s with
  | None => (message 404 "Kullanıcı bulunamadı", s)
  | Some user => (mkReply 200 (JsonUser (withoutPassword user)), s)
  end.

(** [GET /api/clients] *)
Definition listClientsRoute (principal : Z) (s : MemStorage) : Reply * MemStorage :=
  (mkReply 200 (JsonClients (getClientsForUser principal s)), s).

(** [POST /api/clients]; [parsed] is the outcome of
    [insertClientSchema.parse({ ...req.body, userId })]. *)
Definition postClientRoute (principal now nowActivity : Z)
    (parsed : Parsed InsertClient.t) (s : MemStorage) : Reply * MemStorage :=
  match parsed with
  | ZodError text => (message 400 text, s)
  | Valid reqBody =>
      let clientData := InsertClient_withUserId principal reqBody in
      let '(client, s1) := createClient now nowActivity clientData s in
      (mkReply 201 (Basic (JsonClient client)), s1)
  end.

(** [GET /api/clients/:clientId/measurements] *)
Definition listMeasurementsRoute (principal clientId : Z) (s : MemStorage)
    : Reply * MemStorage :=
  match getClient clientId s with
  | None => (message 404 "Danışan bulunamadı", s)
  | Some client =>
      if negb (Client.userId client =? principal)
      then (message 403 "Bu danışanın ölçümlerine erişim izniniz yok", s)
      else (mkReply 200 (JsonMeasurements (getMeasurementsForClient clientId s)), s)
  end.

(** [POST /api/clients/:clientId/measurements]; [parsed] is the outcome of
    [insertMeasurementSchema.parse({ ...req.body, clientId })]. *)
Definition postMeasurementRoute (principal clientId nowActivity : Z)
    (parsed : Parsed InsertMeasurement.t) (s : MemStorage) : Reply * MemStorage :=
  match getClient clientId s with
  | None => (message 404 "Danışan bulunamadı", s)
  | Some client =>
      if negb (Client.userId client =? principal)
      then (message 403 "Bu danışan için ölçüm ekleme izniniz yok", s)
      else
        match parsed with
        | ZodError text => (message 400 text, s)
        | Valid reqBody =>
            let measurementData := InsertMeasurement_withClientId clientId reqBody in
            let '(measurement, s1) := createMeasurement nowActivity measurementData s in
            (mkReply 201 (JsonMeasurement measurement), s1)
        end
  end.

(** [GET /api/diet-plans] *)
Definition listDietPlansRoute (principal : Z) (s : MemStorage) : Reply * MemStorage :=
  (mkReply 200 (JsonDietPlans (getDietPlansForUser principal s)), s).

(** [GET /api/clients/:clientId/diet-plans] *)
Definition listClientDietPlansRoute (principal clientId : Z) (s : MemStorage)
    : Reply * MemStorage :=
  match getClient clientId s with
  | None => (message 404 "Danışan bulunamadı", s)
  | Some client =>
      if negb (Client.userId client =? principal)
      then (message 403 "Bu danışanın diyet planlarına erişim izniniz yok", s)
      else (mkReply 200 (JsonDietPlans (getDietPlansForClient clientId s)), s)
  end.

(** [POST /api/clients/:clientId/diet-plans]; [parsed] is the outcome of
    [insertDietPlanSchema.parse({ ...req.body, userId, clientId })]. *)
Definition postDietPlanRoute (principal clientId now nowActivity : Z)
    (parsed : Parsed InsertDietPlan.t) (s : MemStorage) : Reply * MemStorage :=
  match getClient clientId s with
  | None => (message 404 "Danışan bulunamadı", s)
  | Some client =>
      if negb (Client.userId client =? principal)
      then (message 403 "Bu danışan için diyet planı oluşturma izniniz yok", s)
      else
        match parsed with
        | ZodError text => (message 400 text, s)
        | Valid reqBody =>
            let dietPlanData := InsertDietPlan_withIds principal clientId reqBody in
            let '(dietPlan, s1) := createDietPlan now nowActivity dietPlanData s in
            (mkReply 201 (JsonDietPlan (Some dietPlan)), s1)
        end
  end.

(** [PUT /api/diet-plans/:id] *)
Definition putDietPlanRoute (principal id : Z) (reqBody : PartialInsertDietPlan.t)
    (s : MemStorage) : Reply * MemStorage :=
  match getDietPlan id s with
  | None => (message 404 "Diyet planı bulunamadı", s)
  | Some dietPlan =>
      if negb (DietPlan.userId dietPlan =? principal)
      then (message 403 "Bu diyet planını güncelleme izniniz yok", s)
      else
        let '(updatedDietPlan, s1) := updateDietPlan id reqBody s in
        (mkReply 200 (JsonDietPlan updatedDietPlan), s1)
  end.

(** [GET /api/appointments] *)
Definition listAppointmentsRoute (principal : Z) (s : MemStorage)
    : Reply * MemStorage :=
  (mkReply 200 (JsonAppointments (getAppointmentsForUser principal s)), s).

(** [GET /api/clients/:clientId/appointments] *)
Definition listClientAppointmentsRoute (principal clientId : Z) (s : MemStorage)
    : Reply * MemStorage :=
  match getClient clientId s with
  | None => (message 404 "Danışan bulunamadı", s)
  | Some client =>
      if negb (Client.userId client =? principal)
      then (message 403 "Bu danışanın randevularına erişim izniniz yok", s)
      else (mkReply 200 (JsonAppointments (getAppointmentsForClient clientId s)), s)
  end.

(** [POST /api/appointments]; [parsed] is the outcome of
    [insertAppointmentSchema.parse({ ...req.body, userId })].  The body is
    parsed before the client is looked up. *)
Definition postAppointmentRoute (principal now nowActivity : Z)
    (parsed : Parsed InsertAppointment.t) (s : MemStorage) : Reply * MemStorage :=
  match parsed with
  | ZodError text => (message 400 text, s)
  | Valid reqBody =>
      let appointmentData := InsertAppointment_withUserId principal reqBody in
      match getClient (InsertAppointment.clientId appointmentData) s with
      | None => (message 404 "Danışan bulunamadı", s)
      | Some client =>
          if negb (Client.userId client =? principal)
          then (message 403 "Bu danışan için randevu oluşturma izniniz yok", s)
          else
            let '(appointment, s1) :=
              createAppointment now nowActivity appointmentData s in
            (mkReply 201 (JsonAppointment (Some appointment)), s1)
      end
  end.

(** [PUT /api/appointments/:id] *)
Definition putAppointmentRoute (principal id : Z)
    (reqBody : PartialInsertAppointment.t) (s : MemStorage) : Reply * MemStorage :=
  match getAppointment id s with
  | None => (message 404 "Randevu bulunamadı", s)
  | Some appointment =>
      if negb (Appointment.userId appointment =? principal)
      then (message 403 "Bu randevuyu güncelleme izniniz yok", s)
      else
        let '(updatedAppointment, s1) := updateAppointment id reqBody s in
        (mkReply 200 (JsonAppointment updatedAppointment), s1)
  end.

(** [GET /api/activities]; [limit] is [parseInt(req.query.limit)] when the
    parameter is there and is a number, and [None] otherwise. *)
Definition listActivitiesRoute (principal : Z) (limit : option Z) (s : MemStorage)
    : Reply * MemStorage :=
  (mkReply 200 (JsonActivities (getActivitiesForUser principal limit s)), s).

(** [GET /api/blog] *)
Definition listBlogRoute (limit : option Z) (s : MemStorage) : Reply * MemStorage :=
  (mkReply 200 (JsonArticles (getBlogArticles limit s)), s).

(** [GET /api/blog/:id] *)
Definition blogArticleRoute (id : Z) (s : MemStorage) : Reply * MemStorage :=
  match getBlogArticle id s with
  | None => (message 404 "Makale bulunamadı", s)
  | Some article => (mkReply 200 (JsonArticle article), s)
  end.

(** [x] as a condition: [true] is truthy, [false], [null] and an absent
    member are not. *)
Definition truthy (x : option bool) : bool :=
  match x with
  | Some b => b
  | None => false
  end.

(** [GET /api/dashboard/stats]; [now] is the clock reading. *)
Definition dashboardStatsRoute (principal now : Z) (s : MemStorage)
    : Reply * MemStorage :=
  let clients := getClientsForUser principal s in
  let activeClients :=
    length (List.filter (λ client, truthy (Client.isActive client)) clients) in
  let allAppointments := getAppointmentsForUser principal s in
  let today := startOfDay now in
  let tomorrow := nextDay today in
  let todayAppointments :=
    length
      (List.filter
         (λ appointment,
            (today <=? Appointment.date appointment)
            && (Appointment.date appointment <? tomorrow))
         allAppointments) in
  let dietPlans := getDietPlansForUser principal s in
  let activeDietPlans :=
    length (List.filter (λ plan, truthy (DietPlan.isActive plan)) dietPlans) in
  let telegramMessages := 12 in
  (mkReply 200
     (JsonStats (Z.of_nat activeClients) (Z.of_nat todayAppointments)
        (Z.of_nat activeDietPlans) telegramMessages), s).

End MoreRoutes.

(** ** The server

    A request: its route, with the parameters, the parsed body and the
    readings of the clock (and the salt) that its handler consumes.  The
    [PUT] handlers pass [req.body] to the update as it arrives, any JSON
    object: it is the record of the update, whose keys may or may not be
    there, [id] and [createdAt] among them.  A member under a key of the
    entity is taken at the type of that key; a [createdAt], which JSON
    cannot give as a [Date], stands for the time value that [new Date]
    reads from it. *)
Inductive Request : Type :=
| ReqRegister (salt : string) (now issuedAt : Z) (parsed : Parsed InsertUser.t)
| ReqLogin (issuedAt : Z) (parsed : Parsed Login.t)
| ReqMe
| ReqListClients
| ReqGetClient (id : Z)
| ReqPostClient (now nowActivity : Z) (parsed : Parsed InsertClient.t)
| ReqPutClient (id : Z) (reqBody : PartialInsertClient.t)
| ReqDeleteClient (id : Z)
| ReqListMeasurements (clientId : Z)
| ReqPostMeasurement (clientId nowActivity : Z) (parsed : Parsed InsertMeasurement.t)
| ReqListDietPlans
| ReqListClientDietPlans (clientId : Z)
| ReqPostDietPlan (clientId now nowActivity : Z) (parsed : Parsed InsertDietPlan.t)
| ReqPutDietPlan (id : Z) (reqBody : PartialInsertDietPlan.t)
| ReqListAppointments
| ReqListClientAppointments (clientId : Z)
| ReqPostAppointment (now nowActivity : Z) (parsed : Parsed InsertAppointment.t)
| ReqPutAppointment (id : Z) (reqBody : PartialInsertAppointment.t)
| ReqListActivities (limit : option Z)
| ReqListBlog (limit : option Z)
| ReqBlogArticle (id : Z)
| ReqDashboardStats (now : Z).

(** A call: the [Authorization] header, the time at which the token is
    checked, and the request. *)
Record Call : Type := mkCall {
  authorization : option string;
  verifiedAt : Z;
  request : Request
}.

Section Server.
Context `{Runtime} `{Verifier} `{Calendar}.

(** The principal of a call, if its token is accepted. *)
Definition principalOf (call : Call) : option Z :=
  match authenticate (verifiedAt call) (authorization call) with
  | inr (userId, _) => Some userId
  | inl _ => None
  end.

(** A route registered with the [authenticate] middleware. *)
Definition secured (call : Call) (handler : Z → MemStorage → Reply * MemStorage)
    (s : MemStorage) : Reply * MemStorage :=
  match authenticate (verifiedAt call) (authorization call) with
  | inl response => replyOf (response, s)
  | inr (userId, _) => handler userId s
  end.

Definition serve (call : Call) (s : MemStorage) : Reply * MemStorage :=
  match request call with
  | ReqRegister salt now issuedAt parsed => replyOf (register salt now issuedAt parsed s)
  | ReqLogin issuedAt parsed => replyOf (login issuedAt parsed s)
  | ReqMe => secured call meRoute s
  | ReqListClients => secured call listClientsRoute s
  | ReqGetClient id => secured call (λ p s, replyOf (getClientRoute p id s)) s
  | ReqPostClient now nowA parsed =>
      secured call (λ p, postClientRoute p now nowA parsed) s
  | ReqPutClient id reqBody =>
      secured call (λ p s, replyOf (putClientRoute p id reqBody s)) s
  | ReqDeleteClient id => secured call (λ p s, replyOf (deleteClientRoute p id s)) s
  | ReqListMeasurements clientId =>
      secured call (λ p, listMeasurementsRoute p clientId) s
  | ReqPostMeasurement clientId nowA parsed =>
      secured call (λ p, postMeasurementRoute p clientId nowA parsed) s
  | ReqListDietPlans => secured call listDietPlansRoute s
  | ReqListClientDietPlans clientId =>
      secured call (λ p, listClientDietPlansRoute p clientId) s
  | ReqPostDietPlan clientId now nowA parsed =>
      secured call (λ p, postDietPlanRoute p clientId now nowA parsed) s
  | ReqPutDietPlan id reqBody => secured call (λ p, putDietPlanRoute p id reqBody) s
  | ReqListAppointments => secured call listAppointmentsRoute s
  | ReqListClientAppointments clientId =>
      secured call (λ p, listClientAppointmentsRoute p clientId) s
  | ReqPostAppointment now nowA parsed =>
      secured call (λ p, postAppointmentRoute p now nowA parsed) s
  | ReqPutAppointment id reqBody =>
      secured call (λ p, putAppointmentRoute p id reqBody) s
  | ReqListActivities limit => secured call (λ p, listActivitiesRoute p limit) s
  | ReqListBlog limit => listBlogRoute limit s
  | ReqBlogArticle id => blogArticleRoute id s
  | ReqDashboardStats now => secured call (λ p, dashboardStatsRoute p now) s
  end.

(** The store after the calls, first to last, when every call is answered
    before the next one arrives.  Calls that overlap are delivered by
    [deliverAll], below. *)
Definition serveAll (calls : list Call) (s : MemStorage) : MemStorage :=
  fold_left (λ s call, (serve call s).2) calls s.

End Server.

(** ** Calls that overlap

    A handler runs on until it waits for something outside the process, and
    no other handler runs until then.  The methods of [MemStorage] wait for
    one thing only, [bcrypt.hash] in [createUser]; the handlers wait besides
    for [bcrypt.compare] in the login, whose handler does not look at the
    store afterwards.  So a registration runs in two parts, the check of the
    username when the call arrives and, when the hash is there, the rest of
    [createUser] and the reply, on the store as it is by then; every other
    call runs in one part. *)

(** A registration that waits for its hash: what the second part will
    use. *)
Module Waiting.
Record t : Type := mk {
  salt : string;
  now : Z;
  issuedAt : Z;
  userData : InsertUser.t
}.
End Waiting.

Record Server : Type := mkServer {
  store : MemStorage;
  waiting : list Waiting.t
}.

(** A call arrives, or the hash of the [k]-th waiting registration is
    there. *)
Inductive Event : Type :=
| Arrives (call : Call)
| Hashed (k : nat).

Section Overlap.
Context `{Runtime} `{Verifier} `{Calendar}.

(** The registration up to [await bcrypt.hash]: the reply, if it is sent
    by then. *)
Definition registerCheck (parsed : Parsed InsertUser.t) (s : MemStorage)
    : Response + InsertUser.t :=
  match parsed with
  | ZodError message => inl (mkResponse 400 (JsonMessage message))
  | Valid userData =>
      match getUserByUsername (InsertUser.username userData) s with
      | Some existingUser =>
          inl (mkResponse 400 (JsonMessage "Bu kullanıcı adı zaten kullanılıyor"))
      | None => inr userData
      end
  end.

(** The registration from there on. *)
Definition registerStore (w : Waiting.t) (s : MemStorage) : Response * MemStorage :=
  let '(user, s1) := createUser (Waiting.salt w) (Waiting.now w) (Waiting.userData w) s in
  let token := jwt_sign (User.id user) (User.username user) (Waiting.issuedAt w) in
  (mkResponse 201 (JsonSession (withoutPassword user) token), s1).

(** What an event does: the reply that is sent, if one is, and the server
    afterwards. *)
Definition deliver (event : Event) (server : Server) : option Reply * Server :=
  match event with
  | Arrives call =>
      match request call with
      | ReqRegister salt now issuedAt parsed =>
          match registerCheck parsed (store server) with
          | inl response => (Some (replyOf (response, store server)).1, server)
          | inr userData =>
              (None,
               mkServer (store server)
                 (waiting server ++ [Waiting.mk salt now issuedAt userData]))
          end
      | _ =>
          let r := serve call (store server) in
          (Some r.1, mkServer r.2 (waiting server))
      end
  | Hashed k =>
      match waiting server !! k with
      | None => (None, server)
      | Some w =>
          let r := replyOf (registerStore w (store server)) in
          (Some r.1, mkServer r.2 (delete k (waiting server)))
      end
  end.

Definition deliverAll (events : list Event) (server : Server) : Server :=
  fold_left (λ server event, (deliver event server).2) events server.


(** The events of calls that do not overlap: the hash of a registration is
    there before the next call arrives. *)
Definition oneByOne (calls : list Call) : list Event :=
  flat_map
    (λ call,
       match request call with
       | ReqRegister _ _ _ _ => [Arrives call; Hashed 0]
       | _ => [Arrives call]
       end)
    calls.

End Overlap.

(** [authorized principal op s]: the storage operation [op] on the store
    [s] is one that the handlers perform for a call of this principal.  A
    user is created only under a free username; an entity is created only
    with the principal as owner, and for a client of the principal; an
    entity is updated or deleted only by its owner; and no handler updates
    or deletes a measurement, deletes a diet plan or an appointment, or
    creates an article or an activity of its own. *)
Definition authorized (principal : option Z) (op : Op) (s : MemStorage) : Prop :=
  let owns (clientId : Z) :=
    ∃ client, getClient clientId s = Some client
              ∧ principal = Some (Client.userId client) in
  match op with
  | CreateUser _ _ userData =>
      getUserByUsername (InsertUser.username userData) s = None
  | CreateClient _ _ clientData => principal = Some (InsertClient.userId clientData)
  | UpdateClient id _ | DeleteClient id => owns id
  | CreateMeasurement _ measurementData =>
      owns (InsertMeasurement.clientId measurementData)
  | CreateDietPlan _ _ dietPlanData =>
      principal = Some (InsertDietPlan.userId dietPlanData)
      ∧ owns (InsertDietPlan.clientId dietPlanData)
  | UpdateDietPlan id _ =>
      ∃ dietPlan, getDietPlan id s = Some dietPlan
                  ∧ principal = Some (DietPlan.userId dietPlan)
  | CreateAppointment _ _ appointmentData =>
      principal = Some (InsertAppointment.userId appointmentData)
      ∧ owns (InsertAppointment.clientId appointmentData)
  | UpdateAppointment id _ =>
      ∃ appointment, getAppointment id s = Some appointment
                     ∧ principal = Some (Appointment.userId appointment)
  | UpdateMeasurement _ _ | DeleteMeasurement _ | DeleteDietPlan _
  | DeleteAppointment _ | CreateActivity _ _ | CreateBlogArticle _ _ => False
  end.

(** [performed principal op s]: as [authorized], but for the username of a
    new user, which need not be free any more when a registration that has
    waited for its hash stores its user. *)
Definition performed (principal : option Z) (op : Op) (s : MemStorage) : Prop :=
  match op with
  | CreateUser _ _ _ => True
  | _ => authorized principal op s
  end.

(** ** Examples for the handlers

    A toy verifier for the tokens of [exampleRuntime] on a server whose only
    user is user 1: a token is good for a day. *)
Definition exampleVerifier : Verifier :=
  {| jwt_verify token verifiedAt :=
       if String.prefix "jwt." token && (verifiedAt <? 86400000)
       then Some (1, String.substring 4 (String.length token - 4) token)
       else None |}.

(** A calendar in universal time. *)
Definition exampleCalendar : Calendar :=
  {| startOfDay now := now - now mod 86400000;
     nextDay date := date + 86400000 |}.

(** Calls to a server started at time 0: user [ayse] registers and, signed
    in, adds a client, a measurement, a diet plan and an appointment, and
    renames the client; the deletion comes without a token. *)
Definition asAyse (request : Request) : Call :=
  mkCall (Some "Bearer jwt.ayse") 5 request.

Definition anonymous (request : Request) : Call := mkCall None 5 request.

Definition exampleCalls : list Call :=
  [anonymous (ReqRegister "tuz" 1 1 (Valid (exampleUser "ayse" "dogru")));
   asAyse (ReqPostClient 2 2 (Valid (exampleClient 9 "Elif Kara")));
   asAyse (ReqPostMeasurement 1 3 (Valid (exampleMeasurement 1 3)));
   asAyse (ReqPostDietPlan 1 4 4 (Valid (exampleDietPlan 9 9 "Kilo Verme Diyeti")));
   asAyse (ReqPostAppointment 5 5 (Valid (exampleAppointment 9 1 9000)));
   anonymous (ReqDeleteClient 1);
   asAyse (ReqPutClient 1 (renameClient "Elif Demir"))].

Definition served : MemStorage :=
  serveAll (H := exampleRuntime) (H0 := exampleVerifier) (H1 := exampleCalendar)
    exampleCalls (MemStorage_new 0 0 0).

(** A request body that hands a client over to another user. *)
Definition handOver (userId : Z) : PartialInsertClient.t :=
  PartialInsertClient.mk None (Some userId) None None None None None None None
    None None None None None None None None None.

(** ** Elapsed time ([client/src/utils/formatDate.ts])

    The numbers are doubles.  A time value is an integer of at most
    8.64 * 10^15 in magnitude, which a double holds exactly; the difference
    of two time values can exceed 2^53 and is then rounded to the nearest
    double, the one with the even significand when two are as near.
    [toDouble z] is the double nearest to the integer [z]. *)
Definition toDouble (z : Z) : Z :=
  let k := Z.log2 (Z.abs z) - 52 in
  if k <=? 0 then z
  else
    let unit := 2 ^ k in
    let q := Z.abs z / unit in
    let r := Z.abs z mod unit in
    let half := unit / 2 in
    let q' :=
      if r <? half then q
      else if half <? r then q + 1
      else if Z.even q then q else q + 1 in
    Z.sgn z * (q' * unit).

(** [x - y] on doubles that hold integers. *)
Definition minusRounded (x y : number) : number :=
  match minus x y with
  | Int z => Int (toDouble z)
  | NaN => NaN
  end.

(** The greatest time value of a [Date]. *)
Definition maxTime : Z := 8640000000000000.

(** [Math.floor(x / d)] and [x < n] on a number, and a number inside a
    template literal.  The quotient of the doubles is rounded as well; for
    an integer [x] below 2^54 in magnitude, as the difference of two time
    values is, and the divisors of [getTimeSince], the rounded quotient has
    the integer part of the exact one, which is computed here. *)
Definition floorDiv (x : number) (d : Z) : number :=
  match x with
  | Int z => Int (z / d)
  | NaN => NaN
  end.

Definition lessThan (x : number) (n : Z) : bool :=
  match x with
  | Int z => z <? n
  | NaN => false
  end.

Definition toText (x : number) : string :=
  match x with
  | Int z => pretty z
  | NaN => "NaN"
  end.

(** [getTimeSince(dateString)] while the clock reads [now]; [date] is the
    time value of [new Date(dateString)], NaN for an invalid date. *)
Definition getTimeSince (now : Z) (date : number) : string :=
  let seconds := floorDiv (minusRounded (Int now) date) 1000 in
  if lessThan seconds 60 then "Az önce"
  else
    let minutes := floorDiv seconds 60 in
    if lessThan minutes 60 then toText minutes +:+ " dakika önce"
    else
      let hours := floorDiv minutes 60 in
      if lessThan hours 24 then toText hours +:+ " saat önce"
      else
        let days := floorDiv hours 24 in
        if lessThan days 7 then toText days +:+ " gün önce"
        else
          let weeks := floorDiv days 7 in
          if lessThan weeks 4 then toText weeks +:+ " hafta önce"
          else
            let months := floorDiv days 30 in
            if lessThan months 12 then toText months +:+ " ay önce"
            else
              let years := floorDiv days 365 in
              toText years +:+ " yıl önce".

(** * Properties *)

(** ** Arrays *)

Module ArrayFacts.
Section Collect.
Context {A : Type} (test : A → bool).

Lemma fold_push_if (xs acc : list A) :
  fold_left (Array.push_if test) xs acc = acc ++ List.filter test xs.
Proof.
  revert acc. induction xs as [|x xs IH]; intros acc; simpl.
  - by rewrite app_nil_r.
  - rewrite IH. unfold Array.push_if. destruct (test x); [|done].
    by rewrite <- app_assoc.
Qed.

(** The loop collects the elements that pass the test, in their order. *)
Lemma collect_filter (xs : list A) :
  Array.collect test xs = List.filter test xs.
Proof. unfold Array.collect. by rewrite fold_push_if. Qed.
End Collect.

Section Sort.
Context {A : Type} (cmp : A → A → Z).

Lemma sort_insert_perm (x : A) (l : list A) :
  Permutation (Array.sort_insert cmp x l) (x :: l).
Proof.
  induction l as [|y l IH]; simpl; [done|].
  destruct (cmp x y <=? 0); [done|].
  rewrite IH. apply perm_swap.
Qed.

Lemma sort_perm (l : list A) : Permutation (Array.sort_by cmp l) l.
Proof.
  induction l as [|x l IH]; simpl; [done|].
  rewrite sort_insert_perm. by constructor.
Qed.

(** Elements that compare equal to each other keep their relative order. *)
Lemma sort_insert_stable (test : A → bool) (x : A) (l : list A) :
  (∀ a b, test a = true → test b = true → cmp a b ≤ 0) →
  List.filter test (Array.sort_insert cmp x l) = List.filter test (x :: l).
Proof.
  intros Heq. induction l as [|y l IH]; [done|].
  cbn [Array.sort_insert]. destruct (Z.leb_spec (cmp x y) 0) as [Hle|Hgt]; [done|].
  cbn [List.filter] in *. rewrite IH.
  destruct (test x) eqn:Hx, (test y) eqn:Hy; try done.
  specialize (Heq x y Hx Hy). lia.
Qed.

Lemma sort_stable (test : A → bool) (l : list A) :
  (∀ a b, test a = true → test b = true → cmp a b ≤ 0) →
  List.filter test (Array.sort_by cmp l) = List.filter test l.
Proof.
  intros Heq. induction l as [|x l IH]; [done|].
  cbn [Array.sort_by foldr]. rewrite sort_insert_stable by done.
  cbn [List.filter]. fold (Array.sort_by cmp l). by rewrite IH.
Qed.

Lemma sort_insert_ext (cmp' : A → A → Z) (x : A) (l : list A) :
  (∀ y, In y l → cmp x y = cmp' x y) →
  Array.sort_insert cmp x l = Array.sort_insert cmp' x l.
Proof.
  induction l as [|y l IH]; intros Heq; simpl; [done|].
  rewrite <- (Heq y) by by left. rewrite IH; [done|].
  intros z Hz. apply Heq. by right.
Qed.

(** The result depends on the comparator only through the elements of the
    array. *)
Lemma sort_by_ext (cmp' : A → A → Z) (l : list A) :
  (∀ x y, In x l → In y l → cmp x y = cmp' x y) →
  Array.sort_by cmp l = Array.sort_by cmp' l.
Proof.
  induction l as [|x l IH]; intros Heq; simpl; [done|].
  rewrite IH by (intros; apply Heq; by right).
  apply sort_insert_ext. intros y Hy. apply Heq; [by left|right].
  eapply Permutation_in; [|exact Hy]. clear.
  induction l as [|z l IHl]; simpl; [done|].
  etrans; [|apply perm_skip, IHl].
  clear. generalize (Array.sort_by cmp' l) as r. intros r.
  induction r as [|y r IHr]; simpl; [done|].
  destruct (cmp' z y <=? 0); [done|]. rewrite IHr. apply perm_swap.
Qed.

(** A comparator that returns no NaN on the elements of the array. *)
Lemma sort_as (compareFn : A → A → number) (l : list A) :
  (∀ x y, In x l → In y l → compareFn x y = Int (cmp x y)) →
  Array.sort compareFn l = Array.sort_by cmp l.
Proof.
  intros Heq. unfold Array.sort. symmetry. apply sort_by_ext.
  intros x y Hx Hy. unfold Array.SortCompare. by rewrite Heq.
Qed.

(** A consistent comparator, in the sense of ECMAScript. *)
Hypothesis cmp_total : ∀ x y, 0 < cmp x y → cmp y x ≤ 0.
Hypothesis cmp_trans : ∀ x y z, cmp x y ≤ 0 → cmp y z ≤ 0 → cmp x z ≤ 0.
Hypothesis cmp_antisym : ∀ x y, cmp x y < 0 → 0 < cmp y x.

Lemma sort_insert_sorted (x : A) (l : list A) :
  StronglySorted (λ a b, cmp a b ≤ 0) l →
  StronglySorted (λ a b, cmp a b ≤ 0) (Array.sort_insert cmp x l).
Proof.
  induction 1 as [|y l Hl IH Hy]; simpl.
  - repeat constructor.
  - destruct (Z.leb_spec (cmp x y) 0) as [Hle|Hgt].
    + constructor; [by constructor|].
      constructor; [done|]. eapply Forall_impl; [exact Hy|].
      intros z Hz. simpl in Hz. by eapply cmp_trans.
    + constructor; [done|].
      rewrite sort_insert_perm. constructor; [|done]. by apply cmp_total.
Qed.

Lemma sort_sorted (l : list A) :
  StronglySorted (λ a b, cmp a b ≤ 0) (Array.sort_by cmp l).
Proof.
  induction l as [|x l IH]; simpl; [constructor|].
  by apply sort_insert_sorted.
Qed.

(** A sorted arrangement of elements that are pairwise strictly ordered is
    the only one. *)
Lemma sorted_strict_unique (r l : list A) :
  StronglySorted (λ a b, cmp a b ≤ 0) r →
  StronglySorted (λ a b, cmp a b < 0) l →
  Permutation r l → r = l.
Proof.
  intros Hr. revert l. induction Hr as [|h r Hr IH Hh]; intros l Hl Hp.
  - by apply Permutation_nil in Hp.
  - destruct Hl as [|x l Hl Hx].
    { symmetry in Hp. by apply Permutation_nil in Hp. }
    assert (h = x) as ->.
    { assert (In h (x :: l)) as [->|Hin]
        by (eapply Permutation_in; [exact Hp|by left]); [done|].
      assert (In x (h :: r)) as [->|Hin']
        by (eapply Permutation_in; [symmetry; exact Hp|by left]); [done|].
      rewrite Forall_forall in Hh, Hx.
      specialize (Hx _ (proj2 (list_elem_of_In _ _) Hin)).
      specialize (Hh _ (proj2 (list_elem_of_In _ _) Hin')).
      apply cmp_antisym in Hx. simpl in *. lia. }
    f_equal. apply IH; [done|]. by eapply Permutation_cons_inv.
Qed.

Lemma sort_strict (l l' : list A) :
  Permutation l l' → StronglySorted (λ a b, cmp a b < 0) l' →
  Array.sort_by cmp l = l'.
Proof.
  intros Hp Hl'. apply sorted_strict_unique; [apply sort_sorted|done|].
  by rewrite sort_perm.
Qed.
End Sort.
End ArrayFacts.

(** ** Maps *)

Module JsMapFacts.
Section Facts.
Context {V : Type}.
Implicit Types (m : JsMap.t V) (k : Z) (v : V).

Lemma get_set_eq k v m : JsMap.get k (JsMap.set k v m) = Some v.
Proof.
  induction m as [|[k' v'] m IH]; simpl.
  - by rewrite Z.eqb_refl.
  - destruct (Z.eqb_spec k' k) as [->|Hne]; simpl.
    + by rewrite Z.eqb_refl.
    + by destruct (Z.eqb_spec k' k).
Qed.

Lemma get_set_ne k k' v m :
  k ≠ k' → JsMap.get k' (JsMap.set k v m) = JsMap.get k' m.
Proof.
  intros Hne. induction m as [|[k0 v0] m IH]; simpl.
  - by destruct (Z.eqb_spec k k').
  - destruct (Z.eqb_spec k0 k) as [->|Hne0]; simpl.
    + by destruct (Z.eqb_spec k k').
    + by rewrite IH.
Qed.

Lemma get_None k m : JsMap.get k m = None ↔ ¬ In k (JsMap.keys m).
Proof.
  induction m as [|[k' v'] m IH]; simpl; [tauto|].
  destruct (Z.eqb_spec k' k) as [->|Hne]; [split; [done|tauto]|].
  rewrite IH. tauto.
Qed.

Lemma get_Some_In k v m : JsMap.get k m = Some v → In (k, v) m.
Proof.
  induction m as [|[k' v'] m IH]; simpl; [done|].
  destruct (Z.eqb_spec k' k) as [->|Hne]; [|auto].
  intros [= ->]. by left.
Qed.

(** A new key goes last. *)
Lemma set_new k v m : JsMap.get k m = None → JsMap.set k v m = m ++ [(k, v)].
Proof.
  induction m as [|[k' v'] m IH]; simpl; [done|].
  destruct (Z.eqb_spec k' k); [done|]. intros Hm. by rewrite IH.
Qed.

(** An existing key keeps its place. *)
Lemma keys_set_old k v v0 m :
  JsMap.get k m = Some v0 → JsMap.keys (JsMap.set k v m) = JsMap.keys m.
Proof.
  induction m as [|[k' v'] m IH]; simpl; [done|].
  destruct (Z.eqb_spec k' k) as [->|Hne]; simpl; [done|].
  intros Hm. f_equal. by apply IH.
Qed.

Lemma length_set_old k v v0 m :
  JsMap.get k m = Some v0 → length (JsMap.set k v m) = length m.
Proof.
  intros Hm. rewrite <- (length_map fst (JsMap.set k v m)), <- (length_map fst m).
  change (map fst ?l) with (JsMap.keys l). by erewrite keys_set_old.
Qed.

Lemma Forall_set (P : Z * V → Prop) k v m :
  Forall P m → P (k, v) → Forall P (JsMap.set k v m).
Proof.
  intros Hm Hkv. induction Hm as [|[k' v'] m Hx Hm IH]; simpl.
  - by constructor.
  - destruct (k' =? k); by constructor.
Qed.

Lemma get_delete_ne k k' m :
  k ≠ k' → JsMap.get k' (JsMap.delete k m).2 = JsMap.get k' m.
Proof.
  intros Hne. induction m as [|[k0 v0] m IH]; simpl; [done|].
  destruct (Z.eqb_spec k0 k) as [->|Hne0]; simpl.
  - by destruct (Z.eqb_spec k k').
  - destruct (JsMap.delete k m) as [b m'] eqn:Hd. simpl in *. by rewrite IH.
Qed.

Lemma delete_existed k m :
  (JsMap.delete k m).1 = true ↔ JsMap.get k m ≠ None.
Proof.
  induction m as [|[k0 v0] m IH]; simpl; [split; done|].
  destruct (Z.eqb_spec k0 k) as [->|Hne0]; simpl; [split; done|].
  by destruct (JsMap.delete k m) as [b m'] eqn:Hd.
Qed.

Lemma delete_absent k m : JsMap.get k m = None → (JsMap.delete k m).2 = m.
Proof.
  induction m as [|[k0 v0] m IH]; simpl; [done|].
  destruct (Z.eqb_spec k0 k) as [->|Hne0]; simpl; [done|].
  intros Hm. destruct (JsMap.delete k m) as [b m'] eqn:Hd. simpl in *.
  by rewrite IH.
Qed.

(** The entries that remain are the others, in their order. *)
Lemma delete_filter k m :
  NoDup (JsMap.keys m) →
  (JsMap.delete k m).2 = List.filter (λ kv, negb (kv.1 =? k)) m.
Proof.
  induction m as [|[k0 v0] m IH]; simpl; [done|].
  intros Hnd. apply NoDup_cons in Hnd as [Hk0 Hnd].
  destruct (Z.eqb_spec k0 k) as [->|Hne0]; simpl.
  - symmetry. apply forallb_filter_id, forallb_forall.
    intros [k1 v1] Hin. simpl. destruct (Z.eqb_spec k1 k) as [->|]; [|done].
    exfalso. apply Hk0, list_elem_of_In, in_map_iff. by exists (k, v1).
  - destruct (JsMap.delete k m) as [b m'] eqn:Hd. simpl in *. by rewrite IH.
Qed.

Lemma Forall_delete (P : Z * V → Prop) k m :
  Forall P m → Forall P (JsMap.delete k m).2.
Proof.
  induction 1 as [|[k0 v0] m Hx Hm IH]; simpl; [done|].
  destruct (k0 =? k); simpl; [done|].
  destruct (JsMap.delete k m) as [b m'] eqn:Hd. simpl in *. by constructor.
Qed.

Lemma keys_delete_Forall (P : Z → Prop) k m :
  Forall P (JsMap.keys m) → Forall P (JsMap.keys (JsMap.delete k m).2).
Proof.
  induction m as [|[k0 v0] m IH]; simpl; [done|].
  intros Hm. apply Forall_cons in Hm as [Hk0 Hm].
  destruct (k0 =? k); simpl; [done|].
  destruct (JsMap.delete k m) as [b m'] eqn:Hd. simpl in *.
  constructor; auto.
Qed.

Lemma keys_delete_sorted (R : Z → Z → Prop) k m :
  StronglySorted R (JsMap.keys m) →
  StronglySorted R (JsMap.keys (JsMap.delete k m).2).
Proof.
  induction m as [|[k0 v0] m IH]; simpl; [done|].
  intros Hm. apply StronglySorted_inv in Hm as [Hm Hk0].
  destruct (k0 =? k); simpl; [done|].
  pose proof (keys_delete_Forall (R k0) k m Hk0) as Hk0'.
  destruct (JsMap.delete k m) as [b m'] eqn:Hd. simpl in *.
  constructor; auto.
Qed.

Lemma get_delete_eq k m :
  NoDup (JsMap.keys m) → JsMap.get k (JsMap.delete k m).2 = None.
Proof.
  intros Hnd. rewrite delete_filter by done. apply get_None.
  unfold JsMap.keys. rewrite in_map_iff. intros ([k1 v1] & Hk & Hin).
  simpl in Hk. subst k1. apply filter_In in Hin as [_ Hin]. simpl in Hin.
  by rewrite Z.eqb_refl in Hin.
Qed.
Lemma keys_set_In k k' v m :
  In k' (JsMap.keys (JsMap.set k v m)) → In k' (JsMap.keys m) ∨ k' = k.
Proof.
  induction m as [|[k0 v0] m IH]; simpl; [intuition auto|].
  destruct (Z.eqb_spec k0 k) as [->|Hne]; simpl; intuition auto.
Qed.

Lemma keys_delete_In k k' m :
  In k' (JsMap.keys (JsMap.delete k m).2) → In k' (JsMap.keys m).
Proof.
  induction m as [|[k0 v0] m IH]; simpl; [done|].
  destruct (Z.eqb_spec k0 k) as [->|Hne]; simpl; [auto|].
  destruct (JsMap.delete k m) as [b m'] eqn:Hd. simpl in *. intuition auto.
Qed.
Lemma classic_keys k m : In k (JsMap.keys m) ∨ ¬ In k (JsMap.keys m).
Proof.
  destruct (in_dec Z.eq_dec k (JsMap.keys m)); [by left|by right].
Qed.

Lemma keys_set_self k v m : In k (JsMap.keys (JsMap.set k v m)).
Proof.
  destruct (JsMap.get k (JsMap.set k v m)) eqn:Hg.
  - destruct (classic_keys k (JsMap.set k v m)) as [Hin|Hnin]; [done|].
    apply get_None in Hnin. congruence.
  - by rewrite get_set_eq in Hg.
Qed.
End Facts.
End JsMapFacts.

(** ** The invariant of the store *)

Lemma get_Forall {V : Type} (P : Z * V → Prop) (k : Z) (v : V) (m : JsMap.t V) :
  Forall P m → JsMap.get k m = Some v → P (k, v).
Proof.
  intros Hm Hg. apply JsMapFacts.get_Some_In in Hg.
  rewrite Forall_forall in Hm. exact (Hm _ (proj2 (list_elem_of_In _ _) Hg)).
Qed.

Section Invariant.
Context {V : Type} (fits : Z → V → Prop).
Implicit Types (m : JsMap.t V) (k n : Z) (v : V).

Lemma map_wf_get n m k v :
  map_wf fits n m → JsMap.get k m = Some v → (1 ≤ k ∧ k < n) ∧ fits k v.
Proof.
  intros (_ & _ & Hm) Hk. apply JsMapFacts.get_Some_In in Hk.
  rewrite Forall_forall in Hm. exact (Hm _ (proj2 (list_elem_of_In _ _) Hk)).
Qed.

Lemma map_wf_keys_below n m k :
  map_wf fits n m → In k (JsMap.keys m) → 1 ≤ k ∧ k < n.
Proof.
  intros (_ & _ & Hm) Hk. apply in_map_iff in Hk as ([k' v] & <- & Hin).
  rewrite Forall_forall in Hm.
  exact (proj1 (Hm _ (proj2 (list_elem_of_In _ _) Hin))).
Qed.

(** The counter is no key of the map. *)
Lemma map_wf_fresh n m : map_wf fits n m → JsMap.get n m = None.
Proof.
  intros Hwf. apply JsMapFacts.get_None. intros Hin.
  apply (map_wf_keys_below _ _ _ Hwf) in Hin. lia.
Qed.

Lemma map_wf_NoDup n m : map_wf fits n m → NoDup (JsMap.keys m).
Proof.
  intros (_ & Hs & _). revert Hs. generalize (JsMap.keys m) as l.
  induction 1 as [|x l Hs IH Hx]; constructor; [|done].
  intros Hin. rewrite Forall_forall in Hx. specialize (Hx _ Hin). lia.
Qed.

Lemma map_wf_sorted n m : map_wf fits n m → StronglySorted Z.lt (JsMap.keys m).
Proof. by intros (_ & Hs & _). Qed.

Lemma map_wf_set_new n m v :
  map_wf fits n m → fits n v → map_wf fits (n + 1) (JsMap.set n v m).
Proof.
  intros Hwf Hv. pose proof (map_wf_fresh _ _ Hwf) as Hfresh.
  pose proof (map_wf_keys_below n m) as Hbelow.
  destruct Hwf as (Hn & Hs & Hm).
  rewrite JsMapFacts.set_new by done. split; [lia|]. split.
  - unfold JsMap.keys in *. rewrite map_app. simpl.
    apply StronglySorted_app. split; [|split; [done|repeat constructor]].
    intros x1 x2 Hx1 Hx2. apply list_elem_of_In in Hx1.
    apply list_elem_of_In in Hx2 as [<-|[]].
    apply Hbelow; [by repeat split|done].
  - apply Forall_app. split.
    + eapply Forall_impl; [exact Hm|]. simpl. intros [k v']; simpl.
      intros [? ?]. split; [lia|done].
    + repeat constructor; simpl; [lia|lia|done].
Qed.

Lemma map_wf_set_old n m k v v0 :
  map_wf fits n m → JsMap.get k m = Some v0 → fits k v →
  map_wf fits n (JsMap.set k v m).
Proof.
  intros Hwf Hk Hv. pose proof (map_wf_get _ _ _ _ Hwf Hk) as [Hkn _].
  destruct Hwf as (Hn & Hs & Hm). split; [done|]. split.
  - by erewrite JsMapFacts.keys_set_old.
  - by apply JsMapFacts.Forall_set.
Qed.

Lemma map_wf_delete n m k : map_wf fits n m → map_wf fits n (JsMap.delete k m).2.
Proof.
  intros (Hn & Hs & Hm). split; [done|]. split.
  - by apply JsMapFacts.keys_delete_sorted.
  - by apply JsMapFacts.Forall_delete.
Qed.

End Invariant.

Lemma carried_ids {V : Type} (idOf : V → Z) (m : JsMap.t V) :
  Forall (λ kv, idOf kv.2 = kv.1) m → map idOf (JsMap.values m) = JsMap.keys m.
Proof.
  intros Hm. unfold JsMap.values, JsMap.keys. rewrite map_map.
  induction Hm as [|[k v] m Hx Hm IH]; simpl in *; [done|].
  by rewrite Hx, IH.
Qed.

Lemma map_wf_ids {V : Type} (idOf : V → Z) (n : Z) (m : JsMap.t V) :
  map_wf (carries idOf) n m → map idOf (JsMap.values m) = JsMap.keys m.
Proof.
  intros (_ & _ & Hm). apply carried_ids.
  eapply Forall_impl; [exact Hm|]. by intros kv [_ Hkv].
Qed.

Section Preservation.
Context `{Runtime}.

Create HintDb store.

#[local] Hint Resolve map_wf_set_new map_wf_set_old map_wf_delete : store.
#[local] Hint Extern 1 (carries _ _ _) => reflexivity : store.
#[local] Hint Extern 1 (any _ _) => exact I : store.

Local Ltac wf_fields Hwf :=
  destruct Hwf as [Hu Hc Hm Hd Hap Hac Hb]; constructor; simpl;
  eauto with store.

Lemma createActivity_wf now d s : wf s → wf (createActivity now d s).2.
Proof. intros Hwf. unfold createActivity. wf_fields Hwf. Qed.

Lemma createUser_wf salt now d s : wf s → wf (createUser salt now d s).2.
Proof. intros Hwf. unfold createUser. wf_fields Hwf. Qed.

Lemma createBlogArticle_wf now d s : wf s → wf (createBlogArticle now d s).2.
Proof. intros Hwf. unfold createBlogArticle. wf_fields Hwf. Qed.

Lemma createClient_wf now nowA d s : wf s → wf (createClient now nowA d s).2.
Proof. intros Hwf. unfold createClient, createActivity. wf_fields Hwf. Qed.

Lemma createMeasurement_wf nowA d s : wf s → wf (createMeasurement nowA d s).2.
Proof.
  intros Hwf. unfold createMeasurement, createActivity. simpl.
  destruct (JsMap.get _ (clients s)); wf_fields Hwf.
Qed.

Lemma createDietPlan_wf now nowA d s : wf s → wf (createDietPlan now nowA d s).2.
Proof. intros Hwf. unfold createDietPlan, createActivity. wf_fields Hwf. Qed.

Lemma createAppointment_wf now nowA d s :
  wf s → wf (createAppointment now nowA d s).2.
Proof. intros Hwf. unfold createAppointment, createActivity. wf_fields Hwf. Qed.

Lemma updateClient_wf id d s : wf s → wf (updateClient id d s).2.
Proof.
  intros Hwf. unfold updateClient.
  destruct (JsMap.get id (clients s)) as [c|] eqn:Hg; [|done].
  wf_fields Hwf.
Qed.

Lemma updateMeasurement_wf id d s : wf s → wf (updateMeasurement id d s).2.
Proof.
  intros Hwf. unfold updateMeasurement.
  destruct (JsMap.get id (measurements s)) as [c|] eqn:Hg; [|done].
  wf_fields Hwf.
Qed.

Lemma updateDietPlan_wf id d s : wf s → wf (updateDietPlan id d s).2.
Proof.
  intros Hwf. unfold updateDietPlan.
  destruct (JsMap.get id (dietPlans s)) as [c|] eqn:Hg; [|done].
  wf_fields Hwf.
Qed.

Lemma updateAppointment_wf id d s : wf s → wf (updateAppointment id d s).2.
Proof.
  intros Hwf. unfold updateAppointment.
  destruct (JsMap.get id (appointments s)) as [c|] eqn:Hg; [|done].
  wf_fields Hwf.
Qed.

Lemma deleteClient_snd id s :
  (deleteClient id s).2
  = set_clients (JsMap.delete id (clients s)).2 (clientIdCounter s) s.
Proof. unfold deleteClient. by destruct (JsMap.delete id (clients s)). Qed.

Lemma deleteMeasurement_snd id s :
  (deleteMeasurement id s).2
  = set_measurements (JsMap.delete id (measurements s)).2 (measurementIdCounter s) s.
Proof. unfold deleteMeasurement. by destruct (JsMap.delete id (measurements s)). Qed.

Lemma deleteDietPlan_snd id s :
  (deleteDietPlan id s).2
  = set_dietPlans (JsMap.delete id (dietPlans s)).2 (dietPlanIdCounter s) s.
Proof. unfold deleteDietPlan. by destruct (JsMap.delete id (dietPlans s)). Qed.

Lemma deleteAppointment_snd id s :
  (deleteAppointment id s).2
  = set_appointments (JsMap.delete id (appointments s)).2 (appointmentIdCounter s) s.
Proof. unfold deleteAppointment. by destruct (JsMap.delete id (appointments s)). Qed.

Lemma step_wf op s : wf s → wf (step op s).
Proof.
  destruct op; cbn [step];
    auto using createActivity_wf, createUser_wf, createBlogArticle_wf,
      createClient_wf, createMeasurement_wf, createDietPlan_wf,
      createAppointment_wf, updateClient_wf, updateMeasurement_wf,
      updateDietPlan_wf, updateAppointment_wf.
  - rewrite deleteClient_snd. intros Hwf. wf_fields Hwf.
  - rewrite deleteMeasurement_snd. intros Hwf. wf_fields Hwf.
  - rewrite deleteDietPlan_snd. intros Hwf. wf_fields Hwf.
  - rewrite deleteAppointment_snd. intros Hwf. wf_fields Hwf.
Qed.

Lemma run_wf ops s : wf s → wf (run ops s).
Proof.
  revert s. induction ops as [|op ops IH]; intros s Hwf; simpl; [done|].
  apply IH. by apply step_wf.
Qed.

Lemma MemStorage_fields_wf : wf MemStorage_fields.
Proof. constructor; simpl; (split; [lia|split; constructor]). Qed.

Lemma MemStorage_new_wf t1 t2 t3 : wf (MemStorage_new t1 t2 t3).
Proof.
  unfold MemStorage_new, initialArticles. cbn [addInitialBlogArticles].
  do 3 apply createBlogArticle_wf. apply MemStorage_fields_wf.
Qed.

Lemma reachable_wf s : reachable s → wf s.
Proof.
  intros (t1 & t2 & t3 & ops & ->). apply run_wf, MemStorage_new_wf.
Qed.

Lemma reachable_step op s : reachable s → reachable (step op s).
Proof.
  intros (t1 & t2 & t3 & ops & ->). exists t1, t2, t3, (ops ++ [op]).
  unfold run. by rewrite fold_left_app.
Qed.
End Preservation.

(** ** Identifiers *)

Section Identifiers.
Context `{Runtime}.

Local Ltac unfold_ops :=
  unfold createUser, createClient, createMeasurement, createDietPlan,
    createAppointment, createBlogArticle, createActivity, updateClient,
    updateMeasurement, updateDietPlan, updateAppointment;
  rewrite ?deleteClient_snd, ?deleteMeasurement_snd, ?deleteDietPlan_snd,
    ?deleteAppointment_snd.

(** An operation adds no identifier but the counter of the type. *)
Lemma ids_step op T s k :
  In k (ids T (step op s)) → In k (ids T s) ∨ k = counter T s.
Proof.
  destruct op; cbn [step]; unfold_ops; repeat case_match;
    destruct T; simpl; intros Hin; auto.
  all: try (by apply JsMapFacts.keys_set_In in Hin).
  all: try (left; by eapply JsMapFacts.keys_delete_In).
  all: try (left; by erewrite JsMapFacts.keys_set_old in Hin).
Qed.

Lemma counter_step op T s : counter T s ≤ counter T (step op s).
Proof.
  destruct op; cbn [step]; unfold_ops; repeat case_match;
    destruct T; simpl; lia.
Qed.

Lemma counter_run ops T s : counter T s ≤ counter T (run ops s).
Proof.
  revert s. induction ops as [|op ops IH]; intros s; simpl; [lia|].
  etrans; [apply (counter_step op)|apply IH].
Qed.

Lemma wf_ids_below T s k : wf s → In k (ids T s) → 1 ≤ k ∧ k < counter T s.
Proof.
  intros Hwf. destruct Hwf, T; simpl; by eapply map_wf_keys_below.
Qed.

Lemma wf_ids_NoDup T s : wf s → NoDup (ids T s).
Proof. intros Hwf. destruct Hwf, T; simpl; by eapply map_wf_NoDup. Qed.

Lemma wf_ids_sorted T s : wf s → StronglySorted Z.lt (ids T s).
Proof. intros Hwf. destruct Hwf, T; simpl; by eapply map_wf_sorted. Qed.

(** The [id] members are the keys as long as no update has carried an [id]
    key. *)
Lemma wf_idMembers T s : wf s → carriesIds s → idMembers T s = ids T s.
Proof.
  intros Hwf (Hc & Hm & Hd & Ha).
  destruct Hwf, T; simpl; first [by eapply map_wf_ids|by eapply carried_ids].
Qed.

Lemma step_carriesIds op s : keepsId op → carriesIds s → carriesIds (step op s).
Proof.
  intros Hop (Hc & Hm & Hd & Ha).
  destruct op; cbn [step]; unfold_ops; simpl in Hop;
    repeat case_match; simpl; repeat split; try done.
  all: try (apply JsMapFacts.Forall_set; [done|]; simpl; try done).
  all: try (by apply JsMapFacts.Forall_delete).
  all: rewrite Hop; simpl.
  - exact (get_Forall _ _ _ _ Hc ltac:(eassumption)).
  - exact (get_Forall _ _ _ _ Hm ltac:(eassumption)).
  - exact (get_Forall _ _ _ _ Hd ltac:(eassumption)).
  - exact (get_Forall _ _ _ _ Ha ltac:(eassumption)).
Qed.

Lemma run_carriesIds ops s :
  Forall keepsId ops → carriesIds s → carriesIds (run ops s).
Proof.
  intros Hops. revert s. induction Hops as [|op ops Hop Hops IH]; intros s Hs; [done|].
  simpl. by apply IH, step_carriesIds.
Qed.

Lemma MemStorage_new_carriesIds t1 t2 t3 : carriesIds (MemStorage_new t1 t2 t3).
Proof. repeat split; constructor. Qed.
End Identifiers.

(** ** Comparators by date *)

Lemma StronglySorted_weaken {A : Type} (R R' : A → A → Prop) (l : list A) :
  (∀ x y, R x y → R' x y) → StronglySorted R l → StronglySorted R' l.
Proof.
  intros HR. induction 1 as [|x l Hl IH Hx]; constructor; [done|].
  eapply Forall_impl; [exact Hx|]. auto.
Qed.

Section ByKey.
Context {A : Type} (key : A → Z).

Lemma sort_descending (l : list A) :
  StronglySorted (λ a b, key b ≤ key a) (Array.sort_by (λ a b, key b - key a) l).
Proof.
  eapply StronglySorted_weaken;
    [|apply (ArrayFacts.sort_sorted (λ a b, key b - key a)); intros; lia].
  simpl. intros; lia.
Qed.

Lemma sort_ascending (l : list A) :
  StronglySorted (λ a b, key a ≤ key b) (Array.sort_by (λ a b, key a - key b) l).
Proof.
  eapply StronglySorted_weaken;
    [|apply (ArrayFacts.sort_sorted (λ a b, key a - key b)); intros; lia].
  simpl. intros; lia.
Qed.

Lemma sort_descending_stable (l : list A) (k : Z) :
  List.filter (λ a, key a =? k) (Array.sort_by (λ a b, key b - key a) l)
  = List.filter (λ a, key a =? k) l.
Proof. apply ArrayFacts.sort_stable. intros a b Ha Hb. lia. Qed.

Lemma sort_ascending_stable (l : list A) (k : Z) :
  List.filter (λ a, key a =? k) (Array.sort_by (λ a b, key a - key b) l)
  = List.filter (λ a, key a =? k) l.
Proof. apply ArrayFacts.sort_stable. intros a b Ha Hb. lia. Qed.

Lemma sort_descending_strict (l l' : list A) :
  Permutation l l' → StronglySorted (λ a b, key b < key a) l' →
  Array.sort_by (λ a b, key b - key a) l = l'.
Proof.
  intros Hp Hl'. apply ArrayFacts.sort_strict; try (intros; lia); [done|].
  eapply StronglySorted_weaken; [|exact Hl']. simpl. intros; lia.
Qed.
End ByKey.

(** The comparators of the store on members of type [Date | null] return no
    NaN: they compare the time values. *)
Lemma sort_nullable_descending {A : Type} (member : A → option Z) (l : list A) :
  Array.sort
    (λ a b, minus (getTime (nullable (member b))) (getTime (nullable (member a)))) l
  = Array.sort_by (λ a b, timeOf (member b) - timeOf (member a)) l.
Proof.
  apply ArrayFacts.sort_as. intros x y _ _. by destruct (member x), (member y).
Qed.

(** So does the comparator of the measurements as long as no date is
    absent. *)
Lemma sort_dated_descending (l : list Measurement.t) :
  Forall (λ m, Measurement.date m ≠ DateAbsent) l →
  Array.sort
    (λ a b, minus (getTime (Measurement.date b)) (getTime (Measurement.date a))) l
  = Array.sort_by
      (λ a b, measuredAt (Measurement.date b) - measuredAt (Measurement.date a)) l.
Proof.
  intros Hl. apply ArrayFacts.sort_as. intros x y Hx Hy.
  rewrite Forall_forall in Hl.
  pose proof (Hl x (proj2 (list_elem_of_In _ _) Hx)) as Hdx.
  pose proof (Hl y (proj2 (list_elem_of_In _ _) Hy)) as Hdy.
  by destruct (Measurement.date x), (Measurement.date y).
Qed.

(** * The claims *)

(** ** C1: listings by owner *)

(** C1, as stated, fails for appointments: on the store [twoAppointments]
    user 1 booked the appointment for time 2000 before the one for time 1000,
    and [getAppointmentsForUser] returns them in the other order, by date,
    not in insertion order. *)
Lemma C1_appointments_not_in_insertion_order :
  map Appointment.id (JsMap.values (appointments twoAppointments)) = [1; 2] ∧
  map Appointment.id (getAppointmentsForUser 1 twoAppointments) = [2; 1] ∧
  getAppointmentsForUser 1 twoAppointments
  ≠ List.filter (λ a, Appointment.userId a =? 1)
      (JsMap.values (appointments twoAppointments)).
Proof.
  split; [reflexivity|]. split; [reflexivity|].
  intros Heq. apply (f_equal (map Appointment.id)) in Heq.
  vm_compute in Heq. discriminate Heq.
Qed.

(** C1, amended: [getClientsForUser] and [getDietPlansForUser] return exactly
    the stored entities whose [userId] matches, in insertion order;
    [getAppointmentsForUser] returns exactly the matching appointments too,
    but sorted by date in ascending order, appointments of equal date in
    insertion order.  On a reachable store the insertion order of a map is
    the order of creation: the identifiers, which are the keys, increase
    along it; they are the [id] members too as long as no update has carried
    an [id] key. *)
Theorem C1_listings_by_owner `{Runtime} :
  (∀ (s : MemStorage) (userId : Z),
     getClientsForUser userId s
     = List.filter (λ c, Client.userId c =? userId) (JsMap.values (clients s))
     ∧ getDietPlansForUser userId s
       = List.filter (λ p, DietPlan.userId p =? userId) (JsMap.values (dietPlans s))
     ∧ Permutation (getAppointmentsForUser userId s)
         (List.filter (λ a, Appointment.userId a =? userId)
            (JsMap.values (appointments s)))
     ∧ StronglySorted (λ a b, Appointment.date a ≤ Appointment.date b)
         (getAppointmentsForUser userId s)
     ∧ ∀ date : Z,
         List.filter (λ a, Appointment.date a =? date)
           (getAppointmentsForUser userId s)
         = List.filter (λ a, Appointment.date a =? date)
             (List.filter (λ a, Appointment.userId a =? userId)
                (JsMap.values (appointments s))))
  ∧ (∀ s : MemStorage, reachable s →
       StronglySorted Z.lt (JsMap.keys (clients s))
       ∧ StronglySorted Z.lt (JsMap.keys (dietPlans s))
       ∧ StronglySorted Z.lt (JsMap.keys (appointments s)))
  ∧ (∀ (t1 t2 t3 : Z) (ops : list Op), Forall keepsId ops →
       let s := run ops (MemStorage_new t1 t2 t3) in
       map Client.id (JsMap.values (clients s)) = JsMap.keys (clients s)
       ∧ map DietPlan.id (JsMap.values (dietPlans s)) = JsMap.keys (dietPlans s)
       ∧ map Appointment.id (JsMap.values (appointments s))
         = JsMap.keys (appointments s)).
Proof.
  split.
  - intros s userId.
    unfold getClientsForUser, getDietPlansForUser, getAppointmentsForUser.
    rewrite !ArrayFacts.collect_filter. repeat split.
    + apply ArrayFacts.sort_perm.
    + apply (sort_ascending Appointment.date).
    + intros date. apply (sort_ascending_stable Appointment.date).
  - split.
    + intros s Hs. apply reachable_wf in Hs.
      split; [apply (wf_ids_sorted TClient s Hs)|].
      split; [apply (wf_ids_sorted TDietPlan s Hs)|].
      apply (wf_ids_sorted TAppointment s Hs).
    + intros t1 t2 t3 ops Hops s.
      assert (wf s) as Hs by apply run_wf, MemStorage_new_wf.
      assert (carriesIds s) as Hids
        by by apply run_carriesIds, MemStorage_new_carriesIds.
      split; [apply (wf_idMembers TClient s Hs Hids)|].
      split; [apply (wf_idMembers TDietPlan s Hs Hids)|].
      apply (wf_idMembers TAppointment s Hs Hids).
Qed.

(** The amended C1 on the store [twoClients]. *)
Lemma C1_listings_by_owner_witness :
  reachable (H := exampleRuntime) twoClients ∧
  StronglySorted Z.lt (JsMap.keys (clients twoClients)).
Proof.
  assert (reachable (H := exampleRuntime) twoClients) as Hr.
  { eexists 0, 0, 0, _. reflexivity. }
  split; [exact Hr|].
  exact (proj1 (proj1 (proj2 (C1_listings_by_owner (H := exampleRuntime)))
                  twoClients Hr)).
Defined.

(** ** C2: the activity recorder *)

(** C2, as stated, fails for measurements: on a new server no client 7
    exists; [createMeasurement] for client 7 stores the measurement and adds
    no activity at all. *)
Lemma C2_measurement_of_unknown_client_adds_no_activity :
  let s := MemStorage_new 0 0 0 in
  let r := createMeasurement 5 (exampleMeasurement 7 1000) s in
  getClient 7 s = None
  ∧ getMeasurement (Measurement.id r.1) r.2 = Some r.1
  ∧ activities r.2 = activities s
  ∧ ¬ ∃ activity, activities r.2 = activities s ++ [activity].
Proof.
  repeat split. intros [activity Hadd]. vm_compute in Hadd. discriminate Hadd.
Qed.

(** C2, amended: on a reachable store, [createClient], [createDietPlan] and
    [createAppointment] store the entity and append exactly one activity;
    for a diet plan or an appointment whose client id resolves to no client
    the description carries the placeholder name [Bilinmeyen Danışan].
    [createMeasurement] stores the measurement in either case; it appends
    exactly one activity when the client exists and none when it does not. *)
Theorem C2_activity_recorded `{Runtime} (s : MemStorage) :
  reachable s →
  let aid := activityIdCounter s in
  (∀ now nowA d,
     let r := createClient now nowA d s in
     getClient (Client.id r.1) r.2 = Some r.1
     ∧ activities r.2
       = activities s
         ++ [(aid, Activity.mk aid (InsertClient.userId d) (Some (Client.id r.1))
                     "client"
                     ("Yeni danışan eklendi: " +:+ InsertClient.fullName d)
                     (Some nowA))])
  ∧ (∀ now nowA d,
       let r := createDietPlan now nowA d s in
       getDietPlan (DietPlan.id r.1) r.2 = Some r.1
       ∧ activities r.2
         = activities s
           ++ [(aid, Activity.mk aid (InsertDietPlan.userId d)
                       (Some (InsertDietPlan.clientId d)) "diet_plan"
                       ("Yeni diyet planı oluşturuldu: "
                          +:+ match getClient (InsertDietPlan.clientId d) s with
                              | Some client => Client.fullName client
                              | None => "Bilinmeyen Danışan"
                              end
                          +:+ " için " +:+ InsertDietPlan.name d)
                       (Some nowA))])
  ∧ (∀ now nowA d,
       let r := createAppointment now nowA d s in
       getAppointment (Appointment.id r.1) r.2 = Some r.1
       ∧ activities r.2
         = activities s
           ++ [(aid, Activity.mk aid (InsertAppointment.userId d)
                       (Some (InsertAppointment.clientId d)) "appointment"
                       ("Yeni randevu oluşturuldu: "
                          +:+ match getClient (InsertAppointment.clientId d) s with
                              | Some client => Client.fullName client
                              | None => "Bilinmeyen Danışan"
                              end
                          +:+ " ile "
                          +:+ toLocaleDateString (InsertAppointment.date d))
                       (Some nowA))])
  ∧ (∀ nowA d,
       let r := createMeasurement nowA d s in
       getMeasurement (Measurement.id r.1) r.2 = Some r.1
       ∧ match getClient (InsertMeasurement.clientId d) s with
         | Some client =>
             activities r.2
             = activities s
               ++ [(aid, Activity.mk aid (Client.userId client)
                           (Some (InsertMeasurement.clientId d)) "measurement"
                           ("Yeni ölçüm kaydedildi: " +:+ Client.fullName client
                              +:+ " için")
                           (Some nowA))]
         | None => activities r.2 = activities s
         end).
Proof.
  intros Hs aid. apply reachable_wf in Hs.
  assert (∀ act : Activity.t,
            JsMap.set aid act (activities s) = activities s ++ [(aid, act)])
    as Hadd.
  { intros act. apply JsMapFacts.set_new.
    eapply map_wf_fresh, (wf_activities _ Hs). }
  repeat split; intros.
  - apply JsMapFacts.get_set_eq.
  - apply Hadd.
  - apply JsMapFacts.get_set_eq.
  - apply Hadd.
  - apply JsMapFacts.get_set_eq.
  - apply Hadd.
  - unfold createMeasurement, getMeasurement. simpl.
    case_match; apply JsMapFacts.get_set_eq.
  - unfold createMeasurement, getClient. simpl.
    destruct (JsMap.get _ (clients s)); [apply Hadd|done].
Qed.

(** The amended C2 on the store [twoClients]: a diet plan for the unknown
    client 9 is recorded under the placeholder name. *)
Lemma C2_activity_recorded_witness :
  let r := createDietPlan 4 5 (exampleDietPlan 1 9 "Kilo Verme Diyeti") twoClients in
  reachable (H := exampleRuntime) twoClients
  ∧ activities r.2
    = activities twoClients
      ++ [(4, Activity.mk 4 1 (Some 9) "diet_plan"
                "Yeni diyet planı oluşturuldu: Bilinmeyen Danışan için Kilo Verme Diyeti"
                (Some 5))].
Proof.
  intros r.
  assert (reachable (H := exampleRuntime) twoClients) as Hr.
  { eexists 0, 0, 0, _. reflexivity. }
  split; [exact Hr|].
  exact (proj2 (proj1 (proj2 (C2_activity_recorded (H := exampleRuntime) twoClients Hr))
                  4 5 (exampleDietPlan 1 9 "Kilo Verme Diyeti"))).
Defined.

(** ** C3: limits *)

Lemma StronglySorted_reverse {A : Type} (R : A → A → Prop) (l : list A) :
  StronglySorted R l → StronglySorted (flip R) (reverse l).
Proof.
  induction 1 as [|x l Hl IH Hx]; [constructor|].
  rewrite reverse_cons. apply StronglySorted_app.
  split; [|split; [done|repeat constructor]].
  intros x1 x2 Hx1 Hx2. apply list_elem_of_In in Hx2 as [<-|[]].
  rewrite Forall_forall in Hx. apply Hx. by apply elem_of_reverse.
Qed.

Lemma apply_limit_spec {A : Type} (limit : option Z) (sorted : list A) :
  Array.apply_limit limit sorted
  = match limit with
    | Some n => if 0 <? n then take (Z.to_nat n) sorted else sorted
    | None => sorted
    end.
Proof.
  destruct limit as [n|]; [|done]. simpl.
  destruct (Z.ltb_spec 0 n), (Z.eqb_spec n 0); try done. lia.
Qed.

(** When the time stamps increase strictly along the order of creation, the
    newest-first order is the reverse of the order of creation. *)
Lemma sort_descending_reverse {A : Type} (key : A → Z) (l : list A) :
  StronglySorted (λ a b, key a < key b) l →
  Array.sort_by (λ a b, key b - key a) l = reverse l.
Proof.
  intros Hl. apply sort_descending_strict.
  - by rewrite reverse_Permutation.
  - by apply StronglySorted_reverse in Hl.
Qed.

(** C3, as stated, fails when activities share a time stamp: on the store
    [fiveActivitiesAtOnce] user 1 has five activities, created in the order
    1, 2, 3, 4, 5 within one millisecond; with limit 2 the result holds the
    activities 1 and 2, the two created first, and neither of the two
    created last. *)
Lemma C3_limit_2_returns_the_oldest_of_a_tie :
  let s := fiveActivitiesAtOnce in
  let mine := List.filter (λ a, Activity.userId a =? 1) (JsMap.values (activities s)) in
  map Activity.id mine = [1; 2; 3; 4; 5]
  ∧ map Activity.id (mostRecentlyCreated 2 mine) = [5; 4]
  ∧ map Activity.id (getActivitiesForUser 1 (Some 2) s) = [1; 2]
  ∧ ¬ Permutation (getActivitiesForUser 1 (Some 2) s) (mostRecentlyCreated 2 mine).
Proof.
  split; [reflexivity|]. split; [reflexivity|]. split; [reflexivity|].
  intros Hp. apply (Permutation_map Activity.id) in Hp.
  vm_compute in Hp. apply Permutation_sym, (Permutation_in 5) in Hp; [|by left].
  destruct Hp as [Hp|[Hp|[]]]; discriminate Hp.
Qed.

(** C3, amended: without a limit, or with a limit that is zero or negative,
    [getActivitiesForUser] returns all activities of the user, newest first
    by [createdAt], activities of equal time stamp in order of creation; with
    a positive limit it returns the first [limit] elements of that list.
    [getBlogArticles] does the same with all articles and [publishedAt].
    When the time stamps of the user's activities increase strictly in order
    of creation, the result for a positive limit is exactly the [limit] most
    recently created activities, the latest first. *)
Theorem C3_limit (s : MemStorage) (userId : Z) (limit : option Z) :
  let created (a : Activity.t) := timeOf (Activity.createdAt a) in
  let published (a : BlogArticle.t) := timeOf (BlogArticle.publishedAt a) in
  let mine :=
    List.filter (λ a, Activity.userId a =? userId) (JsMap.values (activities s)) in
  let full := getActivitiesForUser userId None s in
  let articles := getBlogArticles None s in
  (Permutation full mine
   ∧ StronglySorted (λ a b, created b ≤ created a) full
   ∧ (∀ t, List.filter (λ a, created a =? t) full
           = List.filter (λ a, created a =? t) mine)
   ∧ getActivitiesForUser userId limit s
     = match limit with
       | Some n => if 0 <? n then take (Z.to_nat n) full else full
       | None => full
       end)
  ∧ (Permutation articles (JsMap.values (blogArticles s))
     ∧ StronglySorted (λ a b, published b ≤ published a) articles
     ∧ (∀ t, List.filter (λ a, published a =? t) articles
             = List.filter (λ a, published a =? t) (JsMap.values (blogArticles s)))
     ∧ getBlogArticles limit s
       = match limit with
         | Some n => if 0 <? n then take (Z.to_nat n) articles else articles
         | None => articles
         end)
  ∧ (StronglySorted (λ a b, created a < created b) mine →
     ∀ n, 0 < n →
       getActivitiesForUser userId (Some n) s = mostRecentlyCreated (Z.to_nat n) mine).
Proof.
  intros created published mine full articles.
  unfold full, articles, getActivitiesForUser, getBlogArticles.
  rewrite !ArrayFacts.collect_filter. fold mine.
  change (Array.apply_limit None ?l) with l.
  rewrite (sort_nullable_descending Activity.createdAt),
    (sort_nullable_descending BlogArticle.publishedAt).
  repeat split.
  - apply ArrayFacts.sort_perm.
  - apply (sort_descending created).
  - intros t. apply (sort_descending_stable created).
  - apply apply_limit_spec.
  - apply ArrayFacts.sort_perm.
  - apply (sort_descending published).
  - intros t. apply (sort_descending_stable published).
  - apply apply_limit_spec.
  - intros Hstrict n Hn. rewrite apply_limit_spec.
    destruct (Z.ltb_spec 0 n); [|lia].
    unfold mostRecentlyCreated. f_equal.
    by apply (sort_descending_reverse created).
Qed.

(** The amended C3 on the store [fiveActivitiesApart]: five activities one
    millisecond apart, limit 2, and the result holds the activities 5 and 4. *)
Lemma C3_limit_witness :
  let s := fiveActivitiesApart in
  let mine := List.filter (λ a, Activity.userId a =? 1) (JsMap.values (activities s)) in
  map Activity.id mine = [1; 2; 3; 4; 5]
  ∧ getActivitiesForUser 1 (Some 2) s = mostRecentlyCreated 2 mine
  ∧ map Activity.id (getActivitiesForUser 1 (Some 2) s) = [5; 4].
Proof.
  intros s mine. split; [reflexivity|]. split; [|reflexivity].
  refine (proj2 (proj2 (C3_limit s 1 (Some 2))) _ 2 _); [|reflexivity].
  vm_compute. repeat constructor.
Defined.

(** ** C4: newest first *)

(** When no measurement of the client lacks its date,
    [getMeasurementsForClient] returns all measurements of the client in
    descending order of [date] ([null] counting as time 0);
    [getActivitiesForUser] and [getBlogArticles] (without a limit) return all
    activities of the user and all articles in descending order of
    [createdAt] and [publishedAt].  When the measurements of the client are
    three, dated D1 < D2 < D3, the result is the one dated D3, then D2, then
    D1. *)
Theorem newest_first (s : MemStorage) (clientId userId : Z)
    (m1 m2 m3 : Measurement.t) :
  let dated (m : Measurement.t) := measuredAt (Measurement.date m) in
  let created (a : Activity.t) := timeOf (Activity.createdAt a) in
  let published (a : BlogArticle.t) := timeOf (BlogArticle.publishedAt a) in
  let ofClient :=
    List.filter (λ m, Measurement.clientId m =? clientId)
      (JsMap.values (measurements s)) in
  let ofUser :=
    List.filter (λ a, Activity.userId a =? userId) (JsMap.values (activities s)) in
  Permutation (getMeasurementsForClient clientId s) ofClient
  ∧ (Forall (λ m, Measurement.date m ≠ DateAbsent) ofClient →
     StronglySorted (λ a b, dated b ≤ dated a) (getMeasurementsForClient clientId s))
  ∧ (Permutation (getActivitiesForUser userId None s) ofUser
     ∧ StronglySorted (λ a b, created b ≤ created a)
         (getActivitiesForUser userId None s))
  ∧ (Permutation (getBlogArticles None s) (JsMap.values (blogArticles s))
     ∧ StronglySorted (λ a b, published b ≤ published a) (getBlogArticles None s))
  ∧ (Permutation ofClient [m1; m2; m3] →
     Forall (λ m, Measurement.date m ≠ DateAbsent) [m1; m2; m3] →
     dated m1 < dated m2 → dated m2 < dated m3 →
     getMeasurementsForClient clientId s = [m3; m2; m1]).
Proof.
  intros dated created published ofClient ofUser.
  unfold getMeasurementsForClient, getActivitiesForUser, getBlogArticles.
  rewrite !ArrayFacts.collect_filter. fold ofClient ofUser.
  change (Array.apply_limit None ?l) with l.
  rewrite (sort_nullable_descending Activity.createdAt),
    (sort_nullable_descending BlogArticle.publishedAt).
  repeat split.
  - apply ArrayFacts.sort_perm.
  - intros Hdated. rewrite sort_dated_descending by done.
    apply (sort_descending dated).
  - apply ArrayFacts.sort_perm.
  - apply (sort_descending created).
  - apply ArrayFacts.sort_perm.
  - apply (sort_descending published).
  - intros Hp Hdated H12 H23. rewrite sort_dated_descending by by rewrite Hp.
    apply (sort_descending_strict dated).
    + rewrite Hp. change [m3; m2; m1] with (rev [m1; m2; m3]).
      apply Permutation_rev.
    + repeat constructor; simpl; lia.
Qed.

(** On the store [threeMeasurements]: entered for the dates 2000, 3000 and
    1000, the measurements are listed as 3000, 2000, 1000. *)
Lemma newest_first_witness :
  let m1 := measurementOf 3 1000 in
  let m2 := measurementOf 1 2000 in
  let m3 := measurementOf 2 3000 in
  JsMap.values (measurements threeMeasurements) = [m2; m3; m1]
  ∧ getMeasurementsForClient 1 threeMeasurements = [m3; m2; m1].
Proof.
  intros m1 m2 m3. split; [reflexivity|].
  refine (proj2 (proj2 (proj2 (proj2
    (newest_first threeMeasurements 1 1 m1 m2 m3)))) _ _ _ _).
  - apply Permutation_sym, (Permutation_cons_app [m2; m3] [] m1), Permutation_refl.
  - repeat constructor; discriminate.
  - reflexivity.
  - reflexivity.
Defined.

(** C4 requires [getMeasurementsForClient] to list the measurements of
    every client in descending order of date, and the method means to
    (its comment: sort by date descending).  [createMeasurement] stores the
    data as given and supplies no date when none is given, although the
    column defaults to the current time.  On the store [undatedMeasurement]
    client 1 has measurements dated 1000 and 3000 and between them one
    without a date; the comparator returns NaN for every pair with the
    latter, the sort takes the neighbours as equal and moves nothing, and
    the listing has the measurement dated 1000 before the one dated 3000. *)
Theorem C4_undated_measurement_breaks_the_order :
  let s := undatedMeasurement in
  let listed := getMeasurementsForClient 1 s in
  map Measurement.date (JsMap.values (measurements s))
  = [DateAt 1000; DateAbsent; DateAt 3000]
  ∧ map Measurement.date listed = [DateAt 1000; DateAbsent; DateAt 3000]
  ∧ ¬ StronglySorted
        (λ a b, ∀ ta tb, Measurement.date a = DateAt ta →
                         Measurement.date b = DateAt tb → tb ≤ ta)
        listed.
Proof.
  split; [reflexivity|]. split; [reflexivity|].
  intros Hsorted. vm_compute in Hsorted.
  apply StronglySorted_inv in Hsorted as [_ Hfirst].
  apply Forall_cons in Hfirst as [_ Hfirst].
  apply Forall_cons in Hfirst as [Hpair _].
  specialize (Hpair 1000 3000 eq_refl eq_refl). by apply Hpair.
Qed.

(** ** C5: identifiers *)

Section C5.
Context `{Runtime}.

(** The entity a create method returns carries the counter as [id], a key
    that enters its map. *)
Lemma created_new op T s k :
  wf s → created op s = Some (T, k) →
  In k (ids T (step op s)) ∧ ¬ In k (ids T s).
Proof.
  intros Hwf Hc. assert (k = counter T s) as ->.
  { destruct op; simpl in Hc; try done; injection Hc as <- <-; try done.
    unfold createMeasurement. simpl. by case_match. }
  split; [|intros Hin; apply (wf_ids_below _ _ _ Hwf) in Hin; lia].
  destruct op; simpl in Hc; try done; injection Hc as <- _; simpl.
  all: try apply JsMapFacts.keys_set_self.
  unfold createMeasurement. simpl. case_match; apply JsMapFacts.keys_set_self.
Qed.
End C5.

(** C5: on a server that was constructed and has run any operations
    [earlier] and then [later], let [op] be the next operation.  Afterwards
    the identifiers of every type are pairwise distinct, and each entity
    carries the key it is stored under as [id]: always so a user, an
    activity and an article, which no method updates, and the others as long
    as no update has carried an [id] key.  An identifier that [op] adds
    to a type is greater than every identifier that type held at any earlier
    moment, whether or not its entity has been deleted since; so no
    identifier is issued twice.  The [id] of the entity that a create method
    returns is such an added identifier. *)
Theorem C5_identifiers_increase `{Runtime} (t1 t2 t3 : Z)
    (earlier later : list Op) (op : Op) (T : EntityType) :
  let past := run earlier (MemStorage_new t1 t2 t3) in
  let before := run later past in
  let after := step op before in
  NoDup (ids T after)
  ∧ (T = TUser ∨ T = TActivity ∨ T = TBlogArticle
     ∨ Forall keepsId (earlier ++ later ++ [op]) →
     idMembers T after = ids T after)
  ∧ (∀ k' : Z, In k' (ids T after) → ¬ In k' (ids T before) →
       ∀ k : Z, In k (ids T past) → k < k')
  ∧ (∀ k' : Z, created op before = Some (T, k') →
       In k' (ids T after) ∧ ¬ In k' (ids T before)).
Proof.
  intros past before after.
  assert (wf past) as Hpast by apply run_wf, MemStorage_new_wf.
  assert (wf before) as Hbefore by by apply run_wf.
  assert (wf after) as Hafter by by apply step_wf.
  split; [by apply wf_ids_NoDup|]. split; [|split].
  - destruct Hafter as [Hu _ _ _ _ Hac Hb].
    intros [->|[->|[->|Hops]]]; simpl; try by eapply map_wf_ids.
    apply wf_idMembers; [by apply step_wf|].
    replace after with (run (earlier ++ later ++ [op]) (MemStorage_new t1 t2 t3))
      by (unfold after, before, past, run; by rewrite !fold_left_app).
    by apply run_carriesIds, MemStorage_new_carriesIds.
  - intros k' Hin Hnew k Hk.
    apply ids_step in Hin as [Hin| ->]; [done|].
    apply (wf_ids_below _ _ _ Hpast) in Hk.
    pose proof (counter_run later T past) as Hmono. fold before in Hmono. lia.
  - intros k' Hc. by apply created_new.
Qed.

(** C5 on a server where client 1 was created and deleted: the next client
    gets the identifier 2, not 1 again. *)
Lemma C5_identifiers_increase_witness :
  let past := run (H := exampleRuntime) [CreateClient 1 1 (exampleClient 1 "Elif Kara")]
                (MemStorage_new 0 0 0) in
  let before := run (H := exampleRuntime) [DeleteClient 1] past in
  let op := CreateClient 2 2 (exampleClient 1 "Can Demir") in
  ids TClient past = [1] ∧ ids TClient before = [] ∧
  ids TClient (step (H := exampleRuntime) op before) = [2] ∧ 1 < 2.
Proof.
  intros past before op.
  split; [vm_compute; reflexivity|]. split; [vm_compute; reflexivity|].
  split; [vm_compute; reflexivity|].
  refine (proj1 (proj2 (proj2
    (C5_identifiers_increase (H := exampleRuntime) 0 0 0
       [CreateClient 1 1 (exampleClient 1 "Elif Kara")] [DeleteClient 1] op
       TClient))) 2 _ _ 1 _).
  - vm_compute. left. reflexivity.
  - vm_compute. intros [].
  - vm_compute. left. reflexivity.
Defined.

(** ** C6: ownership of a client *)

(** C6: let an authenticated principal read, update or delete the client
    [id].  If no such client exists, each handler answers 404 and leaves the
    store as it is.  If the client belongs to another user, each handler
    answers 403 with a message only, no client data, and leaves the store
    as it is.  If the client belongs to the principal, the handlers answer
    with the client, with the updated client, and with 204 after the
    deletion.  So a response carries a client, or the store changes, only
    for the owner. *)
Theorem C6_client_ownership (principal id : Z) (reqBody : PartialInsertClient.t)
    (s : MemStorage) :
  let owned := ∃ client, getClient id s = Some client ∧ Client.userId client = principal in
  (getClient id s = None →
     getClientRoute principal id s
     = (mkResponse 404 (JsonMessage "Danışan bulunamadı"), s)
     ∧ putClientRoute principal id reqBody s
       = (mkResponse 404 (JsonMessage "Danışan bulunamadı"), s)
     ∧ deleteClientRoute principal id s
       = (mkResponse 404 (JsonMessage "Danışan bulunamadı"), s))
  ∧ (∀ client, getClient id s = Some client → Client.userId client ≠ principal →
       getClientRoute principal id s
       = (mkResponse 403 (JsonMessage "Bu danışana erişim izniniz yok"), s)
       ∧ putClientRoute principal id reqBody s
         = (mkResponse 403 (JsonMessage "Bu danışanı güncelleme izniniz yok"), s)
       ∧ deleteClientRoute principal id s
         = (mkResponse 403 (JsonMessage "Bu danışanı silme izniniz yok"), s))
  ∧ (∀ client, getClient id s = Some client → Client.userId client = principal →
       getClientRoute principal id s = (mkResponse 200 (JsonClient client), s)
       ∧ putClientRoute principal id reqBody s
         = (mkResponse 200 (JsonClient (spreadClient client reqBody)),
            (updateClient id reqBody s).2)
       ∧ deleteClientRoute principal id s
         = (mkResponse 204 NoBody, (deleteClient id s).2))
  ∧ Forall
      (λ r : Response * MemStorage,
         (∀ client, body r.1 = JsonClient client → owned) ∧ (r.2 ≠ s → owned))
      [getClientRoute principal id s; putClientRoute principal id reqBody s;
       deleteClientRoute principal id s].
Proof.
  intros owned. unfold getClientRoute, putClientRoute, deleteClientRoute.
  rewrite (surjective_pairing (deleteClient id s)).
  unfold updateClient, owned. unfold getClient.
  destruct (JsMap.get id (clients s)) as [client|] eqn:Hget;
    [destruct (Z.eqb_spec (Client.userId client) principal) as [Heq|Hne]|];
    simpl; repeat split; intros; simplify_eq; try done.
  - repeat constructor; simpl; eauto.
  - repeat constructor; simpl; done.
  - repeat constructor; simpl; done.
Qed.

(** C6 on the store [twoClients]: client 1 belongs to user 1, and user 2 is
    refused. *)
Lemma C6_client_ownership_witness :
  (getClientRoute 2 1 twoClients).1
  = mkResponse 403 (JsonMessage "Bu danışana erişim izniniz yok")
  ∧ (deleteClientRoute 2 1 twoClients).2 = twoClients.
Proof.
  destruct (C6_client_ownership 2 1 (renameClient "Elif Demir") twoClients)
    as (_ & Hforbidden & _ & _).
  destruct (getClient 1 twoClients) as [client|] eqn:Hget; [|discriminate Hget].
  destruct (Hforbidden client eq_refl) as (Hread & _ & Hdelete).
  - injection Hget as <-. discriminate.
  - by rewrite Hread, Hdelete.
Defined.

(** ** C7 and C8: login and registration *)

Lemma find_username_Some username us user :
  find_username username us = Some user →
  In user us ∧ User.username user = username.
Proof.
  induction us as [|u us IH]; simpl; [done|].
  destruct (String.eqb_spec (User.username u) username) as [Heq|Hne].
  - intros [= <-]. auto.
  - intros Hfind. destruct (IH Hfind). auto.
Qed.

Lemma find_username_In user us :
  In user us → ∃ found, find_username (User.username user) us = Some found.
Proof.
  induction us as [|u us IH]; simpl; [done|].
  destruct (String.eqb_spec (User.username u) (User.username user)); [eauto|].
  intros [->|Hin]; [done|auto].
Qed.

(** C7: a login with the username of a stored user and a password that
    [bcrypt.compare] rejects is answered with 401 and the message
    [Geçersiz kullanıcı adı veya şifre]; the response, and the store after
    it, are those of a login with a username that no stored user has. *)
Theorem C7_login_failures_alike `{Runtime} (s : MemStorage)
    (issuedAt issuedAt' : Z) (known unknown : Login.t) (user : User.t) :
  getUserByUsername (Login.username known) s = Some user →
  bcrypt_compare (Login.password known) (User.password user) = false →
  getUserByUsername (Login.username unknown) s = None →
  In user (JsMap.values (users s))
  ∧ login issuedAt (Valid known) s
    = (mkResponse 401 (JsonMessage "Geçersiz kullanıcı adı veya şifre"), s)
  ∧ login issuedAt (Valid known) s = login issuedAt' (Valid unknown) s.
Proof.
  intros Hknown Hwrong Hunknown. unfold login.
  rewrite Hknown, Hwrong, Hunknown. simpl. repeat split.
  by apply find_username_Some in Hknown as [Hin _].
Qed.

(** C7 on the store [oneUser]: user ayse with a wrong password, and the
    unknown user mehmet. *)
Lemma C7_login_failures_alike_witness :
  login (H := exampleRuntime) 5 (Valid (Login.mk "ayse" "yanlis")) oneUser
  = login (H := exampleRuntime) 6 (Valid (Login.mk "mehmet" "dogru")) oneUser.
Proof.
  destruct (getUserByUsername "ayse" oneUser) as [user|] eqn:Hknown;
    [|discriminate Hknown].
  refine (proj2 (proj2
    (C7_login_failures_alike (H := exampleRuntime) oneUser 5 6
       (Login.mk "ayse" "yanlis") (Login.mk "mehmet" "dogru") user
       Hknown _ eq_refl))).
  injection Hknown as <-. reflexivity.
Defined.

(** C8: a registration whose username is the username of a stored user is
    answered with 400 and the message [Bu kullanıcı adı zaten kullanılıyor],
    and the store stays as it is: no user is added.  (A body that fails
    validation is answered with 400 as well, and changes nothing.) *)
Theorem C8_duplicate_username_rejected `{Runtime} (s : MemStorage)
    (salt : string) (now issuedAt : Z) (userData : InsertUser.t)
    (existing : User.t) :
  In existing (JsMap.values (users s)) →
  User.username existing = InsertUser.username userData →
  register salt now issuedAt (Valid userData) s
  = (mkResponse 400 (JsonMessage "Bu kullanıcı adı zaten kullanılıyor"), s)
  ∧ ∀ message,
      register salt now issuedAt (ZodError message) s
      = (mkResponse 400 (JsonMessage message), s).
Proof.
  intros Hin Hname. split; [|done]. unfold register, getUserByUsername.
  apply find_username_In in Hin as [found Hfound].
  by rewrite <- Hname, Hfound.
Qed.

(** C8 on the store [oneUser]: a second registration of ayse. *)
Lemma C8_duplicate_username_rejected_witness :
  register (H := exampleRuntime) "biber" 9 9 (Valid (exampleUser "ayse" "baska")) oneUser
  = (mkResponse 400 (JsonMessage "Bu kullanıcı adı zaten kullanılıyor"), oneUser).
Proof.
  destruct (JsMap.values (users oneUser)) as [|existing others] eqn:Husers;
    [discriminate Husers|].
  refine (proj1 (C8_duplicate_username_rejected (H := exampleRuntime) oneUser
                   "biber" 9 9 (exampleUser "ayse" "baska") existing _ _)).
  - rewrite Husers. by left.
  - injection Husers as <- _. reflexivity.
Defined.

(** ** C9: deleting a client *)

(** C9: on a reachable store, [deleteClient id] removes the entry [id] from
    the clients map and nothing else: every other client stays, in place;
    the maps of measurements, diet plans and appointments (and of users,
    activities and articles) and all counters are unchanged, so the
    measurements, diet plans and appointments of the deleted client are
    still listed.  The result tells whether the client existed. *)
Theorem C9_deleteClient_no_cascade `{Runtime} (id : Z) (s : MemStorage) :
  reachable s →
  let r := deleteClient id s in
  r.1 = bool_decide (getClient id s ≠ None)
  ∧ clients r.2 = List.filter (λ kv, negb (kv.1 =? id)) (clients s)
  ∧ getClient id r.2 = None
  ∧ (∀ k, k ≠ id → getClient k r.2 = getClient k s)
  ∧ sameExcept TClient s r.2
  ∧ getMeasurementsForClient id r.2 = getMeasurementsForClient id s
  ∧ getDietPlansForClient id r.2 = getDietPlansForClient id s
  ∧ getAppointmentsForClient id r.2 = getAppointmentsForClient id s.
Proof.
  intros Hs r. apply reachable_wf in Hs.
  pose proof (map_wf_NoDup _ _ _ (wf_clients _ Hs)) as Hnd.
  assert (r.2 = set_clients (JsMap.delete id (clients s)).2 (clientIdCounter s) s)
    as Hr2 by apply deleteClient_snd.
  assert (r.1 = (JsMap.delete id (clients s)).1) as Hr1.
  { unfold r, deleteClient. by destruct (JsMap.delete id (clients s)). }
  rewrite Hr1, Hr2. unfold getClient. simpl. repeat split; try done.
  - pose proof (JsMapFacts.delete_existed id (clients s)) as Hex.
    destruct (JsMap.delete id (clients s)).1; symmetry.
    + apply bool_decide_eq_true. by apply Hex.
    + apply bool_decide_eq_false. rewrite <- Hex. done.
  - by apply JsMapFacts.delete_filter.
  - by apply JsMapFacts.get_delete_eq.
  - intros k Hk. by apply JsMapFacts.get_delete_ne.
Qed.

(** C9 on the store [threeMeasurements]: after client 1 is deleted, its
    three measurements are still stored and listed. *)
Lemma C9_deleteClient_no_cascade_witness :
  let s' := (deleteClient 1 threeMeasurements).2 in
  reachable (H := exampleRuntime) threeMeasurements
  ∧ getClient 1 s' = None
  ∧ map Measurement.id (getMeasurementsForClient 1 s') = [2; 1; 3]
  ∧ getMeasurementsForClient 1 s' = getMeasurementsForClient 1 threeMeasurements.
Proof.
  intros s'.
  assert (reachable (H := exampleRuntime) threeMeasurements) as Hr.
  { eexists 0, 0, 0, _. reflexivity. }
  destruct (C9_deleteClient_no_cascade (H := exampleRuntime) 1 threeMeasurements Hr)
    as (_ & _ & Hgone & _ & _ & Hlisted & _).
  split; [exact Hr|]. split; [exact Hgone|]. split; [reflexivity|exact Hlisted].
Defined.

(** ** C10: updates *)




(** * Further properties of the store *)

(** ** Listings by client *)

(** X1: [getDietPlansForClient] returns exactly the diet plans of the client,
    newest first by [createdAt], plans of equal time stamp in insertion
    order; [getAppointmentsForClient] returns exactly the appointments of the
    client, in ascending order of date, appointments of equal date in
    insertion order. *)
Theorem listings_by_client (s : MemStorage) (clientId : Z) :
  let created (p : DietPlan.t) := timeOf (DietPlan.createdAt p) in
  let plans :=
    List.filter (λ p, DietPlan.clientId p =? clientId) (JsMap.values (dietPlans s)) in
  let booked :=
    List.filter (λ a, Appointment.clientId a =? clientId)
      (JsMap.values (appointments s)) in
  (Permutation (getDietPlansForClient clientId s) plans
   ∧ StronglySorted (λ a b, created b ≤ created a) (getDietPlansForClient clientId s)
   ∧ ∀ t, List.filter (λ p, created p =? t) (getDietPlansForClient clientId s)
          = List.filter (λ p, created p =? t) plans)
  ∧ (Permutation (getAppointmentsForClient clientId s) booked
     ∧ StronglySorted (λ a b, Appointment.date a ≤ Appointment.date b)
         (getAppointmentsForClient clientId s)
     ∧ ∀ t, List.filter (λ a, Appointment.date a =? t)
              (getAppointmentsForClient clientId s)
            = List.filter (λ a, Appointment.date a =? t) booked).
Proof.
  intros created plans booked.
  unfold getDietPlansForClient, getAppointmentsForClient.
  rewrite !ArrayFacts.collect_filter. fold plans booked.
  rewrite (sort_nullable_descending DietPlan.createdAt).
  repeat split.
  - apply ArrayFacts.sort_perm.
  - apply (sort_descending created).
  - intros t. apply (sort_descending_stable created).
  - apply ArrayFacts.sort_perm.
  - apply (sort_ascending Appointment.date).
  - intros t. apply (sort_ascending_stable Appointment.date).
Qed.

(** ** Looking a user up by name *)

(** X2: [getUserByUsername] returns the first stored user, in insertion order,
    that has the username, and [undefined] exactly when no stored user has
    it. *)
Theorem getUserByUsername_first (s : MemStorage) (username : string) :
  match getUserByUsername username s with
  | Some user =>
      User.username user = username
      ∧ ∃ before after,
          JsMap.values (users s) = before ++ user :: after
          ∧ Forall (λ u, User.username u ≠ username) before
  | None => Forall (λ u, User.username u ≠ username) (JsMap.values (users s))
  end.
Proof.
  unfold getUserByUsername. generalize (JsMap.values (users s)) as us.
  induction us as [|u us IH]; simpl; [constructor|].
  destruct (String.eqb_spec (User.username u) username) as [Heq|Hne].
  - split; [done|]. exists [], us. by split.
  - destruct (find_username username us) as [user|].
    + destruct IH as (Hname & before & after & -> & Hbefore).
      split; [done|]. exists (u :: before), after. split; [done|].
      by constructor.
    + by constructor.
Qed.

(** ** Updating twice *)

Lemma default_default {A : Type} (old : A) (new : option A) :
  default (default old new) new = default old new.
Proof. by destruct new. Qed.

Lemma set_set {V : Type} (k : Z) (v v' : V) (m : JsMap.t V) :
  JsMap.set k v (JsMap.set k v' m) = JsMap.set k v m.
Proof.
  induction m as [|[k0 v0] m IH]; simpl.
  - by rewrite Z.eqb_refl.
  - destruct (Z.eqb_spec k0 k) as [->|Hne]; simpl.
    + by rewrite Z.eqb_refl.
    + destruct (Z.eqb_spec k0 k); [done|]. by rewrite IH.
Qed.

(** X3: each update is idempotent: applying the same partial record to the same
    id a second time returns the same entity and leaves the store as the
    first application left it. *)
Theorem updates_idempotent (id : Z) (s : MemStorage)
    (clientData : PartialInsertClient.t)
    (measurementData : PartialInsertMeasurement.t)
    (dietPlanData : PartialInsertDietPlan.t)
    (appointmentData : PartialInsertAppointment.t) :
  updateClient id clientData (updateClient id clientData s).2
  = updateClient id clientData s
  ∧ updateMeasurement id measurementData (updateMeasurement id measurementData s).2
    = updateMeasurement id measurementData s
  ∧ updateDietPlan id dietPlanData (updateDietPlan id dietPlanData s).2
    = updateDietPlan id dietPlanData s
  ∧ updateAppointment id appointmentData (updateAppointment id appointmentData s).2
    = updateAppointment id appointmentData s.
Proof.
  unfold updateClient, updateMeasurement, updateDietPlan, updateAppointment.
  repeat split.
  - destruct (JsMap.get id (clients s)) as [c|] eqn:Hg; simpl; [|by rewrite Hg].
    rewrite JsMapFacts.get_set_eq, set_set.
    unfold spreadClient; simpl. by rewrite !default_default.
  - destruct (JsMap.get id (measurements s)) as [c|] eqn:Hg; simpl; [|by rewrite Hg].
    rewrite JsMapFacts.get_set_eq, set_set.
    unfold spreadMeasurement; simpl. by rewrite !default_default.
  - destruct (JsMap.get id (dietPlans s)) as [c|] eqn:Hg; simpl; [|by rewrite Hg].
    rewrite JsMapFacts.get_set_eq, set_set.
    unfold spreadDietPlan; simpl. by rewrite !default_default.
  - destruct (JsMap.get id (appointments s)) as [c|] eqn:Hg; simpl; [|by rewrite Hg].
    rewrite JsMapFacts.get_set_eq, set_set.
    unfold spreadAppointment; simpl. by rewrite !default_default.
Qed.

(** ** Deleting *)

Lemma delete_spec {V : Type} (k : Z) (m : JsMap.t V) :
  NoDup (JsMap.keys m) →
  (JsMap.delete k m).1 = bool_decide (JsMap.get k m ≠ None)
  ∧ JsMap.get k (JsMap.delete k m).2 = None
  ∧ (∀ k', k' ≠ k → JsMap.get k' (JsMap.delete k m).2 = JsMap.get k' m)
  ∧ JsMap.delete k (JsMap.delete k m).2 = (false, (JsMap.delete k m).2).
Proof.
  intros Hnd. pose proof (JsMapFacts.get_delete_eq k m Hnd) as Hgone.
  repeat split.
  - pose proof (JsMapFacts.delete_existed k m) as Hex.
    destruct (JsMap.delete k m).1; symmetry.
    + apply bool_decide_eq_true. by apply Hex.
    + apply bool_decide_eq_false. by rewrite <- Hex.
  - done.
  - intros k' Hk'. by apply JsMapFacts.get_delete_ne.
  - pose proof (JsMapFacts.delete_existed k (JsMap.delete k m).2) as Hex.
    pose proof (JsMapFacts.delete_absent k _ Hgone) as Hsame.
    destruct (JsMap.delete k (JsMap.delete k m).2) as [b m'].
    simpl in *. subst m'. f_equal. destruct b; [|done].
    by destruct (proj1 Hex eq_refl).
Qed.

(** X4: on a reachable store, [deleteMeasurement], [deleteDietPlan] and
    [deleteAppointment] tell whether the entity existed, remove it and
    nothing else (no other entity of the map, no other map, no counter), and
    deleting the same id once more returns [false] and changes nothing;
    the latter holds for [deleteClient] too. *)
Theorem deletes_remove_one_entry `{Runtime} (id : Z) (s : MemStorage) :
  reachable s →
  (let r := deleteMeasurement id s in
   r.1 = bool_decide (getMeasurement id s ≠ None)
   ∧ getMeasurement id r.2 = None
   ∧ (∀ k, k ≠ id → getMeasurement k r.2 = getMeasurement k s)
   ∧ sameExcept TMeasurement s r.2
   ∧ deleteMeasurement id r.2 = (false, r.2))
  ∧ (let r := deleteDietPlan id s in
     r.1 = bool_decide (getDietPlan id s ≠ None)
     ∧ getDietPlan id r.2 = None
     ∧ (∀ k, k ≠ id → getDietPlan k r.2 = getDietPlan k s)
     ∧ sameExcept TDietPlan s r.2
     ∧ deleteDietPlan id r.2 = (false, r.2))
  ∧ (let r := deleteAppointment id s in
     r.1 = bool_decide (getAppointment id s ≠ None)
     ∧ getAppointment id r.2 = None
     ∧ (∀ k, k ≠ id → getAppointment k r.2 = getAppointment k s)
     ∧ sameExcept TAppointment s r.2
     ∧ deleteAppointment id r.2 = (false, r.2))
  ∧ deleteClient id (deleteClient id s).2 = (false, (deleteClient id s).2).
Proof.
  intros Hs. apply reachable_wf in Hs.
  pose proof (delete_spec id _ (map_wf_NoDup _ _ _ (wf_measurements _ Hs)))
    as (Hm1 & Hm2 & Hm3 & Hm4).
  pose proof (delete_spec id _ (map_wf_NoDup _ _ _ (wf_dietPlans _ Hs)))
    as (Hd1 & Hd2 & Hd3 & Hd4).
  pose proof (delete_spec id _ (map_wf_NoDup _ _ _ (wf_appointments _ Hs)))
    as (Ha1 & Ha2 & Ha3 & Ha4).
  pose proof (delete_spec id _ (map_wf_NoDup _ _ _ (wf_clients _ Hs)))
    as (_ & _ & _ & Hc4).
  unfold deleteMeasurement, deleteDietPlan, deleteAppointment, deleteClient,
    getMeasurement, getDietPlan, getAppointment.
  destruct (JsMap.delete id (measurements s)) as [bm mm].
  destruct (JsMap.delete id (dietPlans s)) as [bd md].
  destruct (JsMap.delete id (appointments s)) as [ba ma].
  destruct (JsMap.delete id (clients s)) as [bc mc].
  simpl in *. rewrite Hm4, Hd4, Ha4, Hc4. repeat split; done.
Qed.

(** On the store [threeMeasurements]: measurement 2 is deleted, measurement 1
    stays, and a second deletion reports that nothing was there. *)
Lemma deletes_remove_one_entry_witness :
  let r := deleteMeasurement 2 threeMeasurements in
  r.1 = true
  ∧ map Measurement.id (JsMap.values (measurements r.2)) = [1; 3]
  ∧ deleteMeasurement 2 r.2 = (false, r.2).
Proof.
  intros r.
  assert (reachable (H := exampleRuntime) threeMeasurements) as Hr.
  { eexists 0, 0, 0, _. reflexivity. }
  destruct (deletes_remove_one_entry (H := exampleRuntime) 2 threeMeasurements Hr)
    as ((_ & _ & _ & _ & Htwice) & _).
  split; [reflexivity|]. split; [reflexivity|exact Htwice].
Defined.

(** ** Creating, then listing *)

(** X5: on a reachable store, a new client is stored under its [id] and is
    listed last for its owner and for nobody else, and no other client is
    touched; the same holds for a new diet plan. *)
Theorem created_entity_is_listed_last `{Runtime} (s : MemStorage)
    (now nowA userId : Z) (clientData : InsertClient.t)
    (dietPlanData : InsertDietPlan.t) :
  reachable s →
  (let r := createClient now nowA clientData s in
   getClientsForUser userId r.2
   = getClientsForUser userId s
     ++ (if InsertClient.userId clientData =? userId then [r.1] else [])
   ∧ getClient (Client.id r.1) s = None
   ∧ ∀ k, k ≠ Client.id r.1 → getClient k r.2 = getClient k s)
  ∧ (let r := createDietPlan now nowA dietPlanData s in
     getDietPlansForUser userId r.2
     = getDietPlansForUser userId s
       ++ (if InsertDietPlan.userId dietPlanData =? userId then [r.1] else [])
     ∧ getDietPlan (DietPlan.id r.1) s = None
     ∧ ∀ k, k ≠ DietPlan.id r.1 → getDietPlan k r.2 = getDietPlan k s).
Proof.
  intros Hs. apply reachable_wf in Hs.
  pose proof (map_wf_fresh _ _ _ (wf_clients _ Hs)) as Hc.
  pose proof (map_wf_fresh _ _ _ (wf_dietPlans _ Hs)) as Hd.
  unfold getClientsForUser, getDietPlansForUser, getClient, getDietPlan.
  rewrite !ArrayFacts.collect_filter. simpl.
  rewrite !JsMapFacts.set_new by done.
  unfold JsMap.values. rewrite !map_app, !List.filter_app. simpl.
  repeat split; try done.
  - intros k Hk. rewrite <- JsMapFacts.set_new by done.
    by apply JsMapFacts.get_set_ne.
  - intros k Hk. rewrite <- JsMapFacts.set_new by done.
    by apply JsMapFacts.get_set_ne.
Qed.

(** On the store [twoClients]: a third client of user 1 is listed third for
    user 1 and not at all for user 2. *)
Lemma created_entity_is_listed_last_witness :
  let r := createClient 7 7 (exampleClient 1 "Ece Ay") twoClients in
  map Client.id (getClientsForUser 1 r.2) = [1; 2; 3]
  ∧ getClientsForUser 2 r.2 = getClientsForUser 2 twoClients ++ [].
Proof.
  intros r.
  assert (reachable (H := exampleRuntime) twoClients) as Hr.
  { eexists 0, 0, 0, _. reflexivity. }
  split; [reflexivity|].
  exact (proj1 (proj1 (created_entity_is_listed_last (H := exampleRuntime)
    twoClients 7 7 2 (exampleClient 1 "Ece Ay")
    (exampleDietPlan 1 1 "Kilo Verme Diyeti") Hr))).
Defined.

(** ** What the store never takes back *)

Section AppendOnly.
Context `{Runtime}.

Lemma step_appends op s :
  wf s →
  (∃ added, users (step op s) = users s ++ added)
  ∧ (∃ added, activities (step op s) = activities s ++ added)
  ∧ (∃ added, blogArticles (step op s) = blogArticles s ++ added).
Proof.
  intros Hwf.
  pose proof (map_wf_fresh _ _ _ (wf_users _ Hwf)) as Hu.
  pose proof (map_wf_fresh _ _ _ (wf_activities _ Hwf)) as Ha.
  pose proof (map_wf_fresh _ _ _ (wf_blogArticles _ Hwf)) as Hb.
  destruct op; cbn [step];
    unfold createUser, createClient, createMeasurement, createDietPlan,
      createAppointment, createBlogArticle, createActivity, updateClient,
      updateMeasurement, updateDietPlan, updateAppointment;
    rewrite ?deleteClient_snd, ?deleteMeasurement_snd, ?deleteDietPlan_snd,
      ?deleteAppointment_snd;
    repeat case_match; simpl;
    rewrite ?JsMapFacts.set_new by done;
    repeat split; try (by exists []; rewrite app_nil_r); eauto.
Qed.

Lemma run_appends ops s :
  wf s →
  (∃ added, users (run ops s) = users s ++ added)
  ∧ (∃ added, activities (run ops s) = activities s ++ added)
  ∧ (∃ added, blogArticles (run ops s) = blogArticles s ++ added).
Proof.
  revert s. induction ops as [|op ops IH]; intros s Hwf; simpl.
  - repeat split; exists []; by rewrite app_nil_r.
  - destruct (step_appends op s Hwf) as ([u Hu] & [a Ha] & [b Hb]).
    destruct (IH (step op s) (step_wf _ _ Hwf)) as ([u' Hu'] & [a' Ha'] & [b' Hb']).
    fold (run ops (step op s)) in *.
    rewrite Hu', Ha', Hb', Hu, Ha, Hb, <- !app_assoc.
    repeat split; eexists; reflexivity.
Qed.
End AppendOnly.

(** X6: no operation of the store changes or removes a user, an activity or an
    article: on a reachable store, after any further operations, the maps
    of users, activities and articles are the old ones with new entries
    added at the end. *)
Theorem users_activities_articles_only_grow `{Runtime} (s : MemStorage)
    (ops : list Op) :
  reachable s →
  (∃ added, users (run ops s) = users s ++ added)
  ∧ (∃ added, activities (run ops s) = activities s ++ added)
  ∧ (∃ added, blogArticles (run ops s) = blogArticles s ++ added).
Proof. intros Hs. by apply run_appends, reachable_wf. Qed.

(** On the store [twoClients]: after client 1 is updated and then deleted,
    the three activities recorded so far are still the first three. *)
Lemma users_activities_articles_only_grow_witness :
  ∃ added,
    activities
      (run (H := exampleRuntime)
         [UpdateClient 1 (renameClient "Elif Demir"); DeleteClient 1;
          CreateClient 8 8 (exampleClient 2 "Su Er")] twoClients)
    = activities twoClients ++ added.
Proof.
  assert (reachable (H := exampleRuntime) twoClients) as Hr.
  { eexists 0, 0, 0, _. reflexivity. }
  exact (proj1 (proj2 (users_activities_articles_only_grow (H := exampleRuntime)
    twoClients _ Hr))).
Defined.

(** ** Time stamps *)

Section Stamped.
Context `{Runtime}.

Lemma step_stamped op s : keepsStamp op → stamped s → stamped (step op s).
Proof.
  intros Hop (Hu & Hc & Hd & Hap & Hac & Hb).
  destruct op; cbn [step]; cbn [keepsStamp] in Hop.
  - unfold createUser. cbn. repeat split; try done.
    by apply JsMapFacts.Forall_set.
  - unfold createClient, createActivity. cbn. repeat split; try done;
      by apply JsMapFacts.Forall_set.
  - unfold updateClient.
    destruct (JsMap.get id (clients s)) as [c|] eqn:Hg; cbn; repeat split; try done.
    apply JsMapFacts.Forall_set; [done|]. cbn. rewrite Hop.
    exact (get_Forall _ _ _ _ Hc Hg).
  - rewrite deleteClient_snd. cbn. repeat split; try done.
    by apply JsMapFacts.Forall_delete.
  - unfold createMeasurement, createActivity. cbn.
    destruct (JsMap.get _ (clients s)); cbn; repeat split; try done.
    by apply JsMapFacts.Forall_set.
  - unfold updateMeasurement.
    destruct (JsMap.get id (measurements s)); cbn; repeat split; done.
  - rewrite deleteMeasurement_snd. cbn. repeat split; done.
  - unfold createDietPlan, createActivity. cbn. repeat split; try done;
      by apply JsMapFacts.Forall_set.
  - unfold updateDietPlan.
    destruct (JsMap.get id (dietPlans s)) as [c|] eqn:Hg; cbn; repeat split; try done.
    apply JsMapFacts.Forall_set; [done|]. cbn. rewrite Hop.
    exact (get_Forall _ _ _ _ Hd Hg).
  - rewrite deleteDietPlan_snd. cbn. repeat split; try done.
    by apply JsMapFacts.Forall_delete.
  - unfold createAppointment, createActivity. cbn. repeat split; try done;
      by apply JsMapFacts.Forall_set.
  - unfold updateAppointment.
    destruct (JsMap.get id (appointments s)) as [c|] eqn:Hg; cbn; repeat split; try done.
    apply JsMapFacts.Forall_set; [done|]. cbn. rewrite Hop.
    exact (get_Forall _ _ _ _ Hap Hg).
  - rewrite deleteAppointment_snd. cbn. repeat split; try done.
    by apply JsMapFacts.Forall_delete.
  - unfold createActivity. cbn. repeat split; try done.
    by apply JsMapFacts.Forall_set.
  - unfold createBlogArticle. cbn. repeat split; try done.
    by apply JsMapFacts.Forall_set.
Qed.

Lemma run_stamped ops s : Forall keepsStamp ops → stamped s → stamped (run ops s).
Proof.
  intros Hops. revert s.
  induction Hops as [|op ops Hop Hops IH]; intros s Hs; simpl; [done|].
  by apply IH, step_stamped.
Qed.

Lemma MemStorage_new_stamped t1 t2 t3 : stamped (MemStorage_new t1 t2 t3).
Proof.
  unfold MemStorage_new, initialArticles. cbn [addInitialBlogArticles].
  do 3 apply (step_stamped (CreateBlogArticle _ _) _ I).
  repeat split; constructor.
Qed.

(** The entities that no method updates keep their stamps whatever the
    operations. *)
Lemma step_stamped_never_updated op s :
  Forall (λ kv, User.createdAt kv.2 ≠ None) (users s)
  ∧ Forall (λ kv, Activity.createdAt kv.2 ≠ None) (activities s)
  ∧ Forall (λ kv, BlogArticle.publishedAt kv.2 ≠ None) (blogArticles s) →
  Forall (λ kv, User.createdAt kv.2 ≠ None) (users (step op s))
  ∧ Forall (λ kv, Activity.createdAt kv.2 ≠ None) (activities (step op s))
  ∧ Forall (λ kv, BlogArticle.publishedAt kv.2 ≠ None) (blogArticles (step op s)).
Proof.
  intros (Hu & Hac & Hb).
  destruct op; cbn [step];
    rewrite ?deleteClient_snd, ?deleteMeasurement_snd, ?deleteDietPlan_snd,
      ?deleteAppointment_snd;
    unfold createUser, createClient, createMeasurement, createDietPlan,
      createAppointment, createBlogArticle, createActivity, updateClient,
      updateMeasurement, updateDietPlan, updateAppointment;
    cbn;
    repeat match goal with
      | |- context [match JsMap.get ?k ?m with _ => _ end] =>
          destruct (JsMap.get k m); cbn
      end;
    repeat split; try done; by apply JsMapFacts.Forall_set.
Qed.

Lemma run_stamped_never_updated ops s :
  Forall (λ kv, User.createdAt kv.2 ≠ None) (users s)
  ∧ Forall (λ kv, Activity.createdAt kv.2 ≠ None) (activities s)
  ∧ Forall (λ kv, BlogArticle.publishedAt kv.2 ≠ None) (blogArticles s) →
  Forall (λ kv, User.createdAt kv.2 ≠ None) (users (run ops s))
  ∧ Forall (λ kv, Activity.createdAt kv.2 ≠ None) (activities (run ops s))
  ∧ Forall (λ kv, BlogArticle.publishedAt kv.2 ≠ None) (blogArticles (run ops s)).
Proof.
  revert s. induction ops as [|op ops IH]; intros s Hs; simpl; [done|].
  by apply IH, step_stamped_never_updated.
Qed.
End Stamped.

(** X7: the create methods stamp what they store, and the stamp stays
    unless an update overwrites it.  On a reachable store every user and
    activity carries a creation time and every article a publication time,
    for no method updates these; so the comparators of
    [getActivitiesForUser] and [getBlogArticles] meet no missing date.  A
    client, a diet plan and an appointment carry one as long as no update
    record has had a [createdAt] key; an update whose record has the key
    stores what the record says, [null] too, and [getDietPlansForClient]
    then reads the creation time of that plan as 0. *)
Theorem stamps_stay_unless_overwritten `{Runtime} :
  (∀ s, reachable s →
     Forall (λ u, User.createdAt u ≠ None) (JsMap.values (users s))
     ∧ Forall (λ a, Activity.createdAt a ≠ None) (JsMap.values (activities s))
     ∧ Forall (λ a, BlogArticle.publishedAt a ≠ None) (JsMap.values (blogArticles s)))
  ∧ (∀ t1 t2 t3 ops, Forall keepsStamp ops →
       let s := run ops (MemStorage_new t1 t2 t3) in
       Forall (λ c, Client.createdAt c ≠ None) (JsMap.values (clients s))
       ∧ Forall (λ p, DietPlan.createdAt p ≠ None) (JsMap.values (dietPlans s))
       ∧ Forall (λ a, Appointment.createdAt a ≠ None)
           (JsMap.values (appointments s)))
  ∧ (∀ s id stamp,
       (∀ data old, getClient id s = Some old →
          PartialInsertClient.createdAt data = Some stamp →
          ∃ new, getClient id (updateClient id data s).2 = Some new
                 ∧ Client.createdAt new = stamp)
       ∧ (∀ data old, getDietPlan id s = Some old →
            PartialInsertDietPlan.createdAt data = Some stamp →
            ∃ new, getDietPlan id (updateDietPlan id data s).2 = Some new
                   ∧ DietPlan.createdAt new = stamp)
       ∧ (∀ data old, getAppointment id s = Some old →
            PartialInsertAppointment.createdAt data = Some stamp →
            ∃ new, getAppointment id (updateAppointment id data s).2 = Some new
                   ∧ Appointment.createdAt new = stamp)).
Proof.
  split; [|split].
  - intros s (t1 & t2 & t3 & ops & ->).
    destruct (MemStorage_new_stamped t1 t2 t3) as (Hu & _ & _ & _ & Hac & Hb).
    destruct (run_stamped_never_updated ops _ (conj Hu (conj Hac Hb)))
      as (Hu' & Hac' & Hb').
    unfold JsMap.values. by rewrite !Forall_map.
  - intros t1 t2 t3 ops Hops s.
    destruct (run_stamped ops _ Hops (MemStorage_new_stamped t1 t2 t3))
      as (_ & Hc & Hd & Hap & _).
    unfold JsMap.values. by rewrite !Forall_map.
  - intros s id stamp.
    unfold getClient, getDietPlan, getAppointment, updateClient, updateDietPlan,
      updateAppointment.
    repeat split; intros data old Hold Hdata; rewrite Hold; cbn;
      rewrite JsMapFacts.get_set_eq; eexists; (split; [reflexivity|]);
      cbn; by rewrite Hdata.
Qed.

(** On the store [twoClients]: client 1 keeps its stamp when it is renamed,
    and loses it to a record with the key [createdAt] and the value
    [null]. *)
Lemma stamps_stay_unless_overwritten_witness :
  Forall (λ c, Client.createdAt c ≠ None)
    (JsMap.values (clients (updateClient 1 (renameClient "Elif Demir") twoClients).2))
  ∧ ∃ new, getClient 1 (updateClient 1 unstamp twoClients).2 = Some new
           ∧ Client.createdAt new = None.
Proof.
  pose proof (stamps_stay_unless_overwritten (H := exampleRuntime))
    as (_ & Hkept & Hlost).
  split.
  - assert (run (H := exampleRuntime)
              [CreateClient 1 1 (exampleClient 1 "Elif Kara");
               CreateClient 2 2 (exampleClient 1 "Can Demir");
               CreateDietPlan 3 3 (exampleDietPlan 1 1 "Kilo Verme Diyeti");
               UpdateClient 1 (renameClient "Elif Demir")] (MemStorage_new 0 0 0)
            = (updateClient 1 (renameClient "Elif Demir") twoClients).2) as <-
      by (vm_compute; reflexivity).
    apply (Hkept 0 0 0). repeat constructor.
  - destruct (getClient 1 twoClients) as [old|] eqn:Hold;
      [|vm_compute in Hold; discriminate Hold].
    exact (proj1 (Hlost twoClients 1 None) unstamp old Hold eq_refl).
Defined.

(** * Properties of the request handlers *)

(** ** The authentication middleware *)

Lemma prefix_spec (p h : string) :
  String.prefix p h = true ↔ ∃ x, h = p +:+ x.
Proof.
  revert h. induction p as [|c p IH]; intros [|c' h]; simpl.
  - split; [intros _; by exists ""|done].
  - split; [intros _; by exists (String c' h)|done].
  - split; [done|by intros [x Hx]].
  - destruct (Ascii.ascii_dec c c') as [->|Hne].
    + rewrite IH. split; intros [x Hx]; exists x.
      * simpl. by rewrite Hx.
      * simpl in Hx. by injection Hx.
    + split; [done|]. intros [x Hx]. simpl in Hx. by injection Hx.
Qed.

(** The first piece of a split is the text before the first separator. *)
Lemma split_first (sep : Ascii.ascii) (x : string) :
  ∃ token pieces rest,
    split sep x = token :: pieces
    ∧ x = token +:+ rest
    ∧ split sep token = [token]
    ∧ (rest = "" ∧ pieces = []
       ∨ ∃ junk, rest = String sep junk ∧ pieces = split sep junk).
Proof.
  induction x as [|c x IH]; simpl.
  - exists "", [], "". repeat split. by left.
  - destruct (Ascii.eqb_spec c sep) as [->|Hne].
    + exists "", (split sep x), (String sep x). repeat split. right. eauto.
    + destruct IH as (token & pieces & rest & -> & -> & Htoken & Hrest).
      exists (String c token), pieces, rest. repeat split; [|done].
      simpl. destruct (Ascii.eqb_spec c sep); [done|]. by rewrite Htoken.
Qed.

Lemma split_nonempty (sep : Ascii.ascii) (x : string) : split sep x ≠ [].
Proof. destruct (split_first sep x) as (? & ? & ? & Hs & _). by rewrite Hs. Qed.

Lemma split_single_inv (sep c : Ascii.ascii) (token : string) :
  split sep (String c token) = [String c token] →
  c ≠ sep ∧ split sep token = [token].
Proof.
  simpl. destruct (Ascii.eqb_spec c sep) as [->|Hne]; [done|].
  destruct (split sep token) as [|piece pieces] eqn:Hs.
  - by apply split_nonempty in Hs.
  - by intros [= -> ->].
Qed.

Lemma split_token_sep (sep : Ascii.ascii) (token junk : string) :
  split sep token = [token] →
  split sep (token +:+ String sep junk) = token :: split sep junk.
Proof.
  induction token as [|c token IH]; intros Htoken.
  - simpl. by rewrite Ascii.eqb_refl.
  - apply split_single_inv in Htoken as [Hne Htoken].
    change (String c token +:+ String sep junk)
      with (String c (token +:+ String sep junk)).
    cbn [split]. destruct (Ascii.eqb_spec c sep); [done|].
    by rewrite (IH Htoken).
Qed.

Lemma append_empty_r (x : string) : x +:+ "" = x.
Proof.
  induction x as [|c x IH]; [done|].
  change (String c x +:+ "") with (String c (x +:+ "")). by rewrite IH.
Qed.

Lemma split_bearer (x : string) :
  split Ascii.Space ("Bearer " +:+ x) = "Bearer" :: split Ascii.Space x.
Proof. reflexivity. Qed.

Lemma authenticate_cases `{Verifier} (verifiedAt : Z)
    (authorization : option string) (decoded : Z * string) :
  (authenticate verifiedAt authorization = inr decoded
   ↔ ∃ token rest,
       authorization = Some ("Bearer " +:+ token +:+ rest)
       ∧ split Ascii.Space token = [token]
       ∧ (rest = "" ∨ ∃ junk, rest = String Ascii.Space junk)
       ∧ jwt_verify token verifiedAt = Some decoded)
  ∧ (∀ response, authenticate verifiedAt authorization = inl response →
       status response = 401 ∧ ∃ text, body response = JsonMessage text).
Proof.
  split; [split|].
  - unfold authenticate. destruct authorization as [h|]; [|done].
    destruct (String.prefix "Bearer " h) eqn:Hp; [|done].
    apply prefix_spec in Hp as [x ->]. rewrite split_bearer.
    destruct (split_first Ascii.Space x)
      as (token & pieces & rest & -> & -> & Htoken & Hrest).
    cbn [negb]. destruct (jwt_verify token verifiedAt) as [d|] eqn:Hv; [|done].
    intros [= <-]. exists token, rest.
    split; [done|]. split; [done|]. split; [|done].
    destruct Hrest as [[-> _]|(junk & -> & _)]; eauto.
  - intros (token & rest & -> & Htoken & Hrest & Hv).
    unfold authenticate. rewrite split_bearer.
    rewrite (proj2 (prefix_spec "Bearer " _)) by eauto. cbn [negb].
    destruct Hrest as [->|[junk ->]].
    + by rewrite append_empty_r, Htoken, Hv.
    + by rewrite (split_token_sep _ _ _ Htoken), Hv.
  - intros response. unfold authenticate.
    repeat case_match; intros [= <-]; eauto.
Qed.

(** X8: the [authenticate] middleware lets a request pass exactly when the
    header is [Bearer], one space, and a token that [jwt.verify] accepts; the
    token ends at the next space, and whatever follows it is ignored.  Every
    other request is answered with 401 and a message. *)
Theorem authenticate_spec `{Verifier} (verifiedAt : Z)
    (authorization : option string) (decoded : Z * string) :
  (authenticate verifiedAt authorization = inr decoded
   ↔ ∃ token rest,
       authorization = Some ("Bearer " +:+ token +:+ rest)
       ∧ split Ascii.Space token = [token]
       ∧ (rest = "" ∨ ∃ junk, rest = String Ascii.Space junk)
       ∧ jwt_verify token verifiedAt = Some decoded)
  ∧ (∀ response, authenticate verifiedAt authorization = inl response →
       status response = 401 ∧ ∃ text, body response = JsonMessage text).
Proof. apply authenticate_cases. Qed.

(** With the toy verifier: a header with a good token and text after it. *)
Lemma authenticate_spec_witness :
  authenticate (H := exampleVerifier) 5 (Some "Bearer jwt.ayse and more")
  = inr (1, "ayse").
Proof.
  apply (proj1 (authenticate_spec (H := exampleVerifier) 5
                  (Some "Bearer jwt.ayse and more") (1, "ayse"))).
  exists "jwt.ayse", " and more". repeat split. right. by exists "and more".
Defined.

(** ** Registration, login and the session *)

Lemma find_username_app username us us' :
  find_username username (us ++ us')
  = match find_username username us with
    | Some user => Some user
    | None => find_username username us'
    end.
Proof.
  induction us as [|u us IH]; simpl; [done|].
  by destruct (String.eqb (User.username u) username).
Qed.

(** X9: on a reachable store, a registration with a username that no stored
    user has is answered with 201, the new user without the password, and a
    token for it; the user is stored with the hash that [bcrypt.hash]
    returned as password, under the next identifier.  A login with that
    username is then answered with 200 and the same user when
    [bcrypt.compare] accepts the password against that hash, and with 401
    when it does not. *)
Theorem register_then_login `{Runtime} (s : MemStorage) (salt : string)
    (now issuedAt issuedAt' : Z) (userData : InsertUser.t) (attempt : string) :
  reachable s →
  getUserByUsername (InsertUser.username userData) s = None →
  let id := userIdCounter s in
  let username := InsertUser.username userData in
  let hash := bcrypt_hash salt (InsertUser.password userData) in
  let user :=
    User.mk id username hash (InsertUser.email userData)
      (InsertUser.fullName userData) (InsertUser.profileImage userData)
      (InsertUser.telegramToken userData) (InsertUser.telegramChatId userData)
      (Some now) in
  let r := register salt now issuedAt (Valid userData) s in
  r.1 = mkResponse 201 (JsonSession (withoutPassword user) (jwt_sign id username issuedAt))
  ∧ users r.2 = users s ++ [(id, user)]
  ∧ getUserByUsername username r.2 = Some user
  ∧ login issuedAt' (Valid (Login.mk username attempt)) r.2
    = if bcrypt_compare attempt hash
      then (mkResponse 200
              (JsonSession (withoutPassword user) (jwt_sign id username issuedAt')),
            r.2)
      else (mkResponse 401 (JsonMessage "Geçersiz kullanıcı adı veya şifre"), r.2).
Proof.
  intros Hs Hfree id username hash user r. subst username.
  apply reachable_wf in Hs.
  pose proof (map_wf_fresh _ _ _ (wf_users _ Hs)) as Hfresh.
  assert (r = (mkResponse 201 (JsonSession (withoutPassword user)
                                 (jwt_sign id (InsertUser.username userData) issuedAt)),
               set_users (users s ++ [(id, user)]) (id + 1) s)) as ->.
  { unfold r, register. rewrite Hfree. unfold createUser.
    by rewrite JsMapFacts.set_new. }
  assert (getUserByUsername (InsertUser.username userData)
            (set_users (users s ++ [(id, user)]) (id + 1) s) = Some user) as Hfound.
  { unfold getUserByUsername in *. simpl. unfold JsMap.values in *.
    rewrite map_app, find_username_app, Hfree. simpl.
    by rewrite String.eqb_refl. }
  split; [done|]. split; [done|]. split; [done|].
  unfold login. cbn [fst snd Login.username Login.password]. rewrite Hfound.
  simpl. by destruct (bcrypt_compare attempt hash).
Qed.

(** On a new server: ayse registers, then logs in with her password. *)
Lemma register_then_login_witness :
  let r := register (H := exampleRuntime) "tuz" 1 2 (Valid (exampleUser "ayse" "dogru"))
             (MemStorage_new 0 0 0) in
  status r.1 = 201
  ∧ status (login (H := exampleRuntime) 3 (Valid (Login.mk "ayse" "dogru")) r.2).1 = 200
  ∧ status (login (H := exampleRuntime) 3 (Valid (Login.mk "ayse" "yanlis")) r.2).1 = 401.
Proof.
  intros r.
  assert (reachable (H := exampleRuntime) (MemStorage_new 0 0 0)) as Hr.
  { by exists 0, 0, 0, []. }
  pose proof (register_then_login (H := exampleRuntime) (MemStorage_new 0 0 0)
                "tuz" 1 2 3 (exampleUser "ayse" "dogru")) as Hthm.
  destruct (Hthm "dogru" Hr eq_refl) as (Hreg & _ & _ & Hgood).
  destruct (Hthm "yanlis" Hr eq_refl) as (_ & _ & _ & Hbad).
  split; [exact (f_equal status Hreg)|].
  split; [exact (f_equal (λ x, status x.1) Hgood)|].
  exact (f_equal (λ x, status x.1) Hbad).
Defined.

(** ** One authorized operation per call *)

Section Calls.
Context `{Runtime} `{Verifier} `{Calendar}.

Lemma secured_cases (call : Call) handler s :
  (principalOf call = None
   ∧ (secured call handler s).2 = s
   ∧ code (secured call handler s).1 = 401
   ∧ ∃ text, payload (secured call handler s).1 = Basic (JsonMessage text))
  ∨ ∃ p, principalOf call = Some p ∧ secured call handler s = handler p s.
Proof.
  unfold secured, principalOf.
  destruct (authenticate (verifiedAt call) (authorization call))
    as [response|[p username]] eqn:Hauth; [left|right; eauto].
  destruct (proj2 (authenticate_cases (verifiedAt call) (authorization call) (0, ""))
              response Hauth) as [Hstatus [text Hbody]].
  simpl. rewrite Hbody. eauto.
Qed.

(** A call leaves the store as it is or performs one operation of the
    store, and that operation is authorized for the principal of the call. *)
Lemma serve_one_operation (call : Call) (s : MemStorage) :
  (serve call s).2 = s
  ∨ ∃ op, (serve call s).2 = step op s ∧ authorized (principalOf call) op s.
Proof.
  unfold serve. destruct (request call) eqn:Hreq.
  - unfold register. destruct parsed as [d|]; [|by left].
    destruct (getUserByUsername (InsertUser.username d) s) eqn:Hfree; [by left|].
    right. exists (CreateUser salt now d). split; [|done].
    simpl. by destruct (createUser salt now d s).
  - left. unfold login. by repeat case_match.
  - destruct (secured_cases call meRoute s) as [(_ & -> & _)|(p & Hp & ->)];
      [by left|]. left. unfold meRoute. by case_match.
  - destruct (secured_cases call listClientsRoute s) as [(_ & -> & _)|(p & Hp & ->)];
      by left.
  - destruct (secured_cases call (λ p s, replyOf (getClientRoute p id s)) s)
      as [(_ & -> & _)|(p & Hp & ->)]; [by left|].
    left. unfold getClientRoute. by repeat case_match.
  - destruct (secured_cases call (λ p, postClientRoute p now nowActivity parsed) s)
      as [(_ & -> & _)|(p & Hp & ->)]; [by left|].
    unfold postClientRoute. destruct parsed as [d|]; [|by left].
    right. exists (CreateClient now nowActivity (InsertClient_withUserId p d)).
    split; [|done]. simpl.
    by destruct (createClient now nowActivity (InsertClient_withUserId p d) s).
  - destruct (secured_cases call (λ p s, replyOf (putClientRoute p id reqBody s)) s)
      as [(_ & -> & _)|(p & Hp & ->)]; [by left|].
    unfold putClientRoute.
    destruct (getClient id s) as [c|] eqn:Hc; [|by left].
    destruct (Z.eqb_spec (Client.userId c) p) as [Hown|]; [|by left].
    right. exists (UpdateClient id reqBody). split.
    + simpl. destruct (updateClient id reqBody s) as [[u|] s']; done.
    + exists c. by rewrite Hp, Hown.
  - destruct (secured_cases call (λ p s, replyOf (deleteClientRoute p id s)) s)
      as [(_ & -> & _)|(p & Hp & ->)]; [by left|].
    unfold deleteClientRoute.
    destruct (getClient id s) as [c|] eqn:Hc; [|by left].
    destruct (Z.eqb_spec (Client.userId c) p) as [Hown|]; [|by left].
    right. exists (DeleteClient id). split.
    + simpl. by destruct (deleteClient id s).
    + exists c. by rewrite Hp, Hown.
  - destruct (secured_cases call (λ p, listMeasurementsRoute p clientId) s)
      as [(_ & -> & _)|(p & Hp & ->)]; [by left|].
    left. unfold listMeasurementsRoute. by repeat case_match.
  - destruct (secured_cases call
                (λ p, postMeasurementRoute p clientId nowActivity parsed) s)
      as [(_ & -> & _)|(p & Hp & ->)]; [by left|].
    unfold postMeasurementRoute.
    destruct (getClient clientId s) as [c|] eqn:Hc; [|by left].
    destruct (Z.eqb_spec (Client.userId c) p) as [Hown|]; [|by left].
    destruct parsed as [d|]; [|by left].
    right. exists (CreateMeasurement nowActivity (InsertMeasurement_withClientId clientId d)).
    split.
    + cbn [step].
      by destruct (createMeasurement nowActivity
                     (InsertMeasurement_withClientId clientId d) s).
    + exists c. by rewrite Hp, Hown.
  - destruct (secured_cases call listDietPlansRoute s)
      as [(_ & -> & _)|(p & Hp & ->)]; by left.
  - destruct (secured_cases call (λ p, listClientDietPlansRoute p clientId) s)
      as [(_ & -> & _)|(p & Hp & ->)]; [by left|].
    left. unfold listClientDietPlansRoute. by repeat case_match.
  - destruct (secured_cases call
                (λ p, postDietPlanRoute p clientId now nowActivity parsed) s)
      as [(_ & -> & _)|(p & Hp & ->)]; [by left|].
    unfold postDietPlanRoute.
    destruct (getClient clientId s) as [c|] eqn:Hc; [|by left].
    destruct (Z.eqb_spec (Client.userId c) p) as [Hown|]; [|by left].
    destruct parsed as [d|]; [|by left].
    right. exists (CreateDietPlan now nowActivity (InsertDietPlan_withIds p clientId d)).
    split.
    + cbn [step].
      by destruct (createDietPlan now nowActivity
                     (InsertDietPlan_withIds p clientId d) s).
    + split; [done|]. exists c. by rewrite Hp, Hown.
  - destruct (secured_cases call (λ p, putDietPlanRoute p id reqBody) s)
      as [(_ & -> & _)|(p & Hp & ->)]; [by left|].
    unfold putDietPlanRoute.
    destruct (getDietPlan id s) as [c|] eqn:Hc; [|by left].
    destruct (Z.eqb_spec (DietPlan.userId c) p) as [Hown|]; [|by left].
    right. exists (UpdateDietPlan id reqBody). split.
    + simpl. by destruct (updateDietPlan id reqBody s).
    + exists c. by rewrite Hp, Hown.
  - destruct (secured_cases call listAppointmentsRoute s)
      as [(_ & -> & _)|(p & Hp & ->)]; by left.
  - destruct (secured_cases call (λ p, listClientAppointmentsRoute p clientId) s)
      as [(_ & -> & _)|(p & Hp & ->)]; [by left|].
    left. unfold listClientAppointmentsRoute. by repeat case_match.
  - destruct (secured_cases call (λ p, postAppointmentRoute p now nowActivity parsed) s)
      as [(_ & -> & _)|(p & Hp & ->)]; [by left|].
    unfold postAppointmentRoute. destruct parsed as [d|]; [|by left].
    cbn [InsertAppointment.clientId InsertAppointment_withUserId].
    destruct (getClient (InsertAppointment.clientId d) s) as [c|] eqn:Hc; [|by left].
    destruct (Z.eqb_spec (Client.userId c) p) as [Hown|]; [|by left].
    right. exists (CreateAppointment now nowActivity (InsertAppointment_withUserId p d)).
    split.
    + cbn [step].
      by destruct (createAppointment now nowActivity
                     (InsertAppointment_withUserId p d) s).
    + split; [done|]. exists c. by rewrite Hp, Hown.
  - destruct (secured_cases call (λ p, putAppointmentRoute p id reqBody) s)
      as [(_ & -> & _)|(p & Hp & ->)]; [by left|].
    unfold putAppointmentRoute.
    destruct (getAppointment id s) as [c|] eqn:Hc; [|by left].
    destruct (Z.eqb_spec (Appointment.userId c) p) as [Hown|]; [|by left].
    right. exists (UpdateAppointment id reqBody). split.
    + simpl. by destruct (updateAppointment id reqBody s).
    + exists c. by rewrite Hp, Hown.
  - destruct (secured_cases call (λ p, listActivitiesRoute p limit) s)
      as [(_ & -> & _)|(p & Hp & ->)]; by left.
  - by left.
  - left. unfold blogArticleRoute. by case_match.
  - destruct (secured_cases call (λ p, dashboardStatsRoute p now) s)
      as [(_ & -> & _)|(p & Hp & ->)]; by left.
Qed.
End Calls.

(** ** What the calls keep *)

Section Kept.
Context `{Runtime} `{Verifier} `{Calendar}.

Local Ltac unfold_step :=
  cbn [step];
  unfold createUser, createClient, createMeasurement, createDietPlan,
    createAppointment, createBlogArticle, createActivity, updateClient,
    updateMeasurement, updateDietPlan, updateAppointment;
  rewrite ?deleteClient_snd, ?deleteMeasurement_snd, ?deleteDietPlan_snd,
    ?deleteAppointment_snd.

Lemma serve_wf call s : wf s → wf (serve call s).2.
Proof.
  intros Hwf. destruct (serve_one_operation call s) as [->|(op & -> & _)];
    [done|by apply step_wf].
Qed.

Lemma serve_reachable call s : reachable s → reachable (serve call s).2.
Proof.
  intros Hs. destruct (serve_one_operation call s) as [->|(op & -> & _)];
    [done|by apply reachable_step].
Qed.

Lemma serveAll_reachable calls s : reachable s → reachable (serveAll calls s).
Proof.
  revert s. induction calls as [|call calls IH]; intros s Hs; simpl; [done|].
  by apply IH, serve_reachable.
Qed.

Lemma get_set_fresh {V : Type} (k k' : Z) (v v' : V) (m : JsMap.t V) :
  JsMap.get k m = Some v → JsMap.get k' m = None →
  JsMap.get k (JsMap.set k' v' m) = Some v.
Proof.
  intros Hk Hk'. rewrite JsMapFacts.get_set_ne; [done|]. intros ->. congruence.
Qed.

Lemma authorized_performed p op s : authorized p op s → performed p op s.
Proof. by destruct op. Qed.

(** An operation that is performed leaves every stored measurement as it
    is. *)
Lemma step_keeps_measurement p op s id m :
  performed p op s → wf s →
  getMeasurement id s = Some m → getMeasurement id (step op s) = Some m.
Proof.
  intros Hauth Hwf Hm. unfold getMeasurement in *.
  pose proof (map_wf_fresh _ _ _ (wf_measurements _ Hwf)) as Hfresh.
  destruct op; try done; unfold_step; repeat case_match; simpl; try done;
    by apply get_set_fresh.
Qed.

(** It removes no diet plan and no appointment, and changes no article. *)
Lemma step_keeps_plans p op s id :
  performed p op s → wf s →
  (getDietPlan id s ≠ None → getDietPlan id (step op s) ≠ None)
  ∧ (getAppointment id s ≠ None → getAppointment id (step op s) ≠ None)
  ∧ blogArticles (step op s) = blogArticles s.
Proof.
  intros Hauth Hwf. unfold getDietPlan, getAppointment.
  destruct op; try done; unfold_step; repeat case_match; simpl;
    repeat split; try done; intros Hid.
  - destruct (decide (dietPlanIdCounter s = id)) as [<-|Hne];
      [by rewrite JsMapFacts.get_set_eq|by rewrite JsMapFacts.get_set_ne].
  - destruct (decide (id0 = id)) as [<-|Hne];
      [by rewrite JsMapFacts.get_set_eq|by rewrite JsMapFacts.get_set_ne].
  - destruct (decide (appointmentIdCounter s = id)) as [<-|Hne];
      [by rewrite JsMapFacts.get_set_eq|by rewrite JsMapFacts.get_set_ne].
  - destruct (decide (id0 = id)) as [<-|Hne];
      [by rewrite JsMapFacts.get_set_eq|by rewrite JsMapFacts.get_set_ne].
Qed.

(** X12: whatever the calls to a server are: a stored measurement is never
    changed or removed, a diet plan or an appointment is never removed, the
    blog articles stay as they are, and users and activities are only added
    at the end. *)
Theorem the_api_never_removes (calls : list Call) (s : MemStorage) :
  reachable s →
  (∀ id m, getMeasurement id s = Some m →
           getMeasurement id (serveAll calls s) = Some m)
  ∧ (∀ id, getDietPlan id s ≠ None → getDietPlan id (serveAll calls s) ≠ None)
  ∧ (∀ id, getAppointment id s ≠ None → getAppointment id (serveAll calls s) ≠ None)
  ∧ blogArticles (serveAll calls s) = blogArticles s
  ∧ (∃ added, users (serveAll calls s) = users s ++ added)
  ∧ (∃ added, activities (serveAll calls s) = activities s ++ added).
Proof.
  revert s. induction calls as [|call calls IH]; intros s Hs; simpl.
  { repeat split; try done; exists []; by rewrite app_nil_r. }
  pose proof (reachable_wf _ Hs) as Hwf.
  destruct (IH _ (serve_reachable call s Hs)) as (Hm & Hd & Ha & Hb & [u Hu] & [a Hac]).
  fold (serveAll calls (serve call s).2) in *.
  destruct (serve_one_operation call s) as [Heq|(op & Heq & Hauth)];
    rewrite Heq in *.
  { repeat split; eauto. }
  apply authorized_performed in Hauth.
  destruct (step_keeps_plans _ _ _ 0 Hauth Hwf) as (_ & _ & Hblog).
  destruct (step_appends op s Hwf) as ([u0 Hu0] & [a0 Ha0] & _).
  repeat split.
  - intros id m Hid. eapply Hm, step_keeps_measurement; eauto.
  - intros id Hid. by eapply Hd, (step_keeps_plans _ _ _ id Hauth Hwf).
  - intros id Hid. by eapply Ha, (step_keeps_plans _ _ _ id Hauth Hwf).
  - by rewrite Hb.
  - exists (u0 ++ u). by rewrite Hu, Hu0, app_assoc.
  - exists (a0 ++ a). by rewrite Hac, Ha0, app_assoc.
Qed.
End Kept.

Lemma find_username_None username us :
  find_username username us = None → Forall (λ u, User.username u ≠ username) us.
Proof.
  induction us as [|u us IH]; simpl; [constructor|].
  destruct (String.eqb_spec (User.username u) username); [done|].
  intros Hnone. constructor; auto.
Qed.

Section Isolation.
Context `{Runtime} `{Verifier} `{Calendar}.

Local Ltac unfold_step :=
  cbn [step];
  unfold createUser, createClient, createMeasurement, createDietPlan,
    createAppointment, createBlogArticle, createActivity, updateClient,
    updateMeasurement, updateDietPlan, updateAppointment;
  rewrite ?deleteClient_snd, ?deleteMeasurement_snd, ?deleteDietPlan_snd,
    ?deleteAppointment_snd.

Lemma step_usernames p op s :
  authorized p op s → wf s →
  NoDup (map User.username (JsMap.values (users s))) →
  NoDup (map User.username (JsMap.values (users (step op s)))).
Proof.
  intros Hauth Hwf Hnd.
  pose proof (map_wf_fresh _ _ _ (wf_users _ Hwf)) as Hfresh.
  destruct op; try done; unfold_step; repeat case_match; simpl; try done.
  rewrite JsMapFacts.set_new by done. unfold JsMap.values.
  rewrite !map_app. simpl. apply NoDup_app. split; [done|]. split.
  - intros name Hname Hin. apply list_elem_of_In in Hin as [<-|[]].
    simpl in Hauth. apply find_username_None in Hauth.
    rewrite Forall_forall in Hauth.
    apply list_elem_of_In, in_map_iff in Hname as (u & Hu & Hin).
    by apply (Hauth u (proj2 (list_elem_of_In _ _) Hin)).
  - apply NoDup_singleton.
Qed.

Lemma serveAll_usernames calls s :
  reachable s →
  NoDup (map User.username (JsMap.values (users s))) →
  NoDup (map User.username (JsMap.values (users (serveAll calls s)))).
Proof.
  revert s. induction calls as [|call calls IH]; intros s Hs Hnd; simpl; [done|].
  apply IH; [by apply serve_reachable|].
  destruct (serve_one_operation call s) as [->|(op & -> & Hauth)]; [done|].
  eapply step_usernames; eauto using reachable_wf.
Qed.

(** An operation that is performed leaves the clients, diet plans and
    appointments of the other users as they are. *)
Lemma step_isolation p op s :
  performed p op s → wf s →
  (∀ id c, getClient id s = Some c → p ≠ Some (Client.userId c) →
           getClient id (step op s) = Some c)
  ∧ (∀ id d, getDietPlan id s = Some d → p ≠ Some (DietPlan.userId d) →
             getDietPlan id (step op s) = Some d)
  ∧ (∀ id a, getAppointment id s = Some a → p ≠ Some (Appointment.userId a) →
             getAppointment id (step op s) = Some a).
Proof.
  intros Hauth Hwf. unfold getClient, getDietPlan, getAppointment in *.
  pose proof (map_wf_fresh _ _ _ (wf_clients _ Hwf)) as Hc.
  pose proof (map_wf_fresh _ _ _ (wf_dietPlans _ Hwf)) as Hd.
  pose proof (map_wf_fresh _ _ _ (wf_appointments _ Hwf)) as Ha.
  destruct op; try done; unfold_step; simpl in Hauth; unfold getClient,
    getDietPlan, getAppointment in Hauth; repeat case_match; simpl;
    repeat split; try done; intros k e Hk Hother;
    try (by apply get_set_fresh).
  - destruct Hauth as (c & Hown & ->).
    rewrite JsMapFacts.get_set_ne; [done|]. intros ->. congruence.
  - destruct Hauth as (c & Hown & ->).
    rewrite JsMapFacts.get_delete_ne; [done|]. intros ->. congruence.
  - destruct Hauth as (c & Hown & ->).
    rewrite JsMapFacts.get_set_ne; [done|]. intros ->. congruence.
  - destruct Hauth as (c & Hown & ->).
    rewrite JsMapFacts.get_set_ne; [done|]. intros ->. congruence.
Qed.
End Isolation.

(** ** What the calls show *)

Lemma collect_Forall {A : Type} (test : A → bool) (l : list A) :
  Forall (λ x, test x = true) (Array.collect test l).
Proof.
  rewrite ArrayFacts.collect_filter. apply Forall_forall. intros x Hx.
  apply list_elem_of_In, filter_In in Hx. tauto.
Qed.

Lemma sort_Forall {A : Type} (P : A → Prop) (compareFn : A → A → number)
    (l : list A) :
  Forall P l → Forall P (Array.sort compareFn l).
Proof. intros Hl. by rewrite (ArrayFacts.sort_perm (Array.SortCompare compareFn) l). Qed.

Lemma apply_limit_Forall {A : Type} (P : A → Prop) (limit : option Z) (l : list A) :
  Forall P l → Forall P (Array.apply_limit limit l).
Proof.
  intros Hl. rewrite apply_limit_spec. destruct limit as [n|]; [|done].
  destruct (0 <? n); [by apply Forall_take|done].
Qed.

Section Shown.
Context `{Runtime} `{Verifier} `{Calendar}.

Lemma listings_owned p s :
  Forall (λ c, Client.userId c = p) (getClientsForUser p s)
  ∧ Forall (λ d, DietPlan.userId d = p) (getDietPlansForUser p s)
  ∧ Forall (λ a, Appointment.userId a = p) (getAppointmentsForUser p s)
  ∧ (∀ limit, Forall (λ a, Activity.userId a = p) (getActivitiesForUser p limit s))
  ∧ Forall (λ m, Measurement.clientId m = p) (getMeasurementsForClient p s)
  ∧ Forall (λ d, DietPlan.clientId d = p) (getDietPlansForClient p s)
  ∧ Forall (λ a, Appointment.clientId a = p) (getAppointmentsForClient p s).
Proof.
  unfold getClientsForUser, getDietPlansForUser, getAppointmentsForUser,
    getActivitiesForUser, getMeasurementsForClient, getDietPlansForClient,
    getAppointmentsForClient.
  repeat split; try intros limit;
    try apply apply_limit_Forall; try apply sort_Forall;
    (eapply Forall_impl; [apply collect_Forall|]); simpl; intros x Hx; lia.
Qed.

Local Ltac with_principal call handler s p Hp :=
  destruct (secured_cases call handler s)
    as [(_ & _ & _ & [? ->])|(p & Hp & ->)]; [done|].

(** X15: what a reply shows belongs to the caller: the user of [/api/auth/me] is
    the caller, the listed clients, diet plans, appointments and activities
    are the caller's own or, on the routes under [/api/clients/:clientId],
    those of a client of the caller, and so are the listed measurements. *)
Theorem replies_show_the_callers_entities (call : Call) (s : MemStorage) :
  reachable s →
  match payload (serve call s).1 with
  | JsonUser user =>
      ∃ p, principalOf call = Some p ∧ UserWithoutPassword.id user = p
  | JsonClients l =>
      ∃ p, principalOf call = Some p ∧ Forall (λ c, Client.userId c = p) l
  | JsonMeasurements l =>
      ∃ p clientId client,
        principalOf call = Some p
        ∧ getClient clientId s = Some client ∧ Client.userId client = p
        ∧ Forall (λ m, Measurement.clientId m = clientId) l
  | JsonDietPlans l =>
      ∃ p, principalOf call = Some p
           ∧ (Forall (λ d, DietPlan.userId d = p) l
              ∨ ∃ clientId client,
                  getClient clientId s = Some client ∧ Client.userId client = p
                  ∧ Forall (λ d, DietPlan.clientId d = clientId) l)
  | JsonAppointments l =>
      ∃ p, principalOf call = Some p
           ∧ (Forall (λ a, Appointment.userId a = p) l
              ∨ ∃ clientId client,
                  getClient clientId s = Some client ∧ Client.userId client = p
                  ∧ Forall (λ a, Appointment.clientId a = clientId) l)
  | JsonActivities l =>
      ∃ p, principalOf call = Some p ∧ Forall (λ a, Activity.userId a = p) l
  | JsonStats _ _ _ _ => ∃ p, principalOf call = Some p
  | _ => True
  end.
Proof.
  intros Hwf%reachable_wf. unfold serve.
  destruct (request call).
  - unfold register. by repeat case_match.
  - unfold login. by repeat case_match.
  - with_principal call meRoute s p Hp. unfold meRoute, getUser.
    destruct (JsMap.get p (users s)) as [u|] eqn:Hu; [|done]. simpl.
    exists p. split; [done|].
    by destruct (map_wf_get _ _ _ _ _ (wf_users _ Hwf) Hu).
  - with_principal call listClientsRoute s p Hp. simpl.
    exists p. split; [done|]. apply listings_owned.
  - with_principal call (λ p s, replyOf (getClientRoute p id s)) s p Hp. done.
  - with_principal call (λ p, postClientRoute p now nowActivity parsed) s p Hp.
    unfold postClientRoute. destruct parsed; [|done].
    by destruct (createClient _ _ _ s).
  - with_principal call (λ p s, replyOf (putClientRoute p id reqBody s)) s p Hp. done.
  - with_principal call (λ p s, replyOf (deleteClientRoute p id s)) s p Hp. done.
  - with_principal call (λ p, listMeasurementsRoute p clientId) s p Hp.
    unfold listMeasurementsRoute.
    destruct (getClient clientId s) as [c|] eqn:Hc; [|done].
    destruct (Z.eqb_spec (Client.userId c) p); [|done]. simpl.
    exists p, clientId, c. repeat split; try done. apply listings_owned.
  - with_principal call (λ p, postMeasurementRoute p clientId nowActivity parsed) s p Hp.
    unfold postMeasurementRoute. repeat case_match; try done.
  - with_principal call listDietPlansRoute s p Hp. simpl.
    exists p. split; [done|]. left. apply listings_owned.
  - with_principal call (λ p, listClientDietPlansRoute p clientId) s p Hp.
    unfold listClientDietPlansRoute.
    destruct (getClient clientId s) as [c|] eqn:Hc; [|done].
    destruct (Z.eqb_spec (Client.userId c) p); [|done]. simpl.
    exists p. split; [done|]. right. exists clientId, c.
    repeat split; try done. apply listings_owned.
  - with_principal call (λ p, postDietPlanRoute p clientId now nowActivity parsed) s p Hp.
    unfold postDietPlanRoute. repeat case_match; try done.
  - with_principal call (λ p, putDietPlanRoute p id reqBody) s p Hp.
    unfold putDietPlanRoute. repeat case_match; try done.
  - with_principal call listAppointmentsRoute s p Hp. simpl.
    exists p. split; [done|]. left. apply listings_owned.
  - with_principal call (λ p, listClientAppointmentsRoute p clientId) s p Hp.
    unfold listClientAppointmentsRoute.
    destruct (getClient clientId s) as [c|] eqn:Hc; [|done].
    destruct (Z.eqb_spec (Client.userId c) p); [|done]. simpl.
    exists p. split; [done|]. right. exists clientId, c.
    repeat split; try done. apply listings_owned.
  - with_principal call (λ p, postAppointmentRoute p now nowActivity parsed) s p Hp.
    unfold postAppointmentRoute. repeat case_match; try done.
  - with_principal call (λ p, putAppointmentRoute p id reqBody) s p Hp.
    unfold putAppointmentRoute. repeat case_match; try done.
  - with_principal call (λ p, listActivitiesRoute p limit) s p Hp. simpl.
    exists p. split; [done|]. apply listings_owned.
  - done.
  - unfold blogArticleRoute. by destruct (getBlogArticle id s).
  - with_principal call (λ p, dashboardStatsRoute p now) s p Hp. simpl. eauto.
Qed.
End Shown.

(** ** What a successful [POST] has done *)

Section Created.
Context `{Runtime} `{Verifier} `{Calendar}.

Local Ltac refused call handler s p Hp :=
  destruct (secured_cases call handler s)
    as [(_ & _ & Hcode & _)|(p & Hp & ->)]; [intros Hcreated; lia|].

(** X16: a call answered with 201 has stored what it returns: a registration a
    user and no activity; every other one an entity of the caller, for a
    client of the caller, together with one activity of the caller that
    names that client by its [fullName]. *)
Theorem created_through_the_api (call : Call) (s : MemStorage) :
  reachable s → code (serve call s).1 = 201 →
  let s' := (serve call s).2 in
  let recorded (a : Activity.t) :=
    activities s' = activities s ++ [(activityIdCounter s, a)] in
  match payload (serve call s).1 with
  | Basic (JsonSession user _) =>
      ∃ u, users s' = users s ++ [(userIdCounter s, u)]
           ∧ withoutPassword u = user ∧ activities s' = activities s
  | Basic (JsonClient c) =>
      ∃ p a, principalOf call = Some p
             ∧ Client.userId c = p ∧ getClient (Client.id c) s' = Some c
             ∧ recorded a ∧ Activity.userId a = p
             ∧ Activity.clientId a = Some (Client.id c)
             ∧ Activity.description a = "Yeni danışan eklendi: " +:+ Client.fullName c
  | JsonMeasurement m =>
      ∃ p c a, principalOf call = Some p
               ∧ getClient (Measurement.clientId m) s = Some c ∧ Client.userId c = p
               ∧ getMeasurement (Measurement.id m) s' = Some m
               ∧ recorded a ∧ Activity.userId a = p
               ∧ Activity.clientId a = Some (Measurement.clientId m)
               ∧ Activity.description a
                 = "Yeni ölçüm kaydedildi: " +:+ Client.fullName c +:+ " için"
  | JsonDietPlan (Some d) =>
      ∃ p c a, principalOf call = Some p ∧ DietPlan.userId d = p
               ∧ getClient (DietPlan.clientId d) s = Some c ∧ Client.userId c = p
               ∧ getDietPlan (DietPlan.id d) s' = Some d
               ∧ recorded a ∧ Activity.userId a = p
               ∧ Activity.clientId a = Some (DietPlan.clientId d)
               ∧ Activity.description a
                 = "Yeni diyet planı oluşturuldu: " +:+ Client.fullName c +:+ " için "
                     +:+ DietPlan.name d
  | JsonAppointment (Some ap) =>
      ∃ p c a, principalOf call = Some p ∧ Appointment.userId ap = p
               ∧ getClient (Appointment.clientId ap) s = Some c ∧ Client.userId c = p
               ∧ getAppointment (Appointment.id ap) s' = Some ap
               ∧ recorded a ∧ Activity.userId a = p
               ∧ Activity.clientId a = Some (Appointment.clientId ap)
               ∧ Activity.description a
                 = "Yeni randevu oluşturuldu: " +:+ Client.fullName c +:+ " ile "
                     +:+ toLocaleDateString (Appointment.date ap)
  | _ => False
  end.
Proof.
  intros Hwf%reachable_wf.
  pose proof (map_wf_fresh _ _ _ (wf_users _ Hwf)) as Hu.
  pose proof (map_wf_fresh _ _ _ (wf_activities _ Hwf)) as Ha.
  unfold serve. destruct (request call).
  - unfold register. destruct parsed as [d|]; [|done].
    destruct (getUserByUsername (InsertUser.username d) s); [done|].
    intros _. unfold createUser. simpl. rewrite JsMapFacts.set_new by done. eauto.
  - unfold login. by repeat case_match.
  - refused call meRoute s p Hp. unfold meRoute. by case_match.
  - refused call listClientsRoute s p Hp. done.
  - refused call (λ p s, replyOf (getClientRoute p id s)) s p Hp.
    unfold getClientRoute. by repeat case_match.
  - refused call (λ p, postClientRoute p now nowActivity parsed) s p Hp.
    unfold postClientRoute. destruct parsed as [d|]; [|done].
    intros _. unfold createClient, createActivity, getClient. simpl.
    rewrite JsMapFacts.get_set_eq. rewrite (JsMapFacts.set_new _ _ (activities s)) by done.
    eexists p, _. repeat split; done.
  - refused call (λ p s, replyOf (putClientRoute p id reqBody s)) s p Hp.
    unfold putClientRoute, updateClient, getClient. by repeat case_match.
  - refused call (λ p s, replyOf (deleteClientRoute p id s)) s p Hp.
    unfold deleteClientRoute. repeat case_match; try done.
  - refused call (λ p, listMeasurementsRoute p clientId) s p Hp.
    unfold listMeasurementsRoute. by repeat case_match.
  - refused call (λ p, postMeasurementRoute p clientId nowActivity parsed) s p Hp.
    unfold postMeasurementRoute.
    destruct (getClient clientId s) as [c|] eqn:Hc; [|done].
    destruct (Z.eqb_spec (Client.userId c) p) as [Hown|]; [|done].
    destruct parsed as [d|]; [|done].
    intros _. unfold createMeasurement, createActivity, getMeasurement.
    unfold getClient in Hc. simpl. rewrite Hc. simpl.
    rewrite JsMapFacts.get_set_eq. rewrite (JsMapFacts.set_new _ _ (activities s)) by done.
    eexists p, c, _. repeat split; done.
  - refused call listDietPlansRoute s p Hp. done.
  - refused call (λ p, listClientDietPlansRoute p clientId) s p Hp.
    unfold listClientDietPlansRoute. by repeat case_match.
  - refused call (λ p, postDietPlanRoute p clientId now nowActivity parsed) s p Hp.
    unfold postDietPlanRoute.
    destruct (getClient clientId s) as [c|] eqn:Hc; [|done].
    destruct (Z.eqb_spec (Client.userId c) p) as [Hown|]; [|done].
    destruct parsed as [d|]; [|done].
    intros _. unfold createDietPlan, createActivity, getDietPlan.
    unfold getClient in Hc. simpl. rewrite Hc. simpl.
    rewrite JsMapFacts.get_set_eq. rewrite (JsMapFacts.set_new _ _ (activities s)) by done.
    eexists p, c, _. repeat split; done.
  - refused call (λ p, putDietPlanRoute p id reqBody) s p Hp.
    unfold putDietPlanRoute, updateDietPlan, getDietPlan. by repeat case_match.
  - refused call listAppointmentsRoute s p Hp. done.
  - refused call (λ p, listClientAppointmentsRoute p clientId) s p Hp.
    unfold listClientAppointmentsRoute. by repeat case_match.
  - refused call (λ p, postAppointmentRoute p now nowActivity parsed) s p Hp.
    unfold postAppointmentRoute. destruct parsed as [d|]; [|done]. simpl.
    destruct (getClient (InsertAppointment.clientId d) s) as [c|] eqn:Hc; [|done].
    destruct (Z.eqb_spec (Client.userId c) p) as [Hown|]; [|done].
    intros _. unfold createAppointment, createActivity, getAppointment.
    unfold getClient in Hc. simpl. rewrite Hc. simpl.
    rewrite JsMapFacts.get_set_eq. rewrite (JsMapFacts.set_new _ _ (activities s)) by done.
    eexists p, c, _. repeat split; done.
  - refused call (λ p, putAppointmentRoute p id reqBody) s p Hp.
    unfold putAppointmentRoute, updateAppointment, getAppointment. by repeat case_match.
  - refused call (λ p, listActivitiesRoute p limit) s p Hp. done.
  - done.
  - unfold blogArticleRoute. by destruct (getBlogArticle id s).
  - refused call (λ p, dashboardStatsRoute p now) s p Hp. done.
Qed.
End Created.

(** ** The server, call by call *)

Lemma reachable_new `{Runtime} t1 t2 t3 : reachable (MemStorage_new t1 t2 t3).
Proof. by exists t1, t2, t3, []. Qed.

Lemma served_reachable : reachable (H := exampleRuntime) served.
Proof. apply serveAll_reachable, reachable_new. Qed.

(** X10: a call leaves the store as it is, or performs exactly one operation of
    the store, and then one that the caller is entitled to: see
    [authorized]. *)
Theorem calls_are_authorized `{Runtime} `{Verifier} `{Calendar}
    (call : Call) (s : MemStorage) :
  (serve call s).2 = s
  ∨ ∃ op, (serve call s).2 = step op s ∧ authorized (principalOf call) op s.
Proof. apply serve_one_operation. Qed.

(** X11: without a token that [jwt.verify] accepts, every route but register,
    login and the two blog routes answers 401 with a message and leaves the
    store as it is. *)
Theorem unauthenticated_calls_are_refused `{Runtime} `{Verifier} `{Calendar}
    (call : Call) (s : MemStorage) :
  principalOf call = None →
  match request call with
  | ReqRegister _ _ _ _ | ReqLogin _ _ | ReqListBlog _ | ReqBlogArticle _ => True
  | _ =>
      (serve call s).2 = s ∧ code (serve call s).1 = 401
      ∧ ∃ text, payload (serve call s).1 = Basic (JsonMessage text)
  end.
Proof.
  intros Hnone. unfold serve.
  destruct (request call); try done;
    match goal with
    | |- context [secured call ?handler s] =>
        destruct (secured_cases call handler s) as [(_ & ? & ? & ?)|(p & Hp & _)];
          [done|congruence]
    end.
Qed.

(** A deletion without a token, on the store [twoClients]. *)
Lemma unauthenticated_calls_are_refused_witness :
  let reply :=
    serve (H := exampleRuntime) (H0 := exampleVerifier) (H1 := exampleCalendar)
      (anonymous (ReqDeleteClient 1)) twoClients in
  reply.2 = twoClients ∧ code reply.1 = 401
  ∧ ∃ text, payload reply.1 = Basic (JsonMessage text).
Proof.
  exact (unauthenticated_calls_are_refused (H := exampleRuntime)
           (H0 := exampleVerifier) (H1 := exampleCalendar)
           (anonymous (ReqDeleteClient 1)) twoClients eq_refl).
Defined.

(** The articles of a new server are those after the example calls. *)
Lemma the_api_never_removes_witness :
  blogArticles served = blogArticles (MemStorage_new 0 0 0).
Proof.
  exact (proj1 (proj2 (proj2 (proj2
    (the_api_never_removes (H := exampleRuntime) (H0 := exampleVerifier)
       (H1 := exampleCalendar) exampleCalls (MemStorage_new 0 0 0)
       (reachable_new (H := exampleRuntime) 0 0 0)))))).
Defined.

(** X14: a call changes no client, diet plan or appointment of a user other than
    the caller, and removes none. *)
Theorem calls_leave_the_entities_of_others `{Runtime} `{Verifier} `{Calendar}
    (call : Call) (s : MemStorage) :
  reachable s →
  (∀ id c, getClient id s = Some c → principalOf call ≠ Some (Client.userId c) →
           getClient id (serve call s).2 = Some c)
  ∧ (∀ id d, getDietPlan id s = Some d →
             principalOf call ≠ Some (DietPlan.userId d) →
             getDietPlan id (serve call s).2 = Some d)
  ∧ (∀ id a, getAppointment id s = Some a →
             principalOf call ≠ Some (Appointment.userId a) →
             getAppointment id (serve call s).2 = Some a).
Proof.
  intros Hs. apply reachable_wf in Hs.
  destruct (serve_one_operation call s) as [->|(op & -> & Hauth)]; [done|].
  apply step_isolation; [by apply authorized_performed|done].
Qed.

(** The client of user 1 stays as it is when it is renamed with the token
    of another user. *)
Lemma calls_leave_the_entities_of_others_witness :
  getClient 1
    (serve (H := exampleRuntime) (H0 := exampleVerifier) (H1 := exampleCalendar)
       (asAyse (ReqPutClient 1 (renameClient "Elif Demir")))
       (createClient 1 1 (exampleClient 2 "Elif Kara") (MemStorage_new 0 0 0)).2).2
  = Some (createClient 1 1 (exampleClient 2 "Elif Kara")
            (MemStorage_new 0 0 0)).1.
Proof.
  assert (reachable (H := exampleRuntime)
            (createClient 1 1 (exampleClient 2 "Elif Kara") (MemStorage_new 0 0 0)).2)
    as Hr.
  { eexists 0, 0, 0, [CreateClient 1 1 (exampleClient 2 "Elif Kara")].
    vm_compute. reflexivity. }
  apply (proj1 (calls_leave_the_entities_of_others (H := exampleRuntime)
                  (H0 := exampleVerifier) (H1 := exampleCalendar) _ _ Hr)).
  - vm_compute. reflexivity.
  - vm_compute. intros Heq. discriminate Heq.
Defined.

(** The activities that user [ayse] is shown after the example calls. *)
Lemma replies_show_the_callers_entities_witness :
  ∃ p, principalOf (H0 := exampleVerifier) (asAyse (ReqListActivities None)) = Some p
       ∧ Forall (λ a, Activity.userId a = p) (getActivitiesForUser 1 None served).
Proof.
  exact (replies_show_the_callers_entities (H := exampleRuntime)
           (H0 := exampleVerifier) (H1 := exampleCalendar)
           (asAyse (ReqListActivities None)) served served_reachable).
Defined.

(** User [ayse] adds a diet plan for the client of the example calls; the
    body names another user and another client, to no effect. *)
Lemma created_through_the_api_witness :
  let call := asAyse (ReqPostDietPlan 1 6 6 (Valid (exampleDietPlan 9 9 "Koruma"))) in
  ∃ d, payload (serve (H := exampleRuntime) (H0 := exampleVerifier)
                  (H1 := exampleCalendar) call served).1 = JsonDietPlan (Some d)
       ∧ DietPlan.userId d = 1 ∧ DietPlan.clientId d = 1.
Proof.
  intros call.
  pose proof (created_through_the_api (H := exampleRuntime) (H0 := exampleVerifier)
                (H1 := exampleCalendar) call served served_reachable) as Hc.
  destruct (payload (serve (H := exampleRuntime) (H0 := exampleVerifier)
                       (H1 := exampleCalendar) call served).1) eqn:Hp;
    vm_compute in Hp; try discriminate Hp.
  destruct dietPlan as [d|]; [|discriminate Hp].
  exists d. split; [reflexivity|].
  injection Hp as <-. vm_compute. split; reflexivity.
Defined.

(** ** A client that changes hands *)

(** X17: [PUT /api/clients/:id] stores the [userId] of the body.  Once the owner
    [p] of a client has sent the [userId] of another user [q], the client is
    [q]'s: [p] is refused with 403 on it, also when trying to take it back,
    and [q] is shown it, and the diet plans made for it; they are still
    among the diet plans of [p]. *)
Theorem client_changes_hands (s : MemStorage) (p q id : Z)
    (client : Client.t) (reqBody back : PartialInsertClient.t) :
  getClient id s = Some client → Client.userId client = p →
  PartialInsertClient.userId reqBody = Some q → q ≠ p →
  let r := putClientRoute p id reqBody s in
  let moved := spreadClient client reqBody in
  r = (mkResponse 200 (JsonClient moved), r.2)
  ∧ Client.userId moved = q
  ∧ getClientRoute p id r.2
    = (mkResponse 403 (JsonMessage "Bu danışana erişim izniniz yok"), r.2)
  ∧ putClientRoute p id back r.2
    = (mkResponse 403 (JsonMessage "Bu danışanı güncelleme izniniz yok"), r.2)
  ∧ getClientRoute q id r.2 = (mkResponse 200 (JsonClient moved), r.2)
  ∧ listClientDietPlansRoute q id r.2
    = (mkReply 200 (JsonDietPlans (getDietPlansForClient id s)), r.2)
  ∧ listDietPlansRoute p r.2
    = (mkReply 200 (JsonDietPlans (getDietPlansForUser p s)), r.2).
Proof.
  intros Hc Hp Hq Hne r moved.
  assert (r = (mkResponse 200 (JsonClient moved),
               set_clients (JsMap.set id moved (clients s)) (clientIdCounter s) s))
    as ->.
  { unfold r, putClientRoute, updateClient. rewrite Hc.
    unfold getClient in Hc. rewrite Hc, Hp, Z.eqb_refl. done. }
  assert (Client.userId moved = q) as Hmoved.
  { unfold moved, spreadClient. simpl. by rewrite Hq. }
  unfold getClientRoute, putClientRoute, listClientDietPlansRoute,
    listDietPlansRoute, getClient. cbn [fst snd clients set_clients].
  rewrite JsMapFacts.get_set_eq, Hmoved, Z.eqb_refl.
  destruct (Z.eqb_spec q p); [done|]. done.
Qed.

(** Client 1 of user 1, with its diet plan, is handed to user 2. *)
Lemma client_changes_hands_witness :
  let r := putClientRoute 1 1 (handOver 2) twoClients in
  status (getClientRoute 1 1 r.2).1 = 403
  ∧ status (getClientRoute 2 1 r.2).1 = 200
  ∧ (listClientDietPlansRoute 2 1 r.2).1
    = mkReply 200 (JsonDietPlans (getDietPlansForUser 1 twoClients)).
Proof.
  intros r.
  destruct (JsMap.get 1 (clients twoClients)) as [client|] eqn:Hc;
    [|vm_compute in Hc; discriminate Hc].
  assert (Client.userId client = 1) as Hown.
  { vm_compute in Hc. by injection Hc as <-. }
  assert (2 ≠ 1) as Hne by lia.
  destruct (client_changes_hands twoClients 1 2 1 client
              (handOver 2) (handOver 1) Hc Hown eq_refl Hne)
    as (_ & _ & Hp & _ & Hq & Hl & _).
  fold r in Hp, Hq, Hl. split; [by rewrite Hp|]. split; [by rewrite Hq|].
  rewrite Hl. vm_compute. reflexivity.
Defined.

(** ** The session *)

(** X18: the token that a registration returns opens the session of the new
    user: when [jwt.verify] reads out of the token what [jwt.sign] has put
    into it, and the token has no space in it, [GET /api/auth/me] with the
    header [Bearer <token>] is answered with the user that the registration
    has returned. *)
Theorem session_round_trip `{Runtime} `{Verifier} `{Calendar} (s : MemStorage)
    (salt : string) (now issuedAt checkedAt : Z) (userData : InsertUser.t)
    (user : UserWithoutPassword.t) (token : string) :
  reachable s →
  let r := register salt now issuedAt (Valid userData) s in
  r.1 = mkResponse 201 (JsonSession user token) →
  split Ascii.Space token = [token] →
  jwt_verify token checkedAt
  = Some (UserWithoutPassword.id user, UserWithoutPassword.username user) →
  serve (mkCall (Some ("Bearer " +:+ token)) checkedAt ReqMe) r.2
  = (mkReply 200 (JsonUser user), r.2).
Proof.
  intros Hs r Hr Htoken Hverify. apply reachable_wf in Hs.
  pose proof (map_wf_fresh _ _ _ (wf_users _ Hs)) as Hfresh.
  unfold serve, secured. cbn [request authorization verifiedAt].
  assert (authenticate checkedAt (Some ("Bearer " +:+ token))
          = inr (UserWithoutPassword.id user, UserWithoutPassword.username user))
    as ->.
  { apply authenticate_cases. exists token, "". rewrite append_empty_r.
    repeat split; auto. }
  revert Hr. unfold r, register.
  destruct (getUserByUsername (InsertUser.username userData) s); [done|].
  unfold createUser. cbn [fst snd]. intros [= <- <-].
  unfold meRoute, getUser. cbn [users set_users withoutPassword UserWithoutPassword.id
    User.id]. by rewrite JsMapFacts.get_set_eq.
Qed.

(** The first registration on a new server, with the toy runtime and the
    toy verifier. *)
Lemma session_round_trip_witness :
  let r := register (H := exampleRuntime) "tuz" 1 1 (Valid (exampleUser "ayse" "dogru"))
             (MemStorage_new 0 0 0) in
  ∃ user, (serve (H := exampleRuntime) (H0 := exampleVerifier)
             (H1 := exampleCalendar) (asAyse ReqMe) r.2).1
          = mkReply 200 (JsonUser user)
          ∧ UserWithoutPassword.username user = "ayse".
Proof.
  intros r.
  destruct r.1 as [code [| user token | | |]] eqn:Hr;
    try (vm_compute in Hr; discriminate Hr).
  assert (code = 201 ∧ token = "jwt.ayse" ∧ UserWithoutPassword.id user = 1
          ∧ UserWithoutPassword.username user = "ayse") as (-> & -> & Hid & Hname).
  { vm_compute in Hr. injection Hr as <- <- <-. by vm_compute. }
  exists user. split; [|done].
  assert (jwt_verify (Verifier := exampleVerifier) "jwt.ayse" 5
          = Some (UserWithoutPassword.id user, UserWithoutPassword.username user))
    as Hv by (by rewrite Hid, Hname).
  exact (f_equal fst
           (session_round_trip (H := exampleRuntime) (H0 := exampleVerifier)
              (H1 := exampleCalendar) (MemStorage_new 0 0 0) "tuz" 1 1 5
              (exampleUser "ayse" "dogru") user "jwt.ayse"
              (reachable_new (H := exampleRuntime) 0 0 0) Hr eq_refl Hv)).
Defined.

(** ** Calls that overlap *)

Section Overlapping.
Context `{Runtime} `{Verifier} `{Calendar}.

(** A registration that nothing interrupts is its two parts, one after the
    other. *)
Lemma register_in_two_parts salt now issuedAt parsed s :
  register salt now issuedAt parsed s
  = match registerCheck parsed s with
    | inl response => (response, s)
    | inr userData => registerStore (Waiting.mk salt now issuedAt userData) s
    end.
Proof.
  unfold register, registerCheck, registerStore.
  destruct parsed as [d|]; [|done].
  by destruct (getUserByUsername (InsertUser.username d) s).
Qed.

(** Calls that do not overlap are served one after the other. *)
Lemma deliverAll_oneByOne calls s :
  deliverAll (oneByOne calls) (mkServer s []) = mkServer (serveAll calls s) [].
Proof.
  revert s. induction calls as [|call calls IH]; intros s; [done|].
  unfold oneByOne, deliverAll in *. cbn [flat_map]. rewrite fold_left_app.
  unfold serveAll. cbn [fold_left]. fold (serveAll calls (serve call s).2).
  rewrite <- IH. f_equal.
  destruct (request call) eqn:Hreq; cbn [fold_left deliver];
    rewrite ?Hreq; cbn [store waiting fst snd]; try done.
  unfold serve. rewrite Hreq, register_in_two_parts.
  destruct (registerCheck parsed s) as [response|d]; [done|]. cbn.
  by destruct (registerStore (Waiting.mk salt now issuedAt d) s).
Qed.


End Overlapping.

(** X13: as long as the calls to a server do not overlap, no two of its users
    have the same username.  Two registrations that overlap can break this:
    when both names are checked before either user is stored, and the name
    is the same and free, both registrations are answered with 201 and both
    users are stored, under consecutive identifiers. *)
Theorem usernames_unique_unless_registrations_overlap
    `{Runtime} `{Verifier} `{Calendar} :
  (∀ (t1 t2 t3 : Z) (calls : list Call),
     let server :=
       deliverAll (oneByOne calls) (mkServer (MemStorage_new t1 t2 t3) []) in
     NoDup (map User.username (JsMap.values (users (store server)))))
  ∧ (∀ (s : MemStorage) (first second : Call) (w1 w2 : Waiting.t),
       reachable s →
       request first
       = ReqRegister (Waiting.salt w1) (Waiting.now w1) (Waiting.issuedAt w1)
           (Valid (Waiting.userData w1)) →
       request second
       = ReqRegister (Waiting.salt w2) (Waiting.now w2) (Waiting.issuedAt w2)
           (Valid (Waiting.userData w2)) →
       InsertUser.username (Waiting.userData w1)
       = InsertUser.username (Waiting.userData w2) →
       getUserByUsername (InsertUser.username (Waiting.userData w1)) s = None →
       let checked := deliverAll [Arrives first; Arrives second] (mkServer s []) in
       let one := deliver (Hashed 0) checked in
       let two := deliver (Hashed 0) one.2 in
       ∃ u1 u2,
         code <$> one.1 = Some 201 ∧ code <$> two.1 = Some 201
         ∧ users (store two.2)
           = users s ++ [(userIdCounter s, u1); (userIdCounter s + 1, u2)]
         ∧ User.username u1 = User.username u2).
Proof.
  split.
  - intros t1 t2 t3 calls server. unfold server. rewrite deliverAll_oneByOne.
    apply serveAll_usernames; [apply reachable_new|]. simpl. constructor.
  - intros s first second [salt1 now1 issued1 d1] [salt2 now2 issued2 d2] Hs
      Hfirst Hsecond Hsame Hfree checked one two.
    cbn [Waiting.salt Waiting.now Waiting.issuedAt Waiting.userData] in *.
    apply reachable_wf in Hs.
    pose proof (map_wf_fresh _ _ _ (wf_users _ Hs)) as Hfresh.
    pose proof (map_wf_fresh _ _ _
                  (wf_users _ (createUser_wf salt1 now1 d1 s Hs))) as Hfresh'.
    assert (checked
            = mkServer s [Waiting.mk salt1 now1 issued1 d1;
                          Waiting.mk salt2 now2 issued2 d2]) as Hchecked.
    { unfold checked, deliverAll. cbn [fold_left deliver].
      rewrite Hfirst. cbn [registerCheck store]. rewrite Hfree. cbn.
      rewrite Hsecond. cbn [registerCheck store]. by rewrite <- Hsame, Hfree. }
    unfold two, one. rewrite Hchecked.
    unfold createUser in Hfresh'. cbn in Hfresh'.
    cbn. rewrite (JsMapFacts.set_new _ _ (users s)) by done.
    rewrite JsMapFacts.set_new
      by (by rewrite <- (JsMapFacts.set_new _ _ (users s)) by done).
    rewrite <- app_assoc. cbn. eexists _, _. repeat split. cbn. done.
Qed.

(** On a new server, with the toy runtime: two registrations as [ayse], the
    second arriving while the first waits for its hash. *)
Lemma usernames_unique_unless_registrations_overlap_witness :
  let server :=
    deliverAll (H := exampleRuntime) (H0 := exampleVerifier) (H1 := exampleCalendar)
      [Arrives (anonymous (ReqRegister "tuz" 1 1 (Valid (exampleUser "ayse" "dogru"))));
       Arrives (anonymous (ReqRegister "biber" 2 2 (Valid (exampleUser "ayse" "baska"))));
       Hashed 0; Hashed 0]
      (mkServer (MemStorage_new 0 0 0) []) in
  map User.username (JsMap.values (users (store server))) = ["ayse"; "ayse"].
Proof.
  intros server.
  destruct (proj2 (usernames_unique_unless_registrations_overlap
                     (H := exampleRuntime) (H0 := exampleVerifier)
                     (H1 := exampleCalendar))
              (MemStorage_new 0 0 0)
              (anonymous (ReqRegister "tuz" 1 1 (Valid (exampleUser "ayse" "dogru"))))
              (anonymous (ReqRegister "biber" 2 2 (Valid (exampleUser "ayse" "baska"))))
              (Waiting.mk "tuz" 1 1 (exampleUser "ayse" "dogru"))
              (Waiting.mk "biber" 2 2 (exampleUser "ayse" "baska"))
              (reachable_new (H := exampleRuntime) 0 0 0)
              eq_refl eq_refl eq_refl eq_refl)
    as (u1 & u2 & _ & _ & Husers & Hsame).
  vm_compute. reflexivity.
Defined.



(** ** Elapsed time *)

Lemma div_below (x d n : Z) : 0 < d → (x / d <? n) = (x <? d * n).
Proof.
  intros Hd. destruct (Z.ltb_spec (x / d) n), (Z.ltb_spec x (d * n)); try done.
  - pose proof (Z.div_le_lower_bound x d n Hd). lia.
  - pose proof (Z.div_lt_upper_bound x d n Hd). lia.
Qed.

(** As far as a double holds every integer, the difference is exact. *)
Lemma toDouble_exact (z : Z) : Z.abs z ≤ 2 ^ 53 → toDouble z = z.
Proof.
  intros Hz. unfold toDouble.
  destruct (Z.leb_spec (Z.log2 (Z.abs z) - 52) 0) as [_|Hk]; [done|].
  assert (0 < Z.abs z) as Hpos.
  { destruct z; [change (Z.log2 (Z.abs 0)) with 0 in Hk|..]; lia. }
  assert (2 ^ 53 ≤ Z.abs z) as Hlow by (apply Z.log2_le_pow2; lia).
  assert (Z.abs z = 2 ^ 53) as Habs by lia.
  rewrite Habs. change (Z.log2 (2 ^ 53) - 52) with 1. cbn.
  destruct z; simpl in Habs; try done; injection Habs as ->; reflexivity.
Qed.

(** The difference of two time values stays below 2^54 when rounded. *)
Lemma toDouble_below (z : Z) : Z.abs z < 2 ^ 54 → Z.abs (toDouble z) ≤ 2 ^ 54.
Proof.
  intros Hz. unfold toDouble.
  destruct (Z.leb_spec (Z.log2 (Z.abs z) - 52) 0) as [_|Hk]; [lia|].
  assert (0 < Z.abs z) as Hpos.
  { destruct z; [change (Z.log2 (Z.abs 0)) with 0 in Hk|..]; lia. }
  assert (2 ^ 53 ≤ Z.abs z) as Hlow by (apply Z.log2_le_pow2; lia).
  assert (Z.log2 (Z.abs z) < 54) as Hhigh by (apply Z.log2_lt_pow2; lia).
  replace (Z.log2 (Z.abs z) - 52) with 1 by lia.
  change (2 ^ 1) with 2. change (2 / 2) with 1.
  rewrite Z.abs_mul.
  replace (Z.abs (Z.sgn z)) with 1 by (destruct z; simpl in *; lia).
  pose proof (Z.div_mod (Z.abs z) 2 ltac:(lia)) as Hdiv.
  pose proof (Z.mod_pos_bound (Z.abs z) 2 ltac:(lia)) as Hmod.
  repeat case_match; lia.
Qed.

(** X19: [getTimeSince] for a date and a clock reading that a [Date] can hold,
    in terms of the milliseconds [e] that have passed, as a double holds
    them: the nested roundings amount to these thresholds.  A date in the
    future counts as just now; between 28 and 30 days the count of months is
    0, and between 360 and 365 days the count of years is 0.  An invalid
    date gives [NaN yıl önce]. *)
Theorem getTimeSince_spec (now date : Z) :
  Z.abs now ≤ maxTime → Z.abs date ≤ maxTime →
  let e := toDouble (now - date) in
  let day := 86400000 in
  (Z.abs (now - date) ≤ 2 ^ 53 → e = now - date)
  ∧ Z.abs e ≤ 2 ^ 54
  ∧ getTimeSince now (Int date)
    = (if e <? 60000 then "Az önce"
       else if e <? 3600000 then pretty (e / 60000) +:+ " dakika önce"
       else if e <? day then pretty (e / 3600000) +:+ " saat önce"
       else if e <? 7 * day then pretty (e / day) +:+ " gün önce"
       else if e <? 28 * day then pretty (e / (7 * day)) +:+ " hafta önce"
       else if e <? 30 * day then "0 ay önce"
       else if e <? 360 * day then pretty (e / (30 * day)) +:+ " ay önce"
       else if e <? 365 * day then "0 yıl önce"
       else pretty (e / (365 * day)) +:+ " yıl önce")
  ∧ getTimeSince now NaN = "NaN yıl önce".
Proof.
  intros Hnow Hdate e day. unfold maxTime in *.
  split; [apply toDouble_exact|]. split; [apply toDouble_below; lia|].
  split; [|done].
  unfold getTimeSince. cbn [minusRounded minus floorDiv lessThan toText]. fold e.
  rewrite !Z.div_div by lia. rewrite !div_below by lia.
  change (1000 * 60) with 60000.
  change (60000 * 60) with 3600000.
  change (3600000 * 24) with day.
  change (day * 7) with (7 * day).
  change (7 * day * 4) with (28 * day).
  change (day * 30) with (30 * day).
  change (30 * day * 12) with (360 * day).
  change (day * 365) with (365 * day).
  destruct (e <? 60000); [done|]. destruct (e <? 3600000); [done|].
  destruct (e <? day); [done|]. destruct (e <? 7 * day); [done|].
  destruct (e <? 28 * day) eqn:H28; [done|].
  destruct (Z.ltb_spec e (30 * day)) as [H30|H30].
  - destruct (Z.ltb_spec e (360 * day)); [|lia].
    apply Z.ltb_ge in H28. by rewrite (Z.div_small e (30 * day)) by lia.
  - destruct (e <? 360 * day) eqn:H360; [done|].
    destruct (Z.ltb_spec e (365 * day)); [|done].
    apply Z.ltb_ge in H360. by rewrite (Z.div_small e (365 * day)) by lia.
Qed.

(** Two dates that are more than 2^53 milliseconds apart: the difference,
    15767999999999999, is rounded up to 15768000000000000, which is 500000
    times 365 days. *)
Lemma getTimeSince_spec_witness :
  getTimeSince 7884000000000000 (Int (-7883999999999999)) = "500000 yıl önce".
Proof.
  rewrite (proj1 (proj2 (proj2
    (getTimeSince_spec 7884000000000000 (-7883999999999999)
       ltac:(vm_compute; discriminate) ltac:(vm_compute; discriminate))))).
  vm_compute. reflexivity.
Defined.
